(** * Task manager: row-level security and the soft-delete lifecycle

    A shallow embedding of the database migration (tables, row-level
    security policies, triggers) and of the client calls that move a task
    between the active, trashed and purged states.

    Tables are lists of rows.  A policy is a pair of SQL boolean
    expressions over the row, [auth.uid()] and the other tables; SQL's
    three-valued logic is kept, a policy passing only when its expression
    is [true] (neither [false] nor [NULL]). *)

From Stdlib Require Import String List Bool ZArith Lia.
From Stdlib Require Import Sorted.
Import ListNotations.
Local Open Scope string_scope.
Local Open Scope bool_scope.

(** ** SQL values *)

Definition uuid := string.
Definition timestamptz := Z.
Definition date := string.

(** A nullable boolean: [None] is SQL's NULL. *)
Definition sqlbool := option bool.

Definition sql_and (a b : sqlbool) : sqlbool :=
  match a, b with
  | Some false, _ => Some false
  | _, Some false => Some false
  | Some true, Some true => Some true
  | _, _ => None
  end.

Definition sql_or (a b : sqlbool) : sqlbool :=
  match a, b with
  | Some true, _ => Some true
  | _, Some true => Some true
  | Some false, Some false => Some false
  | _, _ => None
  end.

Definition sql_not (a : sqlbool) : sqlbool := option_map negb a.

(** [a = b] on nullable operands. *)
Definition sql_eq {A : Type} (eqb : A -> A -> bool) (a b : option A) : sqlbool :=
  match a, b with
  | Some x, Some y => Some (eqb x y)
  | _, _ => None
  end.

(** A WHERE clause, a USING or a WITH CHECK expression keeps a row only
    when it evaluates to true. *)
Definition holds (b : sqlbool) : bool :=
  match b with
  | Some true => true
  | _ => false
  end.

(** [EXISTS (SELECT 1 FROM rows WHERE cond)]; never NULL. *)
Definition sql_exists {A : Type} (rows : list A) (cond : A -> sqlbool) : sqlbool :=
  Some (existsb (fun r => holds (cond r)) rows).

(** [COALESCE(a, b)] with a non-null fallback. *)
Definition coalesce {A : Type} (a : option A) (b : A) : A :=
  match a with
  | Some x => x
  | None => b
  end.

(** ** Column domains (the CHECK constraints of the migration) *)

Inductive Role := admin | employee.
Inductive ProfileStatus := active | disabled.
Inductive TaskStatus := to_do | in_progress | done.
Inductive Priority := low | medium | high.
Inductive Category := work | personal.

Definition Role_eqb (a b : Role) : bool :=
  match a, b with
  | admin, admin | employee, employee => true
  | _, _ => false
  end.

Definition ProfileStatus_eqb (a b : ProfileStatus) : bool :=
  match a, b with
  | active, active | disabled, disabled => true
  | _, _ => false
  end.

(** ** Rows *)

(** [auth.users], as far as the migration reads it. *)
Module AuthUser.
Record row := {
    id : uuid;
    email : option string
  }.
End AuthUser.

Module Profile.
Record row := {
    id : uuid;
    username : string;
    role : Role;
    status : ProfileStatus;
    created_at : option timestamptz;
    updated_at : option timestamptz
  }.

Definition set_username (v : string) (r : row) : row :=
    {| id := id r; username := v; role := role r; status := status r;
       created_at := created_at r; updated_at := updated_at r |}.

Definition set_role (v : Role) (r : row) : row :=
    {| id := id r; username := username r; role := v; status := status r;
       created_at := created_at r; updated_at := updated_at r |}.

Definition set_status (v : ProfileStatus) (r : row) : row :=
    {| id := id r; username := username r; role := role r; status := v;
       created_at := created_at r; updated_at := updated_at r |}.

Definition set_updated_at (v : option timestamptz) (r : row) : row :=
    {| id := id r; username := username r; role := role r; status := status r;
       created_at := created_at r; updated_at := v |}.
End Profile.

Module Task.
Record row := {
    id : uuid;
    title : string;
    description : option string;
    status : TaskStatus;
    priority : Priority;
    due_date : option date;
    category : Category;
    tags : option (list string);
    created_by : option uuid;
    is_deleted : option bool;
    deleted_at : option timestamptz;
    created_at : option timestamptz;
    updated_at : option timestamptz
  }.

Definition set_title (v : string) (r : row) : row :=
    {| id := id r; title := v; description := description r;
       status := status r; priority := priority r; due_date := due_date r;
       category := category r; tags := tags r; created_by := created_by r;
       is_deleted := is_deleted r; deleted_at := deleted_at r;
       created_at := created_at r; updated_at := updated_at r |}.

Definition set_description (v : option string) (r : row) : row :=
    {| id := id r; title := title r; description := v;
       status := status r; priority := priority r; due_date := due_date r;
       category := category r; tags := tags r; created_by := created_by r;
       is_deleted := is_deleted r; deleted_at := deleted_at r;
       created_at := created_at r; updated_at := updated_at r |}.

Definition set_status (v : TaskStatus) (r : row) : row :=
    {| id := id r; title := title r; description := description r;
       status := v; priority := priority r; due_date := due_date r;
       category := category r; tags := tags r; created_by := created_by r;
       is_deleted := is_deleted r; deleted_at := deleted_at r;
       created_at := created_at r; updated_at := updated_at r |}.

Definition set_priority (v : Priority) (r : row) : row :=
    {| id := id r; title := title r; description := description r;
       status := status r; priority := v; due_date := due_date r;
       category := category r; tags := tags r; created_by := created_by r;
       is_deleted := is_deleted r; deleted_at := deleted_at r;
       created_at := created_at r; updated_at := updated_at r |}.

Definition set_due_date (v : option date) (r : row) : row :=
    {| id := id r; title := title r; description := description r;
       status := status r; priority := priority r; due_date := v;
       category := category r; tags := tags r; created_by := created_by r;
       is_deleted := is_deleted r; deleted_at := deleted_at r;
       created_at := created_at r; updated_at := updated_at r |}.

Definition set_category (v : Category) (r : row) : row :=
    {| id := id r; title := title r; description := description r;
       status := status r; priority := priority r; due_date := due_date r;
       category := v; tags := tags r; created_by := created_by r;
       is_deleted := is_deleted r; deleted_at := deleted_at r;
       created_at := created_at r; updated_at := updated_at r |}.

Definition set_tags (v : option (list string)) (r : row) : row :=
    {| id := id r; title := title r; description := description r;
       status := status r; priority := priority r; due_date := due_date r;
       category := category r; tags := v; created_by := created_by r;
       is_deleted := is_deleted r; deleted_at := deleted_at r;
       created_at := created_at r; updated_at := updated_at r |}.

Definition set_is_deleted (v : option bool) (r : row) : row :=
    {| id := id r; title := title r; description := description r;
       status := status r; priority := priority r; due_date := due_date r;
       category := category r; tags := tags r; created_by := created_by r;
       is_deleted := v; deleted_at := deleted_at r;
       created_at := created_at r; updated_at := updated_at r |}.

Definition set_deleted_at (v : option timestamptz) (r : row) : row :=
    {| id := id r; title := title r; description := description r;
       status := status r; priority := priority r; due_date := due_date r;
       category := category r; tags := tags r; created_by := created_by r;
       is_deleted := is_deleted r; deleted_at := v;
       created_at := created_at r; updated_at := updated_at r |}.

Definition set_updated_at (v : option timestamptz) (r : row) : row :=
    {| id := id r; title := title r; description := description r;
       status := status r; priority := priority r; due_date := due_date r;
       category := category r; tags := tags r; created_by := created_by r;
       is_deleted := is_deleted r; deleted_at := deleted_at r;
       created_at := created_at r; updated_at := v |}.
End Task.

Module TaskAssignee.
Record row := {
    id : uuid;
    task_id : option uuid;
    user_id : option uuid;
    assigned_at : option timestamptz
  }.
End TaskAssignee.

Module TaskComment.
Record row := {
    id : uuid;
    task_id : option uuid;
    user_id : option uuid;
    content : string;
    created_at : option timestamptz
  }.

Definition set_content (v : string) (r : row) : row :=
    {| id := id r; task_id := task_id r; user_id := user_id r;
       content := v; created_at := created_at r |}.
End TaskComment.

Module TaskAttachment.
Record row := {
    id : uuid;
    task_id : option uuid;
    file_name : string;
    file_url : string;
    file_type : option string;
    uploaded_by : option uuid;
    created_at : option timestamptz
  }.
End TaskAttachment.

(** ** The database *)

Record database := {
  auth_users : list AuthUser.row;
  profiles : list Profile.row;
  tasks : list Task.row;
  task_assignees : list TaskAssignee.row;
  task_comments : list TaskComment.row;
  task_attachments : list TaskAttachment.row
}.

Definition set_auth_users (v : list AuthUser.row) (db : database) : database :=
  {| auth_users := v; profiles := profiles db; tasks := tasks db;
     task_assignees := task_assignees db; task_comments := task_comments db;
     task_attachments := task_attachments db |}.

Definition set_profiles (v : list Profile.row) (db : database) : database :=
  {| auth_users := auth_users db; profiles := v; tasks := tasks db;
     task_assignees := task_assignees db; task_comments := task_comments db;
     task_attachments := task_attachments db |}.

Definition set_tasks (v : list Task.row) (db : database) : database :=
  {| auth_users := auth_users db; profiles := profiles db; tasks := v;
     task_assignees := task_assignees db; task_comments := task_comments db;
     task_attachments := task_attachments db |}.

Definition set_task_assignees (v : list TaskAssignee.row) (db : database) : database :=
  {| auth_users := auth_users db; profiles := profiles db; tasks := tasks db;
     task_assignees := v; task_comments := task_comments db;
     task_attachments := task_attachments db |}.

Definition set_task_comments (v : list TaskComment.row) (db : database) : database :=
  {| auth_users := auth_users db; profiles := profiles db; tasks := tasks db;
     task_assignees := task_assignees db; task_comments := v;
     task_attachments := task_attachments db |}.

Definition set_task_attachments (v : list TaskAttachment.row) (db : database) : database :=
  {| auth_users := auth_users db; profiles := profiles db; tasks := tasks db;
     task_assignees := task_assignees db; task_comments := task_comments db;
     task_attachments := v |}.

(** ** Subjects and policies *)

(** The database role of a request and the identity [auth.uid()] reads
    from it: NULL for an anonymous request. *)
Inductive db_role := anon | authenticated.

Inductive subject :=
| Anonymous
| Authenticated (uid : uuid).

Definition role_of (s : subject) : db_role :=
  match s with
  | Anonymous => anon
  | Authenticated _ => authenticated
  end.

Definition auth_uid (s : subject) : option uuid :=
  match s with
  | Anonymous => None
  | Authenticated u => Some u
  end.

Inductive command := SELECT | INSERT | UPDATE | DELETE.

Definition command_eqb (a b : command) : bool :=
  match a, b with
  | SELECT, SELECT | INSERT, INSERT | UPDATE, UPDATE | DELETE, DELETE => true
  | _, _ => false
  end.

Definition db_role_eqb (a b : db_role) : bool :=
  match a, b with
  | anon, anon | authenticated, authenticated => true
  | _, _ => false
  end.

(** A policy expression sees the database, the subject and the row. *)
Definition expr (R : Type) := database -> subject -> R -> sqlbool.

(** [CREATE POLICY name ON table FOR cmd TO role USING (..) WITH CHECK (..)]. *)
Record policy (R : Type) := {
  pol_name : string;
  pol_for : command;
  pol_to : db_role;
  pol_using : option (expr R);
  pol_with_check : option (expr R)
}.
Arguments pol_name {R} _.
Arguments pol_for {R} _.
Arguments pol_to {R} _.
Arguments pol_using {R} _.
Arguments pol_with_check {R} _.

Section Evaluation.
Context {R : Type}.
Variable policies : list (policy R).

Definition applies (p : policy R) (c : command) (s : subject) : bool :=
    command_eqb (pol_for p) c && db_role_eqb (pol_to p) (role_of s).

  (** An omitted USING admits every row; an omitted WITH CHECK falls back
      on USING. *)
Definition using_expr (p : policy R) : expr R :=
    match pol_using p with
    | Some e => e
    | None => fun _ _ _ => Some true
    end.

Definition check_expr (p : policy R) : expr R :=
    match pol_with_check p with
    | Some e => e
    | None => using_expr p
    end.

  (** Row-level security is enabled on every table and all policies are
      permissive: the policies of a command are OR-ed, and a command no
      policy covers is denied.  The migration grants and revokes nothing,
      so the table privileges are the platform's (every command open to
      the authenticated role) and the policies alone decide. *)
Definition allow_using (c : command) (db : database) (s : subject) (r : R) : bool :=
    existsb (fun p => applies p c s && holds (using_expr p db s r)) policies.

Definition allow_check (c : command) (db : database) (s : subject) (r : R) : bool :=
    existsb (fun p => applies p c s && holds (check_expr p db s r)) policies.

  (** The rows a subject's SELECT returns. *)
Definition visible (db : database) (s : subject) (rows : list R) : list R :=
    filter (allow_using SELECT db s) rows.
End Evaluation.


(** ** Policies on [profiles] *)

(** USING (status = 'active' OR id = auth.uid()) *)
Definition Users_can_view_active_profiles : policy Profile.row :=
  {| pol_name := "Users can view active profiles";
     pol_for := SELECT; pol_to := authenticated;
     pol_using := Some (fun _ s r =>
       sql_or (Some (ProfileStatus_eqb (Profile.status r) active))
              (sql_eq String.eqb (Some (Profile.id r)) (auth_uid s)));
     pol_with_check := None |}.

Definition profiles_select_policies : list (policy Profile.row) :=
  [Users_can_view_active_profiles].

(** EXISTS (SELECT 1 FROM profiles
            WHERE profiles.id = auth.uid() AND profiles.role = 'admin').
    The subquery of a policy runs as the requesting subject, so it reads
    [profiles] through that table's own SELECT policies. *)
Definition exists_admin_profile {R : Type} : expr R :=
  fun db s _ =>
    sql_exists (visible profiles_select_policies db s (profiles db))
      (fun p => sql_and (sql_eq String.eqb (Some (Profile.id p)) (auth_uid s))
                        (Some (Role_eqb (Profile.role p) admin))).

(** USING (id = auth.uid()) WITH CHECK (id = auth.uid()) *)
Definition Users_can_update_own_profile : policy Profile.row :=
  {| pol_name := "Users can update own profile";
     pol_for := UPDATE; pol_to := authenticated;
     pol_using := Some (fun _ s r =>
       sql_eq String.eqb (Some (Profile.id r)) (auth_uid s));
     pol_with_check := Some (fun _ s r =>
       sql_eq String.eqb (Some (Profile.id r)) (auth_uid s)) |}.

Definition Admins_can_update_any_profile : policy Profile.row :=
  {| pol_name := "Admins can update any profile";
     pol_for := UPDATE; pol_to := authenticated;
     pol_using := Some exists_admin_profile;
     pol_with_check := Some exists_admin_profile |}.

(** WITH CHECK (id = auth.uid()) *)
Definition Users_can_insert_own_profile : policy Profile.row :=
  {| pol_name := "Users can insert own profile";
     pol_for := INSERT; pol_to := authenticated;
     pol_using := None;
     pol_with_check := Some (fun _ s r =>
       sql_eq String.eqb (Some (Profile.id r)) (auth_uid s)) |}.

Definition profiles_policies : list (policy Profile.row) :=
  (profiles_select_policies ++
   [Users_can_update_own_profile; Admins_can_update_any_profile;
    Users_can_insert_own_profile])%list.

(** ** Policies on [task_assignees] *)

(** USING (true) *)
Definition Users_can_view_task_assignments : policy TaskAssignee.row :=
  {| pol_name := "Users can view task assignments";
     pol_for := SELECT; pol_to := authenticated;
     pol_using := Some (fun _ _ _ => Some true);
     pol_with_check := None |}.

Definition Admins_can_create_task_assignments : policy TaskAssignee.row :=
  {| pol_name := "Admins can create task assignments";
     pol_for := INSERT; pol_to := authenticated;
     pol_using := None;
     pol_with_check := Some exists_admin_profile |}.

Definition Admins_can_delete_task_assignments : policy TaskAssignee.row :=
  {| pol_name := "Admins can delete task assignments";
     pol_for := DELETE; pol_to := authenticated;
     pol_using := Some exists_admin_profile;
     pol_with_check := None |}.

Definition task_assignees_policies : list (policy TaskAssignee.row) :=
  [Users_can_view_task_assignments; Admins_can_create_task_assignments;
   Admins_can_delete_task_assignments].

(** ** Policies on [tasks] *)

(** EXISTS (SELECT 1 FROM task_assignees
            WHERE task_assignees.task_id = tasks.id
            AND task_assignees.user_id = auth.uid()) *)
Definition exists_assignment : expr Task.row :=
  fun db s t =>
    sql_exists (visible task_assignees_policies db s (task_assignees db))
      (fun a => sql_and
                  (sql_eq String.eqb (TaskAssignee.task_id a) (Some (Task.id t)))
                  (sql_eq String.eqb (TaskAssignee.user_id a) (auth_uid s))).

(** USING (is_deleted = false) *)
Definition Users_can_view_non_deleted_tasks : policy Task.row :=
  {| pol_name := "Users can view non-deleted tasks";
     pol_for := SELECT; pol_to := authenticated;
     pol_using := Some (fun _ _ t =>
       sql_eq Bool.eqb (Task.is_deleted t) (Some false));
     pol_with_check := None |}.

(** USING (is_deleted = true AND EXISTS (admin profile)) *)
Definition Users_can_view_deleted_tasks : policy Task.row :=
  {| pol_name := "Users can view deleted tasks";
     pol_for := SELECT; pol_to := authenticated;
     pol_using := Some (fun db s t =>
       sql_and (sql_eq Bool.eqb (Task.is_deleted t) (Some true))
               (exists_admin_profile db s t));
     pol_with_check := None |}.

Definition Admins_can_create_tasks : policy Task.row :=
  {| pol_name := "Admins can create tasks";
     pol_for := INSERT; pol_to := authenticated;
     pol_using := None;
     pol_with_check := Some exists_admin_profile |}.

Definition Admins_can_update_any_task : policy Task.row :=
  {| pol_name := "Admins can update any task";
     pol_for := UPDATE; pol_to := authenticated;
     pol_using := Some exists_admin_profile;
     pol_with_check := Some exists_admin_profile |}.

(** USING (EXISTS (assignment) AND NOT is_deleted)
    WITH CHECK (EXISTS (assignment) AND NOT is_deleted) *)
Definition Employees_can_update_assigned_task_status : policy Task.row :=
  {| pol_name := "Employees can update assigned task status";
     pol_for := UPDATE; pol_to := authenticated;
     pol_using := Some (fun db s t =>
       sql_and (exists_assignment db s t) (sql_not (Task.is_deleted t)));
     pol_with_check := Some (fun db s t =>
       sql_and (exists_assignment db s t) (sql_not (Task.is_deleted t))) |}.

(** No policy is declared FOR DELETE on [tasks]. *)
Definition tasks_policies : list (policy Task.row) :=
  [Users_can_view_non_deleted_tasks; Users_can_view_deleted_tasks;
   Admins_can_create_tasks; Admins_can_update_any_task;
   Employees_can_update_assigned_task_status].

(** ** Policies on [task_comments] and [task_attachments] *)

(** EXISTS (SELECT 1 FROM tasks
            WHERE tasks.id = task_id AND tasks.is_deleted = false),
    [task_id] being the column of the comment or attachment checked. *)
Definition exists_live_task (task_id : option uuid) (db : database) (s : subject) : sqlbool :=
  sql_exists (visible tasks_policies db s (tasks db))
    (fun t => sql_and (sql_eq String.eqb (Some (Task.id t)) task_id)
                      (sql_eq Bool.eqb (Task.is_deleted t) (Some false))).

Definition Users_can_view_comments : policy TaskComment.row :=
  {| pol_name := "Users can view comments";
     pol_for := SELECT; pol_to := authenticated;
     pol_using := Some (fun db s c => exists_live_task (TaskComment.task_id c) db s);
     pol_with_check := None |}.

Definition Users_can_create_comments : policy TaskComment.row :=
  {| pol_name := "Users can create comments";
     pol_for := INSERT; pol_to := authenticated;
     pol_using := None;
     pol_with_check := Some (fun db s c => exists_live_task (TaskComment.task_id c) db s) |}.

(** USING (user_id = auth.uid()) WITH CHECK (user_id = auth.uid()) *)
Definition Users_can_update_own_comments : policy TaskComment.row :=
  {| pol_name := "Users can update own comments";
     pol_for := UPDATE; pol_to := authenticated;
     pol_using := Some (fun _ s c =>
       sql_eq String.eqb (TaskComment.user_id c) (auth_uid s));
     pol_with_check := Some (fun _ s c =>
       sql_eq String.eqb (TaskComment.user_id c) (auth_uid s)) |}.

(** USING (user_id = auth.uid()) *)
Definition Users_can_delete_own_comments : policy TaskComment.row :=
  {| pol_name := "Users can delete own comments";
     pol_for := DELETE; pol_to := authenticated;
     pol_using := Some (fun _ s c =>
       sql_eq String.eqb (TaskComment.user_id c) (auth_uid s));
     pol_with_check := None |}.

Definition task_comments_policies : list (policy TaskComment.row) :=
  [Users_can_view_comments; Users_can_create_comments;
   Users_can_update_own_comments; Users_can_delete_own_comments].

Definition Users_can_view_attachments : policy TaskAttachment.row :=
  {| pol_name := "Users can view attachments";
     pol_for := SELECT; pol_to := authenticated;
     pol_using := Some (fun db s a => exists_live_task (TaskAttachment.task_id a) db s);
     pol_with_check := None |}.

Definition Users_can_upload_attachments : policy TaskAttachment.row :=
  {| pol_name := "Users can upload attachments";
     pol_for := INSERT; pol_to := authenticated;
     pol_using := None;
     pol_with_check := Some (fun db s a => exists_live_task (TaskAttachment.task_id a) db s) |}.

(** USING (uploaded_by = auth.uid()) *)
Definition Users_can_delete_own_attachments : policy TaskAttachment.row :=
  {| pol_name := "Users can delete own attachments";
     pol_for := DELETE; pol_to := authenticated;
     pol_using := Some (fun _ s a =>
       sql_eq String.eqb (TaskAttachment.uploaded_by a) (auth_uid s));
     pol_with_check := None |}.

Definition Admins_can_delete_any_attachment : policy TaskAttachment.row :=
  {| pol_name := "Admins can delete any attachment";
     pol_for := DELETE; pol_to := authenticated;
     pol_using := Some exists_admin_profile;
     pol_with_check := None |}.

Definition task_attachments_policies : list (policy TaskAttachment.row) :=
  [Users_can_view_attachments; Users_can_upload_attachments;
   Users_can_delete_own_attachments; Admins_can_delete_any_attachment].

(** ** Statements under row-level security *)

(** What a statement can answer instead of a new state: the new row fails
    the WITH CHECK of every policy, a constraint of the schema is broken,
    or a value does not parse as its column's type. *)
Inductive error :=
| rls_violation (table : string)
| constraint_violation
| invalid_input (column : string).

Inductive result (A : Type) :=
| Ok (a : A)
| Err (e : error).
Arguments Ok {A} a.
Arguments Err {A} e.

Definition bind {A B : Type} (c : result A) (k : A -> result B) : result B :=
  match c with
  | Ok a => k a
  | Err e => Err e
  end.

Notation "x <- c ;; k" := (bind c (fun x => k))
  (at level 61, c at next level, right associativity).

(** The state a statement leaves: a failed statement changes nothing. *)
Definition state_after (db : database) (r : result database) : database :=
  match r with
  | Ok db' => db'
  | Err _ => db
  end.

(** [UPDATE t SET .. WHERE ..], [DELETE FROM t WHERE ..] and
    [INSERT INTO t VALUES ..], each with an optional RETURNING.  The SET
    list assigns constants, so [upd_set] does not count as reading. *)
Record update_stmt (R : Type) := {
  upd_set : R -> R;
  upd_where : option (R -> bool);
  upd_returning : bool
}.
Arguments upd_set {R} _.
Arguments upd_where {R} _.
Arguments upd_returning {R} _.

Record delete_stmt (R : Type) := {
  del_where : option (R -> bool);
  del_returning : bool
}.
Arguments del_where {R} _.
Arguments del_returning {R} _.

Record insert_stmt (R : Type) := {
  ins_rows : list R;
  ins_returning : bool
}.
Arguments ins_rows {R} _.
Arguments ins_returning {R} _.

Section Statements.
Context {R : Type}.
Variable policies : list (policy R).
Variable table : string.

(** A statement that reads columns of its table (a WHERE or a RETURNING)
    needs SELECT rights as well: the SELECT policies are then applied on
    top of the command's own, to the old row and to the new one. *)
Definition reads_rows (cond : option (R -> bool)) (returning : bool) : bool :=
  match cond with
  | Some _ => true
  | None => returning
  end.

Definition matches (cond : option (R -> bool)) (r : R) : bool :=
  match cond with
  | Some f => f r
  | None => true
  end.

Definition readable (reads : bool) (db : database) (s : subject) (r : R) : bool :=
  if reads then allow_using policies SELECT db s r else true.

(** The rows a statement acts on; the others are skipped silently. *)
Definition targeted (c : command) (db : database) (s : subject)
    (cond : option (R -> bool)) (returning : bool) (r : R) : bool :=
  matches cond r && allow_using policies c db s r
  && readable (reads_rows cond returning) db s r.

(** [before_update] is the table's BEFORE UPDATE row trigger. *)
Definition update_row (before_update : R -> R) (db : database) (s : subject)
    (st : update_stmt R) (r : R) : result R :=
  if targeted UPDATE db s (upd_where st) (upd_returning st) r then
    let r' := before_update (upd_set st r) in
    if allow_check policies UPDATE db s r'
       && readable (reads_rows (upd_where st) (upd_returning st)) db s r'
    then Ok r'
    else Err (rls_violation table)
  else Ok r.

Fixpoint update_rows (before_update : R -> R) (db : database) (s : subject)
    (st : update_stmt R) (rows : list R) : result (list R) :=
  match rows with
  | [] => Ok []
  | r :: rest =>
      r' <- update_row before_update db s st r ;;
      rest' <- update_rows before_update db s st rest ;;
      Ok (r' :: rest')
  end.

Definition deleted_rows (db : database) (s : subject) (st : delete_stmt R)
    (rows : list R) : list R :=
  filter (targeted DELETE db s (del_where st) (del_returning st)) rows.

Definition delete_rows (db : database) (s : subject) (st : delete_stmt R)
    (rows : list R) : list R :=
  filter (fun r => negb (targeted DELETE db s (del_where st) (del_returning st) r)) rows.

Definition insert_rows (db : database) (s : subject) (st : insert_stmt R)
    (rows : list R) : result (list R) :=
  if forallb (fun r => allow_check policies INSERT db s r
                       && readable (ins_returning st) db s r) (ins_rows st)
  then Ok (rows ++ ins_rows st)%list
  else Err (rls_violation table).
End Statements.

(** ** Constraints of the schema *)

Fixpoint nodupb {A : Type} (eqb : A -> A -> bool) (l : list A) : bool :=
  match l with
  | [] => true
  | x :: rest => negb (existsb (eqb x) rest) && nodupb eqb rest
  end.

(** A nullable foreign key is either NULL or one of the referenced keys. *)
Definition references (keys : list uuid) (fk : option uuid) : bool :=
  match fk with
  | None => true
  | Some k => existsb (String.eqb k) keys
  end.

Definition pair_eqb (a b : uuid * uuid) : bool :=
  String.eqb (fst a) (fst b) && String.eqb (snd a) (snd b).

(** The pairs UNIQUE(task_id, user_id) compares: a row with a NULL in
    either column never conflicts. *)
Definition assignment_keys (rows : list TaskAssignee.row) : list (uuid * uuid) :=
  flat_map (fun a =>
    match TaskAssignee.task_id a, TaskAssignee.user_id a with
    | Some t, Some u => [(t, u)]
    | _, _ => []
    end) rows.

(** Primary keys, UNIQUE columns and foreign keys of the six tables. *)
Definition constraints_ok (db : database) : bool :=
  let users := map AuthUser.id (auth_users db) in
  let pids := map Profile.id (profiles db) in
  let tids := map Task.id (tasks db) in
  nodupb String.eqb users
  && (nodupb String.eqb pids
      && nodupb String.eqb (map Profile.username (profiles db))
      && forallb (fun k => existsb (String.eqb k) users) pids)
  && (nodupb String.eqb tids
      && forallb (references pids) (map Task.created_by (tasks db)))
  && (nodupb String.eqb (map TaskAssignee.id (task_assignees db))
      && forallb (references tids) (map TaskAssignee.task_id (task_assignees db))
      && forallb (references pids) (map TaskAssignee.user_id (task_assignees db))
      && nodupb pair_eqb (assignment_keys (task_assignees db)))
  && (nodupb String.eqb (map TaskComment.id (task_comments db))
      && forallb (references tids) (map TaskComment.task_id (task_comments db))
      && forallb (references pids) (map TaskComment.user_id (task_comments db)))
  && (nodupb String.eqb (map TaskAttachment.id (task_attachments db))
      && forallb (references tids) (map TaskAttachment.task_id (task_attachments db))
      && forallb (references pids) (map TaskAttachment.uploaded_by (task_attachments db))).

Definition commit (db : database) : result database :=
  if constraints_ok db then Ok db else Err constraint_violation.

(** ** Triggers *)

Class HasUpdatedAt (R : Type) := with_updated_at : option timestamptz -> R -> R.

#[global] Instance Profile_HasUpdatedAt : HasUpdatedAt Profile.row :=
  Profile.set_updated_at.

#[global] Instance Task_HasUpdatedAt : HasUpdatedAt Task.row :=
  Task.set_updated_at.

(** NEW.updated_at = now(); RETURN NEW;
    fired BEFORE UPDATE on [profiles] and on [tasks]. *)
Definition update_updated_at_column {R : Type} `{HasUpdatedAt R}
    (now : timestamptz) (NEW : R) : R :=
  with_updated_at (Some now) NEW.

(** INSERT INTO public.profiles (id, username, role, status)
    VALUES (NEW.id, COALESCE(NEW.email, 'user_' || NEW.id::text),
            'employee', 'active');
    SECURITY DEFINER: the insert is not subject to the policies of
    [profiles].  [created_at] and [updated_at] take their default now(). *)
Definition handle_new_user (now : timestamptz) (NEW : AuthUser.row)
    (db : database) : database :=
  set_profiles
    (profiles db ++
     [ {| Profile.id := AuthUser.id NEW;
          Profile.username :=
            coalesce (AuthUser.email NEW)
                     ("user_" ++ AuthUser.id NEW)%string;
          Profile.role := employee;
          Profile.status := active;
          Profile.created_at := Some now;
          Profile.updated_at := Some now |} ])%list
    db.

(** An account is created by a row inserted into [auth.users];
    [on_auth_user_created] fires [handle_new_user] AFTER INSERT, in the
    same transaction. *)
Definition on_auth_user_created (now : timestamptz) (NEW : AuthUser.row)
    (db : database) : result database :=
  commit (handle_new_user now NEW
            (set_auth_users (auth_users db ++ [NEW])%list db)).

(** ** Statements on each table *)

Definition update_profiles (db : database) (s : subject) (now : timestamptz)
    (st : update_stmt Profile.row) : result database :=
  rows <- update_rows profiles_policies "profiles"
            (update_updated_at_column now) db s st (profiles db) ;;
  commit (set_profiles rows db).

Definition update_tasks (db : database) (s : subject) (now : timestamptz)
    (st : update_stmt Task.row) : result database :=
  rows <- update_rows tasks_policies "tasks"
            (update_updated_at_column now) db s st (tasks db) ;;
  commit (set_tasks rows db).

(** ON DELETE CASCADE from [tasks]: the rows referencing a deleted task go
    with it. *)
Definition cascade (gone : list uuid) (fk : option uuid) : bool :=
  match fk with
  | None => true
  | Some k => negb (existsb (String.eqb k) gone)
  end.

Definition delete_tasks (db : database) (s : subject)
    (st : delete_stmt Task.row) : result database :=
  let gone := map Task.id (deleted_rows tasks_policies db s st (tasks db)) in
  commit
    {| auth_users := auth_users db;
       profiles := profiles db;
       tasks := delete_rows tasks_policies db s st (tasks db);
       task_assignees :=
         filter (fun a => cascade gone (TaskAssignee.task_id a)) (task_assignees db);
       task_comments :=
         filter (fun c => cascade gone (TaskComment.task_id c)) (task_comments db);
       task_attachments :=
         filter (fun a => cascade gone (TaskAttachment.task_id a)) (task_attachments db) |}.

Definition insert_task_assignees (db : database) (s : subject)
    (st : insert_stmt TaskAssignee.row) : result database :=
  rows <- insert_rows task_assignees_policies "task_assignees" db s st
            (task_assignees db) ;;
  commit (set_task_assignees rows db).

Definition delete_task_assignees (db : database) (s : subject)
    (st : delete_stmt TaskAssignee.row) : result database :=
  commit (set_task_assignees
            (delete_rows task_assignees_policies db s st (task_assignees db)) db).

Definition select_task_comments (db : database) (s : subject) : list TaskComment.row :=
  visible task_comments_policies db s (task_comments db).

Definition insert_task_comments (db : database) (s : subject)
    (st : insert_stmt TaskComment.row) : result database :=
  rows <- insert_rows task_comments_policies "task_comments" db s st
            (task_comments db) ;;
  commit (set_task_comments rows db).

(** [task_comments] has no BEFORE UPDATE trigger. *)
Definition update_task_comments (db : database) (s : subject)
    (st : update_stmt TaskComment.row) : result database :=
  rows <- update_rows task_comments_policies "task_comments"
            (fun r => r) db s st (task_comments db) ;;
  commit (set_task_comments rows db).

Definition delete_task_comments (db : database) (s : subject)
    (st : delete_stmt TaskComment.row) : result database :=
  commit (set_task_comments
            (delete_rows task_comments_policies db s st (task_comments db)) db).

Definition select_tasks (db : database) (s : subject) : list Task.row :=
  visible tasks_policies db s (tasks db).

Definition insert_tasks (db : database) (s : subject)
    (st : insert_stmt Task.row) : result database :=
  rows <- insert_rows tasks_policies "tasks" db s st (tasks db) ;;
  commit (set_tasks rows db).

(** ** Client calls

    Each call takes what the page reads from its context: the store, the
    subject of the session, the server clock, the profile the session
    loaded, and the answers of the dialogs. *)

(** [profile?.role === 'admin'] *)
Definition isAdmin (profile : option Profile.row) : bool :=
  match profile with
  | Some p => Role_eqb (Profile.role p) admin
  | None => false
  end.

(** [.eq('id', v)] on [tasks] *)
Definition eq_id (v : uuid) : option (Task.row -> bool) :=
  Some (fun t => String.eqb (Task.id t) v).

(** [.eq('task_id', v)] on [task_assignees] *)
Definition eq_task_id (v : uuid) : option (TaskAssignee.row -> bool) :=
  Some (fun a => holds (sql_eq String.eqb (TaskAssignee.task_id a) (Some v))).

Module TaskModal.

(** [Task & { assignees: Profile[]; comments_count: number }] *)
Record TaskWithAssignees := {
  base : Task.row;
  assignees : list Profile.row;
  comments_count : nat
}.

Record FormData := {
  title : string;
  description : string;
  status : TaskStatus;
  priority : Priority;
  due_date : string;
  category : Category;
  tags : list string;
  assignee_ids : list uuid
}.

(** A [date] column takes the text of a date; the empty string a blank
    date input yields is not one. *)
Definition date_in (v : string) : result (option date) :=
  if String.eqb v "" then Err (invalid_input "due_date") else Ok (Some v).

(** [const { assignees, ...taskData } = formData], as the SET list it
    makes. *)
Definition taskData (formData : FormData) : result (Task.row -> Task.row) :=
  d <- date_in (due_date formData) ;;
  Ok (fun t =>
        Task.set_tags (Some (tags formData))
          (Task.set_category (category formData)
            (Task.set_due_date d
              (Task.set_priority (priority formData)
                (Task.set_status (status formData)
                  (Task.set_description (Some (description formData))
                    (Task.set_title (title formData) t))))))).

(** [isAdmin ? taskData : { status: formData.status }] *)
Definition updateData (profile : option Profile.row) (formData : FormData)
    : result (Task.row -> Task.row) :=
  if isAdmin profile then taskData formData
  else Ok (Task.set_status (status formData)).

(** [assignees.map((userId) => ({ task_id, user_id: userId }))]; the
    store fills [id] with gen_random_uuid() and [assigned_at] with now().
    [uuids] is the sequence of identifiers the store generates. *)
Fixpoint assigneesData (uuids : nat -> uuid) (now : timestamptz) (task_id : uuid)
    (n : nat) (user_ids : list uuid) : list TaskAssignee.row :=
  match user_ids with
  | [] => []
  | userId :: rest =>
      {| TaskAssignee.id := uuids n;
         TaskAssignee.task_id := Some task_id;
         TaskAssignee.user_id := Some userId;
         TaskAssignee.assigned_at := Some now |}
      :: assigneesData uuids now task_id (S n) rest
  end.

(** The row [.insert({ ...taskData, created_by: profile.id })] makes, the
    other columns taking their defaults. *)
Definition new_task (uuids : nat -> uuid) (now : timestamptz)
    (profile : Profile.row) (set : Task.row -> Task.row) : Task.row :=
  set {| Task.id := uuids 0;
         Task.title := "";
         Task.description := Some "";
         Task.status := to_do;
         Task.priority := medium;
         Task.due_date := None;
         Task.category := work;
         Task.tags := Some [];
         Task.created_by := Some (Profile.id profile);
         Task.is_deleted := Some false;
         Task.deleted_at := None;
         Task.created_at := Some now;
         Task.updated_at := Some now |}.

(** The state the call leaves and the error it caught, if any.  The two
    or three requests of a save are separate transactions. *)
Definition handleSubmit (db : database) (s : subject) (now : timestamptz)
    (uuids : nat -> uuid) (profile : option Profile.row)
    (task : option TaskWithAssignees) (formData : FormData)
    : database * option error :=
  match profile with
  | None => (db, None)
  | Some me =>
    match task with
    | Some editing =>
        let canUpdate :=
          isAdmin profile
          || existsb (fun a => String.eqb (Profile.id a) (Profile.id me))
                     (assignees editing) in
        if negb canUpdate then (db, None)
        else
          match (set <- updateData profile formData ;;
                 update_tasks db s now
                   {| upd_set := set;
                      upd_where := eq_id (Task.id (base editing));
                      upd_returning := false |}) with
          | Err updateError => (db, Some updateError)
          | Ok db1 =>
              if isAdmin profile then
                let db2 :=
                  state_after db1
                    (delete_task_assignees db1 s
                       {| del_where := eq_task_id (Task.id (base editing));
                          del_returning := false |}) in
                match assignee_ids formData with
                | [] => (db2, None)
                | _ :: _ =>
                    match insert_task_assignees db2 s
                            {| ins_rows :=
                                 assigneesData uuids now (Task.id (base editing))
                                   0 (assignee_ids formData);
                               ins_returning := false |} with
                    | Err assignError => (db2, Some assignError)
                    | Ok db3 => (db3, None)
                    end
                end
              else (db1, None)
          end
    | None =>
        if negb (isAdmin profile) then (db, None)
        else
          match (set <- taskData formData ;;
                 insert_tasks db s
                   {| ins_rows := [new_task uuids now me set];
                      ins_returning := true |}) with
          | Err taskError => (db, Some taskError)
          | Ok db1 =>
              match assignee_ids formData with
              | [] => (db1, None)
              | _ :: _ =>
                  match insert_task_assignees db1 s
                          {| ins_rows :=
                               assigneesData uuids now (uuids 0)
                                 1 (assignee_ids formData);
                             ins_returning := false |} with
                  | Err assignError => (db1, Some assignError)
                  | Ok db2 => (db2, None)
                  end
              end
          end
    end
  end.

(** [.update({ is_deleted: true, deleted_at: new Date().toISOString() })
     .eq('id', task.id)], behind [!task || !isAdmin] and the confirm
    dialog.  [client_now] is the clock of the browser. *)
Definition handleDelete (db : database) (s : subject) (now : timestamptz)
    (profile : option Profile.row) (task : option TaskWithAssignees)
    (confirmed : bool) (client_now : timestamptz) : result database :=
  match task with
  | None => Ok db
  | Some editing =>
      if negb (isAdmin profile) then Ok db
      else if confirmed then
        update_tasks db s now
          {| upd_set := fun t =>
               Task.set_deleted_at (Some client_now)
                 (Task.set_is_deleted (Some true) t);
             upd_where := eq_id (Task.id (base editing));
             upd_returning := false |}
      else Ok db
  end.

End TaskModal.

Module Tasks.

(** [.update({ status: newStatus }).eq('id', taskId)]: a card dropped on
    a column of the board; no check on the client side. *)
Definition handleDrop (db : database) (s : subject) (now : timestamptz)
    (taskId : uuid) (newStatus : TaskStatus) : result database :=
  update_tasks db s now
    {| upd_set := Task.set_status newStatus;
       upd_where := eq_id taskId;
       upd_returning := false |}.

End Tasks.

Module Trash.

(** [.update({ is_deleted: false, deleted_at: null }).eq('id', taskId)] *)
Definition handleRestore (db : database) (s : subject) (now : timestamptz)
    (taskId : uuid) : result database :=
  update_tasks db s now
    {| upd_set := fun t =>
         Task.set_deleted_at None (Task.set_is_deleted (Some false) t);
       upd_where := eq_id taskId;
       upd_returning := false |}.

(** [.delete().eq('id', taskId)], behind the confirm dialog. *)
Definition handlePermanentDelete (db : database) (s : subject)
    (taskId : uuid) (confirmed : bool) : result database :=
  if negb confirmed then Ok db
  else delete_tasks db s
         {| del_where := eq_id taskId; del_returning := false |}.

End Trash.

(** ** Roles of subjects *)

(** The subject [uid] has a profile row with role [r].  [profiles.id] is
    the primary key, so a subject has at most one role. *)
Definition has_role (db : database) (uid : uuid) (r : Role) : bool :=
  existsb (fun p => String.eqb (Profile.id p) uid && Role_eqb (Profile.role p) r)
          (profiles db).

(** [uid] is in the assignee set of the task [tid]. *)
Definition assigned (db : database) (uid : uuid) (tid : uuid) : bool :=
  existsb (fun a => holds (sql_eq String.eqb (TaskAssignee.task_id a) (Some tid))
                    && holds (sql_eq String.eqb (TaskAssignee.user_id a) (Some uid)))
          (task_assignees db).

(** The database in which the status of the profile of [uid] is [st] and
    nothing else differs. *)
Definition with_profile_status (uid : uuid) (st : ProfileStatus) (db : database)
    : database :=
  set_profiles
    (map (fun p => if String.eqb (Profile.id p) uid
                   then Profile.set_status st p else p)
         (profiles db))
    db.

(** ** A small team *)

Module Sample.

Definition alice : Profile.row :=
  {| Profile.id := "a1"; Profile.username := "alice@example.com";
     Profile.role := admin; Profile.status := active;
     Profile.created_at := Some 1%Z; Profile.updated_at := Some 1%Z |}.

Definition bob : Profile.row :=
  {| Profile.id := "e1"; Profile.username := "bob@example.com";
     Profile.role := employee; Profile.status := active;
     Profile.created_at := Some 2%Z; Profile.updated_at := Some 2%Z |}.

Definition carol : Profile.row :=
  {| Profile.id := "e2"; Profile.username := "user_e2";
     Profile.role := employee; Profile.status := disabled;
     Profile.created_at := Some 3%Z; Profile.updated_at := Some 4%Z |}.

Definition report : Task.row :=
  {| Task.id := "t1"; Task.title := "Write report";
     Task.description := Some ""; Task.status := to_do;
     Task.priority := high; Task.due_date := None;
     Task.category := work; Task.tags := Some [];
     Task.created_by := Some "a1"; Task.is_deleted := Some false;
     Task.deleted_at := None;
     Task.created_at := Some 10%Z; Task.updated_at := Some 10%Z |}.

Definition archive : Task.row :=
  {| Task.id := "t2"; Task.title := "Archive mail";
     Task.description := Some "old"; Task.status := done;
     Task.priority := low; Task.due_date := Some "2024-01-31";
     Task.category := personal; Task.tags := Some ["mail"];
     Task.created_by := Some "a1"; Task.is_deleted := Some true;
     Task.deleted_at := Some 50%Z;
     Task.created_at := Some 11%Z; Task.updated_at := Some 50%Z |}.

Definition note_on_report : TaskComment.row :=
  {| TaskComment.id := "c1"; TaskComment.task_id := Some "t1";
     TaskComment.user_id := Some "e1"; TaskComment.content := "started";
     TaskComment.created_at := Some 20%Z |}.

Definition note_on_archive : TaskComment.row :=
  {| TaskComment.id := "c2"; TaskComment.task_id := Some "t2";
     TaskComment.user_id := Some "e1"; TaskComment.content := "filed";
     TaskComment.created_at := Some 21%Z |}.

Definition db : database :=
  {| auth_users :=
       [ {| AuthUser.id := "a1"; AuthUser.email := Some "alice@example.com" |};
         {| AuthUser.id := "e1"; AuthUser.email := Some "bob@example.com" |};
         {| AuthUser.id := "e2"; AuthUser.email := None |} ];
     profiles := [alice; bob; carol];
     tasks := [report; archive];
     task_assignees :=
       [ {| TaskAssignee.id := "x1"; TaskAssignee.task_id := Some "t1";
            TaskAssignee.user_id := Some "e1";
            TaskAssignee.assigned_at := Some 12%Z |};
         {| TaskAssignee.id := "x2"; TaskAssignee.task_id := Some "t2";
            TaskAssignee.user_id := Some "e1";
            TaskAssignee.assigned_at := Some 13%Z |} ];
     task_comments := [note_on_report; note_on_archive];
     task_attachments :=
       [ {| TaskAttachment.id := "f1"; TaskAttachment.task_id := Some "t1";
            TaskAttachment.file_name := "draft.txt";
            TaskAttachment.file_url := "https://files.example.com/draft.txt";
            TaskAttachment.file_type := Some "text/plain";
            TaskAttachment.uploaded_by := Some "e1";
            TaskAttachment.created_at := Some 22%Z |} ] |}.

Definition dave : AuthUser.row :=
  {| AuthUser.id := "e3"; AuthUser.email := Some "dave@example.com" |}.

Definition erin : AuthUser.row :=
  {| AuthUser.id := "e4"; AuthUser.email := None |}.

(** The card of [report] as the board shows it. *)
Definition report_card : TaskModal.TaskWithAssignees :=
  {| TaskModal.base := report; TaskModal.assignees := [bob];
     TaskModal.comments_count := 1 |}.

(** UPDATE tasks SET title = 'Do nothing', priority = 'low'
    WHERE id = 't1' *)
Definition retitle : update_stmt Task.row :=
  {| upd_set := fun t => Task.set_priority low (Task.set_title "Do nothing" t);
     upd_where := eq_id "t1";
     upd_returning := false |}.

(** UPDATE task_comments SET content = 'edited' WHERE id = 'c2' *)
Definition edit_note : update_stmt TaskComment.row :=
  {| upd_set := TaskComment.set_content "edited";
     upd_where := Some (fun c => String.eqb (TaskComment.id c) "c2");
     upd_returning := false |}.

(** UPDATE task_comments SET content = 'edited' *)
Definition edit_all_notes : update_stmt TaskComment.row :=
  {| upd_set := TaskComment.set_content "edited";
     upd_where := None;
     upd_returning := false |}.

(** DELETE FROM task_comments *)
Definition drop_all_notes : delete_stmt TaskComment.row :=
  {| del_where := None; del_returning := false |}.

(** UPDATE tasks SET is_deleted = true WHERE id = 't1' *)
Definition trash_report : update_stmt Task.row :=
  {| upd_set := Task.set_is_deleted (Some true);
     upd_where := eq_id "t1";
     upd_returning := false |}.

(** A task whose [is_deleted] was set to NULL. *)
Definition draft : Task.row :=
  {| Task.id := "t3"; Task.title := "Draft budget";
     Task.description := None; Task.status := in_progress;
     Task.priority := medium; Task.due_date := Some "2024-03-01";
     Task.category := work; Task.tags := None;
     Task.created_by := None; Task.is_deleted := None;
     Task.deleted_at := None;
     Task.created_at := Some 14%Z; Task.updated_at := Some 15%Z |}.

Definition db_with_draft : database :=
  set_tasks [report; archive; draft] db.

(** UPDATE tasks SET is_deleted = false, deleted_at = NULL *)
Definition untrash_archive : update_stmt Task.row :=
  {| upd_set := fun t => Task.set_deleted_at None (Task.set_is_deleted (Some false) t);
     upd_where := None;
     upd_returning := false |}.

(** UPDATE tasks SET updated_at = <1>, status = 'done' WHERE id = 't1' *)
Definition backdate_report : update_stmt Task.row :=
  {| upd_set := fun t => Task.set_updated_at (Some 1%Z) (Task.set_status done t);
     upd_where := eq_id "t1";
     upd_returning := false |}.

(** The identifiers the store generates: ['g0'], ['g1'], ... as far as
    the examples go. *)
Definition uuids (n : nat) : uuid :=
  match n with
  | 0 => "g0"
  | 1 => "g1"
  | 2 => "g2"
  | _ => "g3"
  end.

(** The form of the task modal, filled for [report]. *)
Definition form : TaskModal.FormData :=
  {| TaskModal.title := "Write report, again";
     TaskModal.description := "";
     TaskModal.status := in_progress;
     TaskModal.priority := high;
     TaskModal.due_date := "2024-02-29";
     TaskModal.category := work;
     TaskModal.tags := ["q1"];
     TaskModal.assignee_ids := ["e1"; "e2"] |}.

(** A comment on [report] that names bob as its author. *)
Definition forged_note : TaskComment.row :=
  {| TaskComment.id := "c3"; TaskComment.task_id := Some "t1";
     TaskComment.user_id := Some "e1"; TaskComment.content := "done, I promise";
     TaskComment.created_at := Some 30%Z |}.

(** A file of the trashed task. *)
Definition old_file : TaskAttachment.row :=
  {| TaskAttachment.id := "f2"; TaskAttachment.task_id := Some "t2";
     TaskAttachment.file_name := "mail.zip";
     TaskAttachment.file_url := "https://files.example.com/mail.zip";
     TaskAttachment.file_type := None;
     TaskAttachment.uploaded_by := Some "e1";
     TaskAttachment.created_at := Some 23%Z |}.

(** The team after carol, disabled, was assigned to the trashed task. *)
Definition db_carol_on_archive : database :=
  set_task_assignees
    (task_assignees db ++
     [ {| TaskAssignee.id := "x3"; TaskAssignee.task_id := Some "t2";
          TaskAssignee.user_id := Some "e2";
          TaskAssignee.assigned_at := Some 14%Z |} ])%list
    db.

(** The team after bob took the email of dave as his username. *)
Definition db_bob_renamed : database :=
  set_profiles [alice; Profile.set_username "dave@example.com" bob; carol] db.

(** UPDATE profiles SET username = 'bobby', role = 'admin' *)
Definition rename_everyone : update_stmt Profile.row :=
  {| upd_set := fun p => Profile.set_role admin (Profile.set_username "bobby" p);
     upd_where := None;
     upd_returning := false |}.

(** UPDATE profiles SET role = 'admin' WHERE id = 'e1' *)
Definition promote_self : update_stmt Profile.row :=
  {| upd_set := Profile.set_role admin;
     upd_where := Some (fun p => String.eqb (Profile.id p) "e1");
     upd_returning := false |}.

(** UPDATE profiles SET status = 'active' WHERE id = 'e2' *)
Definition enable_self : update_stmt Profile.row :=
  {| upd_set := Profile.set_status active;
     upd_where := Some (fun p => String.eqb (Profile.id p) "e2");
     upd_returning := false |}.

End Sample.

(** The decision of the rule-set of a table for a subject, a command and
    a row: the row an INSERT adds is judged by WITH CHECK, the row any
    other command finds by USING. *)
Definition rule_allows {R : Type} (policies : list (policy R)) (c : command)
    (db : database) (s : subject) (r : R) : bool :=
  match c with
  | INSERT => allow_check policies INSERT db s r
  | _ => allow_using policies c db s r
  end.

Definition find_task (db : database) (tid : uuid) : option Task.row :=
  find (fun t => String.eqb (Task.id t) tid) (tasks db).

(** The row a soft delete at server time [now], stamped by the browser
    clock [client_now], makes of [t], and the row a restore makes. *)
Definition trashed (now client_now : timestamptz) (t : Task.row) : Task.row :=
  Task.set_updated_at (Some now)
    (Task.set_deleted_at (Some client_now) (Task.set_is_deleted (Some true) t)).

Definition restored (now : timestamptz) (t : Task.row) : Task.row :=
  Task.set_updated_at (Some now)
    (Task.set_deleted_at None (Task.set_is_deleted (Some false) t)).

(** [tasks] with the rows of id [tid] replaced by [t']. *)
Definition replace_task (tid : uuid) (t' : Task.row) (db : database) : database :=
  set_tasks
    (map (fun r => if String.eqb (Task.id r) tid then t' else r) (tasks db))
    db.

(** ** The other calls of the pages *)

Definition TaskStatus_eqb (a b : TaskStatus) : bool :=
  match a, b with
  | to_do, to_do | in_progress, in_progress | done, done => true
  | _, _ => false
  end.

Definition Priority_eqb (a b : Priority) : bool :=
  match a, b with
  | low, low | medium, medium | high, high => true
  | _, _ => false
  end.

(** [.order(column, { ascending: false })] on a nullable timestamp:
    descending, NULLs first.  Rows of equal key come in no promised
    order; the insertion below keeps the order they had. *)
Definition before_desc (a b : option timestamptz) : bool :=
  match a, b with
  | None, _ => true
  | Some _, None => false
  | Some x, Some y => Z.leb y x
  end.

Fixpoint insert_desc {R : Type} (key : R -> option timestamptz) (x : R)
    (l : list R) : list R :=
  match l with
  | [] => [x]
  | y :: rest =>
      if before_desc (key x) (key y) then x :: y :: rest
      else y :: insert_desc key x rest
  end.

Definition order_desc {R : Type} (key : R -> option timestamptz) (l : list R)
    : list R :=
  fold_right (insert_desc key) [] l.

(** A call that stops at the first element that throws. *)
Fixpoint traverse {A B : Type} (f : A -> option B) (l : list A) : option (list B) :=
  match l with
  | [] => Some []
  | x :: rest =>
      match f x, traverse f rest with
      | Some y, Some ys => Some (y :: ys)
      | _, _ => None
      end
  end.

(** [profiles(..)] embedded in a row of [task_assignees]: the profile
    [user_id] references, read through the SELECT policies of
    [profiles]; [null] when there is none the subject can read. *)
Definition embedded_profile (db : database) (s : subject) (a : TaskAssignee.row)
    : option Profile.row :=
  match TaskAssignee.user_id a with
  | None => None
  | Some u =>
      find (fun p => String.eqb (Profile.id p) u)
           (visible profiles_policies db s (profiles db))
  end.

(** [.from('task_assignees').select(..).eq('task_id', v)] *)
Definition assignments_of (db : database) (s : subject) (v : uuid)
    : list TaskAssignee.row :=
  filter (matches (eq_task_id v))
         (visible task_assignees_policies db s (task_assignees db)).

Module TasksPage.

Record LoadedTask := {
  task : Task.row;
  assignees : list (option Profile.row);
  comments_count : nat
}.

(** [.from('task_comments').select('*', { count: 'exact', head: true })
     .eq('task_id', v)] *)
Definition count_comments (db : database) (s : subject) (v : uuid) : nat :=
  length (filter (fun c => holds (sql_eq String.eqb (TaskComment.task_id c) (Some v)))
                 (select_task_comments db s)).

(** [.from('tasks').select('*').eq('is_deleted', false)
     .order('created_at', { ascending: false })], then for each task its
    assignees ([a.profiles], possibly [null]) and the count of its
    comments. *)
Definition loadTasks (db : database) (s : subject) : list LoadedTask :=
  map (fun t =>
         {| task := t;
            assignees := map (embedded_profile db s) (assignments_of db s (Task.id t));
            comments_count := count_comments db s (Task.id t) |})
      (order_desc Task.created_at
         (filter (fun t => holds (sql_eq Bool.eqb (Task.is_deleted t) (Some false)))
                 (select_tasks db s))).

End TasksPage.

Module TrashPage.

(** [Task & { assignees: { username: string }[] }] *)
Record DeletedTask := {
  task : Task.row;
  assignees : list string
}.

(** [{ username: a.profiles.username }]: throws when [a.profiles] is
    [null]. *)
Definition assignee_username (db : database) (s : subject) (a : TaskAssignee.row)
    : option string :=
  option_map Profile.username (embedded_profile db s a).

(** [.from('tasks').select('*').eq('is_deleted', true)
     .order('deleted_at', { ascending: false })], then for each task the
    usernames of its assignees.  [None]: a username could not be read,
    the exception is caught and the list of the page is not set. *)
Definition loadDeletedTasks (db : database) (s : subject)
    : option (list DeletedTask) :=
  traverse
    (fun t =>
       match traverse (assignee_username db s) (assignments_of db s (Task.id t)) with
       | Some names => Some {| task := t; assignees := names |}
       | None => None
       end)
    (order_desc Task.deleted_at
       (filter (fun t => holds (sql_eq Bool.eqb (Task.is_deleted t) (Some true)))
               (select_tasks db s))).

End TrashPage.

Module Team.

(** [.eq('id', userId)] on [profiles] *)
Definition eq_profile_id (v : uuid) : option (Profile.row -> bool) :=
  Some (fun p => String.eqb (Profile.id p) v).

(** [newStatus = currentStatus === 'active' ? 'disabled' : 'active'],
    then [.update({ status: newStatus }).eq('id', userId)]. *)
Definition handleToggleStatus (db : database) (s : subject) (now : timestamptz)
    (userId : uuid) (currentStatus : ProfileStatus) : result database :=
  let newStatus :=
    if ProfileStatus_eqb currentStatus active then disabled else active in
  update_profiles db s now
    {| upd_set := Profile.set_status newStatus;
       upd_where := eq_profile_id userId;
       upd_returning := false |}.

(** [.update({ role: newRole }).eq('id', userId)] *)
Definition handleChangeRole (db : database) (s : subject) (now : timestamptz)
    (userId : uuid) (newRole : Role) : result database :=
  update_profiles db s now
    {| upd_set := Profile.set_role newRole;
       upd_where := eq_profile_id userId;
       upd_returning := false |}.

End Team.

Module Dashboard.

Record TaskStats := {
  overdue : nat;
  dueToday : nat;
  completed : nat;
  low_open : nat;
  medium_open : nat;
  high_open : nat
}.

Definition not_done (t : Task.row) : bool :=
  negb (TaskStatus_eqb (Task.status t) done).

(** [t.due_date && t.due_date < today]: a date that is there, not the
    empty string, and before [today] as strings compare. *)
Definition due_before (today : string) (t : Task.row) : bool :=
  match Task.due_date t with
  | Some d => negb (String.eqb d "") && String.ltb d today
  | None => false
  end.

(** [t.due_date === today] *)
Definition due_on (today : string) (t : Task.row) : bool :=
  match Task.due_date t with
  | Some d => String.eqb d today
  | None => false
  end.

(** The counts [loadDashboardData] makes of the tasks it fetched;
    [byPriority] is the three last fields. *)
Definition taskStats (today : string) (tasks : list Task.row) : TaskStats :=
  {| overdue := length (filter (fun t => due_before today t && not_done t) tasks);
     dueToday := length (filter (fun t => due_on today t && not_done t) tasks);
     completed := length (filter (fun t => TaskStatus_eqb (Task.status t) done) tasks);
     low_open :=
       length (filter (fun t => Priority_eqb (Task.priority t) low && not_done t) tasks);
     medium_open :=
       length (filter (fun t => Priority_eqb (Task.priority t) medium && not_done t) tasks);
     high_open :=
       length (filter (fun t => Priority_eqb (Task.priority t) high && not_done t) tasks) |}.

(** [.from('tasks').select('*').eq('is_deleted', false)], counted. *)
Definition loadStats (db : database) (s : subject) (today : string) : TaskStats :=
  taskStats today
    (filter (fun t => holds (sql_eq Bool.eqb (Task.is_deleted t) (Some false)))
            (select_tasks db s)).

End Dashboard.

(** Positions of [rows] that hold an assignment of the task [tid]. *)
Definition assignments_in (tid : uuid) (rows : list TaskAssignee.row)
    : list TaskAssignee.row :=
  filter (matches (eq_task_id tid)) rows.

(** [profiles] with the rows of id [pid] replaced by [p']. *)
Definition replace_profile (pid : uuid) (p' : Profile.row) (db : database)
    : database :=
  set_profiles
    (map (fun r => if String.eqb (Profile.id r) pid then p' else r) (profiles db))
    db.

(** [currentStatus === 'active' ? 'disabled' : 'active'] *)
Definition toggled (st : ProfileStatus) : ProfileStatus :=
  if ProfileStatus_eqb st active then disabled else active.

(** * Properties *)

(** ** Lists and three-valued logic *)

Lemma holds_Some (b : bool) : holds (Some b) = b.
Proof. destruct b; reflexivity. Qed.

Lemma holds_sql_and (a b : sqlbool) : holds (sql_and a b) = holds a && holds b.
Proof. destruct a as [[|]|], b as [[|]|]; reflexivity. Qed.

Lemma holds_sql_or (a b : sqlbool) : holds (sql_or a b) = holds a || holds b.
Proof. destruct a as [[|]|], b as [[|]|]; reflexivity. Qed.

Lemma holds_sql_eq_Some {A : Type} (eqb : A -> A -> bool) (x y : A) :
  holds (sql_eq eqb (Some x) (Some y)) = eqb x y.
Proof. unfold sql_eq. apply holds_Some. Qed.

Lemma holds_not_deleted (d : option bool) :
  holds (sql_not d) = true <-> d = Some false.
Proof. destruct d as [[|]|]; simpl; split; congruence. Qed.

Lemma existsb_filter {A : Type} (f g : A -> bool) (l : list A) :
  existsb f (filter g l) = existsb (fun x => g x && f x) l.
Proof.
  induction l as [|x l IH]; simpl; [reflexivity|].
  destruct (g x); simpl; rewrite IH; reflexivity.
Qed.

Lemma existsb_pointwise {A : Type} (f g : A -> bool) (l : list A) :
  (forall x, In x l -> f x = g x) -> existsb f l = existsb g l.
Proof.
  induction l as [|x l IH]; simpl; intros H; [reflexivity|].
  rewrite (H x (or_introl eq_refl)), IH; [reflexivity|].
  intros y Hy. apply H. right. exact Hy.
Qed.

Lemma existsb_false_iff {A : Type} (f : A -> bool) (l : list A) :
  existsb f l = false <-> forall x, In x l -> f x = false.
Proof.
  induction l as [|x l IH]; simpl.
  - split; [intros _ y []|reflexivity].
  - rewrite orb_false_iff, IH. split.
    + intros [Hx Hl] y [<-|Hy]; auto.
    + intros H. split; [apply H; left; reflexivity|].
      intros y Hy. apply H. right. exact Hy.
Qed.

Lemma filter_all {A : Type} (f : A -> bool) (l : list A) :
  (forall x, In x l -> f x = true) -> filter f l = l.
Proof.
  induction l as [|x l IH]; simpl; intros H; [reflexivity|].
  rewrite (H x (or_introl eq_refl)), IH; [reflexivity|].
  intros y Hy. apply H. right. exact Hy.
Qed.

Lemma nodupb_unique {A : Type} (key : A -> string) (l : list A) (x y : A) :
  nodupb String.eqb (map key l) = true ->
  In x l -> In y l -> key x = key y -> x = y.
Proof.
  induction l as [|z l IH]; simpl; [intros _ []|].
  rewrite andb_true_iff, negb_true_iff, existsb_false_iff.
  intros [Hz Hl] [<-|Hx] [<-|Hy] Hk.
  - reflexivity.
  - specialize (Hz (key y) (in_map key l y Hy)).
    rewrite Hk, String.eqb_refl in Hz. discriminate.
  - specialize (Hz (key x) (in_map key l x Hx)).
    rewrite <- Hk, String.eqb_refl in Hz. discriminate.
  - apply IH; assumption.
Qed.

(** ** What the subqueries of the policies compute *)

(** Unfolds the rule-set of a table down to the expressions of the
    policies that apply to the command at hand. *)
Ltac policy_eval :=
  cbv [rule_allows allow_using allow_check existsb forallb applies
       using_expr check_expr
       pol_for pol_to pol_using pol_with_check
       command_eqb db_role_eqb role_of app
       profiles_policies profiles_select_policies
       Users_can_view_active_profiles Users_can_update_own_profile
       Admins_can_update_any_profile Users_can_insert_own_profile
       task_assignees_policies Users_can_view_task_assignments
       Admins_can_create_task_assignments Admins_can_delete_task_assignments
       tasks_policies Users_can_view_non_deleted_tasks
       Users_can_view_deleted_tasks Admins_can_create_tasks
       Admins_can_update_any_task Employees_can_update_assigned_task_status
       task_comments_policies Users_can_view_comments Users_can_create_comments
       Users_can_update_own_comments Users_can_delete_own_comments
       task_attachments_policies Users_can_view_attachments
       Users_can_upload_attachments Users_can_delete_own_attachments
       Admins_can_delete_any_attachment];
  cbn [andb orb];
  repeat rewrite orb_false_r.

(** A subject always reads its own profile row, active or disabled. *)
Lemma own_profile_visible (db : database) (uid : uuid) (p : Profile.row) :
  String.eqb (Profile.id p) uid = true ->
  allow_using profiles_select_policies SELECT db (Authenticated uid) p = true.
Proof.
  intros H. policy_eval. cbn [auth_uid].
  rewrite holds_sql_or, holds_sql_eq_Some, H.
  rewrite orb_true_r. reflexivity.
Qed.

Lemma admin_subquery {R : Type} (db : database) (uid : uuid) (r : R) :
  holds (exists_admin_profile db (Authenticated uid) r) = has_role db uid admin.
Proof.
  unfold exists_admin_profile, sql_exists, visible, has_role.
  rewrite holds_Some, existsb_filter.
  apply existsb_pointwise. intros p _.
  simpl auth_uid. rewrite holds_sql_and, holds_sql_eq_Some, holds_Some.
  destruct (String.eqb (Profile.id p) uid) eqn:E.
  - rewrite (own_profile_visible db uid p E). reflexivity.
  - apply andb_false_r.
Qed.

Lemma assignees_all_visible (db : database) (uid : uuid) :
  visible task_assignees_policies db (Authenticated uid) (task_assignees db)
  = task_assignees db.
Proof. unfold visible. apply filter_all. intros a _. reflexivity. Qed.

Lemma assignment_subquery (db : database) (uid : uuid) (t : Task.row) :
  holds (exists_assignment db (Authenticated uid) t) = assigned db uid (Task.id t).
Proof.
  unfold exists_assignment, sql_exists, assigned.
  rewrite holds_Some, assignees_all_visible.
  apply existsb_pointwise. intros a _.
  simpl auth_uid. apply holds_sql_and.
Qed.

(** ** Decisions of the rule-set of [tasks] *)

Lemma tasks_select_using (db : database) (uid : uuid) (t : Task.row) :
  allow_using tasks_policies SELECT db (Authenticated uid) t
  = match Task.is_deleted t with
    | Some false => true
    | Some true => has_role db uid admin
    | None => false
    end.
Proof.
  policy_eval. rewrite holds_sql_and, admin_subquery.
  destruct (Task.is_deleted t) as [[|]|]; reflexivity.
Qed.

Lemma tasks_update_using (db : database) (uid : uuid) (t : Task.row) :
  allow_using tasks_policies UPDATE db (Authenticated uid) t
  = has_role db uid admin
    || assigned db uid (Task.id t) && holds (sql_not (Task.is_deleted t)).
Proof.
  policy_eval. rewrite holds_sql_and, admin_subquery, assignment_subquery.
  reflexivity.
Qed.

Lemma tasks_update_check (db : database) (uid : uuid) (t : Task.row) :
  allow_check tasks_policies UPDATE db (Authenticated uid) t
  = has_role db uid admin
    || assigned db uid (Task.id t) && holds (sql_not (Task.is_deleted t)).
Proof.
  policy_eval. rewrite holds_sql_and, admin_subquery, assignment_subquery.
  reflexivity.
Qed.

Lemma tasks_delete_using (db : database) (s : subject) (t : Task.row) :
  allow_using tasks_policies DELETE db s t = false.
Proof. reflexivity. Qed.

(** C1.  A soft-deleted task is denied to every authenticated subject
    whose role is not admin and allowed to every subject whose role is
    admin; a task that is not deleted is allowed to every authenticated
    subject.  Accordingly the task list a non-admin subject is answered
    holds no soft-deleted task. *)
Theorem tasks_select_decision (db : database) (uid : uuid) (t : Task.row) :
  (Task.is_deleted t = Some true ->
     (has_role db uid admin = false ->
        rule_allows tasks_policies SELECT db (Authenticated uid) t = false
        /\ ~ In t (select_tasks db (Authenticated uid)))
     /\ (has_role db uid admin = true ->
        rule_allows tasks_policies SELECT db (Authenticated uid) t = true))
  /\ (Task.is_deleted t = Some false ->
        rule_allows tasks_policies SELECT db (Authenticated uid) t = true).
Proof.
  unfold rule_allows, select_tasks, visible.
  split; [intros Hd; split; intros Hr|intros Hd].
  - assert (E : allow_using tasks_policies SELECT db (Authenticated uid) t = false)
      by (rewrite tasks_select_using, Hd; exact Hr).
    split; [exact E|].
    intros Hin. apply filter_In in Hin. destruct Hin as [_ Hin]. congruence.
  - rewrite tasks_select_using, Hd. exact Hr.
  - rewrite tasks_select_using, Hd. reflexivity.
Qed.

Lemma tasks_select_decision_witness :
  (rule_allows tasks_policies SELECT Sample.db (Authenticated "e1") Sample.archive = false
   /\ ~ In Sample.archive (select_tasks Sample.db (Authenticated "e1")))
  /\ rule_allows tasks_policies SELECT Sample.db (Authenticated "a1") Sample.archive = true
  /\ rule_allows tasks_policies SELECT Sample.db (Authenticated "e2") Sample.report = true.
Proof.
  split; [|split].
  - exact (proj1 (proj1 (tasks_select_decision Sample.db "e1" Sample.archive)
                   eq_refl) eq_refl).
  - exact (proj2 (proj1 (tasks_select_decision Sample.db "a1" Sample.archive)
                   eq_refl) eq_refl).
  - exact (proj2 (tasks_select_decision Sample.db "e2" Sample.report) eq_refl).
Defined.

(** ** Comments of a soft-deleted task *)

Lemma constraints_tasks_pk (db : database) :
  constraints_ok db = true -> nodupb String.eqb (map Task.id (tasks db)) = true.
Proof.
  unfold constraints_ok. rewrite !andb_true_iff. tauto.
Qed.

Lemma constraints_profiles_pk (db : database) :
  constraints_ok db = true -> nodupb String.eqb (map Profile.id (profiles db)) = true.
Proof.
  unfold constraints_ok. rewrite !andb_true_iff. tauto.
Qed.

(** The subquery of the comment and attachment policies finds a task only
    if the table holds a row of that id with [is_deleted = false]. *)
Lemma live_task_found (db : database) (s : subject) (fk : option uuid) :
  holds (exists_live_task fk db s) = true ->
  exists t, In t (tasks db) /\ fk = Some (Task.id t)
            /\ Task.is_deleted t = Some false.
Proof.
  unfold exists_live_task, sql_exists, visible. rewrite holds_Some.
  intros H. apply existsb_exists in H. destruct H as [t [Hin Hc]].
  apply filter_In in Hin. destruct Hin as [Hin _].
  rewrite holds_sql_and, andb_true_iff in Hc. destruct Hc as [Hid Hdel].
  exists t. split; [exact Hin|]. split.
  - destruct fk as [k|]; [|discriminate].
    rewrite holds_sql_eq_Some in Hid. apply String.eqb_eq in Hid. congruence.
  - destruct (Task.is_deleted t) as [[|]|]; simpl in Hdel; congruence.
Qed.

Lemma no_live_task_when_trashed (db : database) (s : subject) (t : Task.row) :
  constraints_ok db = true -> In t (tasks db) ->
  Task.is_deleted t = Some true ->
  holds (exists_live_task (Some (Task.id t)) db s) = false.
Proof.
  intros Hok Hin Hdel.
  destruct (holds (exists_live_task (Some (Task.id t)) db s)) eqn:E; [|reflexivity].
  apply live_task_found in E. destruct E as [t' [Hin' [Hid Hlive]]].
  assert (t = t').
  { apply (nodupb_unique Task.id (tasks db)); try assumption.
    - apply constraints_tasks_pk. exact Hok.
    - congruence. }
  subst t'. congruence.
Qed.

Lemma comments_select_using (db : database) (s : subject) (c : TaskComment.row) :
  allow_using task_comments_policies SELECT db s c = true ->
  holds (exists_live_task (TaskComment.task_id c) db s) = true.
Proof.
  policy_eval. intros H. apply andb_true_iff in H. tauto.
Qed.

Lemma comments_insert_check (db : database) (s : subject) (c : TaskComment.row) :
  allow_check task_comments_policies INSERT db s c = true ->
  holds (exists_live_task (TaskComment.task_id c) db s) = true.
Proof.
  policy_eval. intros H. apply andb_true_iff in H. tauto.
Qed.

Lemma comments_update_using (db : database) (s : subject) (c : TaskComment.row) :
  allow_using task_comments_policies UPDATE db s c
  = db_role_eqb authenticated (role_of s)
    && holds (sql_eq String.eqb (TaskComment.user_id c) (auth_uid s)).
Proof. policy_eval. reflexivity. Qed.

Lemma comments_delete_using (db : database) (s : subject) (c : TaskComment.row) :
  allow_using task_comments_policies DELETE db s c
  = db_role_eqb authenticated (role_of s)
    && holds (sql_eq String.eqb (TaskComment.user_id c) (auth_uid s)).
Proof. policy_eval. reflexivity. Qed.

(** C2, as the code has it.  For a comment whose parent task is
    soft-deleted: reading and creating are denied to every subject (the
    comment is in no list a SELECT answers, and its INSERT is refused);
    updating and deleting are denied to every subject other than the
    author, and to the author as well for every statement that reads the
    comment (a WHERE or a RETURNING), since the SELECT rule then applies
    too: such an UPDATE leaves the comment as it is and such a DELETE
    leaves it in the table.  The UPDATE and DELETE rules themselves check
    authorship only and allow the author. *)
Theorem comments_of_trashed_task (db : database) (s : subject)
    (t : Task.row) (c : TaskComment.row) :
  constraints_ok db = true ->
  In t (tasks db) ->
  TaskComment.task_id c = Some (Task.id t) ->
  Task.is_deleted t = Some true ->
  (rule_allows task_comments_policies SELECT db s c = false
   /\ ~ In c (select_task_comments db s))
  /\ (rule_allows task_comments_policies INSERT db s c = false
      /\ forall returning,
           insert_task_comments db s
             {| ins_rows := [c]; ins_returning := returning |}
           = Err (rls_violation "task_comments"))
  /\ (forall st : update_stmt TaskComment.row,
        reads_rows (upd_where st) (upd_returning st) = true ->
        update_row task_comments_policies "task_comments" (fun r => r) db s st c
        = Ok c)
  /\ (forall st : delete_stmt TaskComment.row,
        reads_rows (del_where st) (del_returning st) = true ->
        In c (task_comments db) ->
        In c (delete_rows task_comments_policies db s st (task_comments db)))
  /\ (holds (sql_eq String.eqb (TaskComment.user_id c) (auth_uid s)) = false ->
        rule_allows task_comments_policies UPDATE db s c = false
        /\ rule_allows task_comments_policies DELETE db s c = false)
  /\ (forall uid, s = Authenticated uid -> TaskComment.user_id c = Some uid ->
        rule_allows task_comments_policies UPDATE db s c = true
        /\ rule_allows task_comments_policies DELETE db s c = true).
Proof.
  intros Hok Hin Hfk Hdel.
  pose proof (no_live_task_when_trashed db s t Hok Hin Hdel) as Hno.
  rewrite <- Hfk in Hno.
  assert (Hsel : allow_using task_comments_policies SELECT db s c = false).
  { destruct (allow_using task_comments_policies SELECT db s c) eqn:E; [|reflexivity].
    apply comments_select_using in E. congruence. }
  assert (Hins : allow_check task_comments_policies INSERT db s c = false).
  { destruct (allow_check task_comments_policies INSERT db s c) eqn:E; [|reflexivity].
    apply comments_insert_check in E. congruence. }
  assert (Hskip : forall cmd cond returning,
            reads_rows cond returning = true ->
            targeted task_comments_policies cmd db s cond returning c = false).
  { intros cmd cond returning Hreads. unfold targeted, readable.
    rewrite Hreads, Hsel, !andb_false_r. reflexivity. }
  unfold rule_allows.
  split; [|split; [|split; [|split; [|split]]]].
  - split; [exact Hsel|].
    unfold select_task_comments, visible. intros Hc.
    apply filter_In in Hc. destruct Hc as [_ Hc]. congruence.
  - split; [exact Hins|].
    intros returning. unfold insert_task_comments, insert_rows.
    cbn [ins_rows ins_returning forallb]. rewrite Hins. reflexivity.
  - intros st Hreads. unfold update_row. rewrite Hskip by exact Hreads.
    reflexivity.
  - intros st Hreads Hc. unfold delete_rows. apply filter_In.
    split; [exact Hc|]. rewrite Hskip by exact Hreads. reflexivity.
  - intros Hother. rewrite comments_update_using, comments_delete_using, Hother.
    rewrite andb_false_r. split; reflexivity.
  - intros uid -> Hauthor.
    rewrite comments_update_using, comments_delete_using, Hauthor.
    cbn [auth_uid role_of db_role_eqb andb]. rewrite holds_sql_eq_Some.
    rewrite String.eqb_refl. split; reflexivity.
Qed.

Lemma comments_of_trashed_task_witness :
  rule_allows task_comments_policies SELECT Sample.db (Authenticated "e1")
    Sample.note_on_archive = false
  /\ rule_allows task_comments_policies INSERT Sample.db (Authenticated "e1")
       Sample.note_on_archive = false
  /\ update_row task_comments_policies "task_comments" (fun r => r) Sample.db
       (Authenticated "e1") Sample.edit_note Sample.note_on_archive
     = Ok Sample.note_on_archive.
Proof.
  pose proof (comments_of_trashed_task Sample.db (Authenticated "e1")
                Sample.archive Sample.note_on_archive
                eq_refl (or_intror (or_introl eq_refl)) eq_refl eq_refl) as H.
  destruct H as [[Hsel _] [[Hins _] [Hupd _]]].
  split; [exact Hsel|]. split; [exact Hins|].
  exact (Hupd Sample.edit_note eq_refl).
Defined.

(** C2 as stated fails: the author of a comment on a soft-deleted task is
    allowed by the UPDATE rule and by the DELETE rule, and an UPDATE or a
    DELETE of the author without a WHERE clause rewrites or removes that
    comment. *)
Lemma comments_of_trashed_task_counterexample :
  In Sample.archive (tasks Sample.db)
  /\ TaskComment.task_id Sample.note_on_archive = Some (Task.id Sample.archive)
  /\ Task.is_deleted Sample.archive = Some true
  /\ TaskComment.user_id Sample.note_on_archive = Some "e1"
  /\ rule_allows task_comments_policies UPDATE Sample.db (Authenticated "e1")
       Sample.note_on_archive = true
  /\ rule_allows task_comments_policies DELETE Sample.db (Authenticated "e1")
       Sample.note_on_archive = true
  /\ map TaskComment.content
       (task_comments
          (state_after Sample.db
             (update_task_comments Sample.db (Authenticated "e1")
                Sample.edit_all_notes)))
     = ["edited"; "edited"]
  /\ task_comments
       (state_after Sample.db
          (delete_task_comments Sample.db (Authenticated "e1")
             Sample.drop_all_notes))
     = [].
Proof.
  split; [right; left; reflexivity|].
  repeat split; vm_compute; reflexivity.
Qed.

(** ** Row by row: what an UPDATE does to a table *)

Section UpdateRows.
Context {R : Type}.
Variable policies : list (policy R).
Variable table : string.
Variable before_update : R -> R.
Variable db : database.
Variable s : subject.
Variable st : update_stmt R.

Lemma update_rows_pointwise (rows rows' : list R) :
  update_rows policies table before_update db s st rows = Ok rows' ->
  Forall2 (fun r r' => update_row policies table before_update db s st r = Ok r')
          rows rows'.
Proof.
  revert rows'. induction rows as [|r rows IH]; simpl; intros rows' H.
  - injection H as <-. constructor.
  - destruct (update_row policies table before_update db s st r) as [r1|] eqn:E1;
      simpl in H; [|discriminate].
    destruct (update_rows policies table before_update db s st rows) as [rest|] eqn:E2;
      simpl in H; [|discriminate].
    injection H as <-. constructor; [exact E1|]. apply IH. reflexivity.
Qed.

Lemma update_rows_map (g : R -> R) (rows : list R) :
  (forall r, In r rows ->
     update_row policies table before_update db s st r = Ok (g r)) ->
  update_rows policies table before_update db s st rows = Ok (map g rows).
Proof.
  induction rows as [|r rows IH]; simpl; intros H; [reflexivity|].
  rewrite (H r (or_introl eq_refl)). simpl.
  rewrite IH; [reflexivity|]. intros r' Hr'. apply H. right. exact Hr'.
Qed.

Lemma update_row_untargeted (r : R) :
  allow_using policies UPDATE db s r = false ->
  update_row policies table before_update db s st r = Ok r.
Proof.
  intros H. unfold update_row, targeted.
  rewrite H, andb_false_r. reflexivity.
Qed.

(** A row the statement rewrote passes the WITH CHECK of the table. *)
Lemma update_row_checked (r r' : R) :
  update_row policies table before_update db s st r = Ok r' ->
  r' = r \/ allow_check policies UPDATE db s r' = true.
Proof.
  unfold update_row.
  destruct (targeted policies UPDATE db s (upd_where st) (upd_returning st) r).
  - destruct (allow_check policies UPDATE db s (before_update (upd_set st r))) eqn:E;
      simpl; [|discriminate].
    destruct (readable policies _ db s _); intros H; [|discriminate].
    injection H as <-. right. exact E.
  - intros H. injection H as <-. left. reflexivity.
Qed.
End UpdateRows.

Lemma Forall2_nth_error {A B : Type} (P : A -> B -> Prop) (l : list A)
    (l' : list B) (i : nat) (x : A) :
  Forall2 P l l' -> nth_error l i = Some x ->
  exists y, nth_error l' i = Some y /\ P x y.
Proof.
  intros H. revert i. induction H as [|a b l l' Hab _ IH]; intros i Hi.
  - destruct i; discriminate.
  - destruct i as [|i]; simpl in *.
    + injection Hi as <-. exists b. split; [reflexivity|exact Hab].
    + apply IH. exact Hi.
Qed.

(** The row at a position of [tasks] after an UPDATE, failed or not, is
    what [update_row] made of the row that was there, or that row. *)
Lemma update_tasks_at (db : database) (s : subject) (now : timestamptz)
    (st : update_stmt Task.row) (i : nat) (t : Task.row) :
  nth_error (tasks db) i = Some t ->
  exists t',
    nth_error (tasks (state_after db (update_tasks db s now st))) i = Some t'
    /\ (t' = t
        \/ update_row tasks_policies "tasks" (update_updated_at_column now)
             db s st t = Ok t').
Proof.
  intros Hi. unfold update_tasks.
  destruct (update_rows tasks_policies "tasks" (update_updated_at_column now)
              db s st (tasks db)) as [rows|] eqn:E; simpl.
  - unfold commit. destruct (constraints_ok (set_tasks rows db)); simpl.
    + apply update_rows_pointwise in E.
      destruct (Forall2_nth_error _ _ _ _ _ E Hi) as [t' [Hn Hu]].
      exists t'. split; [exact Hn|right; exact Hu].
    + exists t. split; [exact Hi|left; reflexivity].
  - exists t. split; [exact Hi|left; reflexivity].
Qed.

(** [profiles.id] is a primary key: an employee is not an admin. *)
Lemma employee_not_admin (db : database) (uid : uuid) :
  constraints_ok db = true ->
  has_role db uid employee = true -> has_role db uid admin = false.
Proof.
  intros Hok He. unfold has_role in *.
  apply existsb_exists in He. destruct He as [p [Hp Hpe]].
  apply andb_true_iff in Hpe. destruct Hpe as [Hpid Hprole].
  apply existsb_false_iff. intros q Hq.
  destruct (String.eqb (Profile.id q) uid) eqn:Hqid; [|reflexivity].
  assert (p = q).
  { apply (nodupb_unique Profile.id (profiles db)); try assumption.
    - apply constraints_profiles_pk. exact Hok.
    - apply String.eqb_eq in Hpid, Hqid. congruence. }
  subst q. destruct (Profile.role p); [discriminate|reflexivity].
Qed.

(** C4.  An employee who is not in the assignee set of a task is denied
    by the UPDATE rules of [tasks], and whatever UPDATE that subject
    sends, the status change of the board included, the row of the task
    is afterwards what it was. *)
Theorem unassigned_employee_update_rejected (db : database) (uid : uuid)
    (now : timestamptz) (st : update_stmt Task.row) (i : nat) (t : Task.row) :
  constraints_ok db = true ->
  has_role db uid employee = true ->
  assigned db uid (Task.id t) = false ->
  nth_error (tasks db) i = Some t ->
  rule_allows tasks_policies UPDATE db (Authenticated uid) t = false
  /\ nth_error (tasks (state_after db (update_tasks db (Authenticated uid) now st))) i
     = Some t
  /\ forall newStatus,
       nth_error (tasks (state_after db
                    (Tasks.handleDrop db (Authenticated uid) now (Task.id t) newStatus))) i
       = Some t.
Proof.
  intros Hok He Hna Hi.
  pose proof (employee_not_admin db uid Hok He) as Hnadm.
  assert (Hden : allow_using tasks_policies UPDATE db (Authenticated uid) t = false)
    by (rewrite tasks_update_using, Hnadm, Hna; reflexivity).
  assert (Hany : forall st',
            nth_error (tasks (state_after db
                         (update_tasks db (Authenticated uid) now st'))) i = Some t).
  { intros st'.
    destruct (update_tasks_at db (Authenticated uid) now st' i t Hi)
      as [t' [Hn [->|Hu]]]; [exact Hn|].
    rewrite update_row_untargeted in Hu by exact Hden.
    injection Hu as <-. exact Hn. }
  split; [exact Hden|]. split; [apply Hany|].
  intros newStatus. apply Hany.
Qed.

Lemma unassigned_employee_update_rejected_witness :
  rule_allows tasks_policies UPDATE Sample.db (Authenticated "e2") Sample.report = false
  /\ nth_error (tasks (state_after Sample.db
                  (update_tasks Sample.db (Authenticated "e2") 99%Z
                     {| upd_set := Task.set_status in_progress;
                        upd_where := eq_id "t1";
                        upd_returning := false |}))) 0
     = Some Sample.report
  /\ forall newStatus,
       nth_error (tasks (state_after Sample.db
                    (Tasks.handleDrop Sample.db (Authenticated "e2") 99%Z
                       (Task.id Sample.report) newStatus))) 0
       = Some Sample.report.
Proof.
  apply (unassigned_employee_update_rejected Sample.db "e2" 99%Z
           {| upd_set := Task.set_status in_progress;
              upd_where := eq_id "t1";
              upd_returning := false |} 0 Sample.report);
    reflexivity.
Defined.

(** C7.  Whatever UPDATE a subject who is not admin sends, a task that
    was not deleted is not deleted afterwards: the only rule that lets
    such a subject write, the one for assignees, checks [NOT is_deleted]
    on the new row. *)
Theorem non_admin_update_keeps_task_live (db : database) (uid : uuid)
    (now : timestamptz) (st : update_stmt Task.row) (i : nat) (t : Task.row) :
  has_role db uid admin = false ->
  nth_error (tasks db) i = Some t ->
  Task.is_deleted t = Some false ->
  exists t',
    nth_error (tasks (state_after db (update_tasks db (Authenticated uid) now st))) i
    = Some t'
    /\ Task.is_deleted t' = Some false.
Proof.
  intros Hnadm Hi Hlive.
  destruct (update_tasks_at db (Authenticated uid) now st i t Hi)
    as [t' [Hn [->|Hu]]].
  - exists t. split; assumption.
  - exists t'. split; [exact Hn|].
    apply update_row_checked in Hu. destruct Hu as [->|Hc]; [exact Hlive|].
    rewrite tasks_update_check, Hnadm in Hc. simpl in Hc.
    apply andb_true_iff in Hc. destruct Hc as [_ Hc].
    apply holds_not_deleted. exact Hc.
Qed.

Lemma non_admin_update_keeps_task_live_witness :
  exists t',
    nth_error (tasks (state_after Sample.db
                 (update_tasks Sample.db (Authenticated "e1") 99%Z
                    {| upd_set := Task.set_status done;
                       upd_where := eq_id "t1";
                       upd_returning := false |}))) 0
    = Some t'
    /\ Task.is_deleted t' = Some false.
Proof.
  apply (non_admin_update_keeps_task_live Sample.db "e1" 99%Z
           {| upd_set := Task.set_status done;
              upd_where := eq_id "t1";
              upd_returning := false |} 0 Sample.report);
    reflexivity.
Defined.

(** The assignee's attempt to soft-delete is refused by WITH CHECK. *)
Lemma assignee_cannot_trash :
  assigned Sample.db "e1" "t1" = true
  /\ update_tasks Sample.db (Authenticated "e1") 99%Z Sample.trash_report
     = Err (rls_violation "tasks").
Proof. split; reflexivity. Qed.

(** ** An UPDATE of one task by its id *)

Lemma constraints_ok_set_tasks (rows : list Task.row) (db : database) :
  map Task.id rows = map Task.id (tasks db) ->
  map Task.created_by rows = map Task.created_by (tasks db) ->
  constraints_ok (set_tasks rows db) = constraints_ok db.
Proof.
  intros Hid Hby. unfold constraints_ok. cbn [set_tasks auth_users profiles tasks
    task_assignees task_comments task_attachments].
  rewrite Hid, Hby. reflexivity.
Qed.

Lemma find_replaced (tid : uuid) (t t' : Task.row) (rows : list Task.row) :
  In t rows -> Task.id t = tid -> Task.id t' = tid ->
  find (fun r => String.eqb (Task.id r) tid)
       (map (fun r => if String.eqb (Task.id r) tid then t' else r) rows)
  = Some t'.
Proof.
  intros Hin Ht Ht'. induction rows as [|r rows IH]; [destruct Hin|].
  simpl. destruct (String.eqb (Task.id r) tid) eqn:E.
  - rewrite Ht', String.eqb_refl. reflexivity.
  - rewrite E. apply IH. destruct Hin as [->|Hin]; [|exact Hin].
    rewrite Ht, String.eqb_refl in E. discriminate.
Qed.

(** An UPDATE by id that the rules allow on the old row and on the new
    one, and that leaves the keys alone, replaces that row and no
    other. *)
Lemma update_tasks_by_id (db : database) (s : subject) (now : timestamptz)
    (set : Task.row -> Task.row) (t : Task.row) :
  constraints_ok db = true ->
  In t (tasks db) ->
  Task.id (set t) = Task.id t ->
  Task.created_by (set t) = Task.created_by t ->
  allow_using tasks_policies UPDATE db s t = true ->
  allow_using tasks_policies SELECT db s t = true ->
  allow_check tasks_policies UPDATE db s (update_updated_at_column now (set t)) = true ->
  allow_using tasks_policies SELECT db s (update_updated_at_column now (set t)) = true ->
  update_tasks db s now
    {| upd_set := set; upd_where := eq_id (Task.id t); upd_returning := false |}
  = Ok (replace_task (Task.id t) (update_updated_at_column now (set t)) db).
Proof.
  intros Hok Hin Hid Hby Hu Hs Hc Hs'.
  pose proof (constraints_tasks_pk db Hok) as Hpk.
  assert (Hsame : forall r, In r (tasks db) ->
            String.eqb (Task.id r) (Task.id t) = true -> r = t).
  { intros r Hr E. apply String.eqb_eq in E.
    apply (nodupb_unique Task.id (tasks db)); assumption. }
  unfold update_tasks, replace_task.
  rewrite (update_rows_map tasks_policies "tasks" (update_updated_at_column now)
             db s _
             (fun r => if String.eqb (Task.id r) (Task.id t)
                       then update_updated_at_column now (set t) else r)).
  - cbn [bind]. unfold commit.
    rewrite constraints_ok_set_tasks, Hok; [reflexivity| |].
    + rewrite map_map. apply map_ext_in. intros r Hr.
      destruct (String.eqb (Task.id r) (Task.id t)) eqn:E; [|reflexivity].
      apply String.eqb_eq in E. rewrite E. exact Hid.
    + rewrite map_map. apply map_ext_in. intros r Hr.
      destruct (String.eqb (Task.id r) (Task.id t)) eqn:E; [|reflexivity].
      rewrite (Hsame r Hr E). exact Hby.
  - intros r Hr. unfold update_row, targeted, readable.
    cbn [upd_where upd_returning upd_set eq_id matches reads_rows].
    destruct (String.eqb (Task.id r) (Task.id t)) eqn:E; [|reflexivity].
    rewrite (Hsame r Hr E), Hu, Hs, Hc, Hs'. reflexivity.
Qed.

Lemma find_task_replaced (db : database) (t t' : Task.row) :
  In t (tasks db) -> Task.id t' = Task.id t ->
  find_task (replace_task (Task.id t) t' db) (Task.id t) = Some t'.
Proof.
  intros Hin Hid. unfold find_task, replace_task. cbn [set_tasks tasks].
  apply (find_replaced (Task.id t) t t'); auto.
Qed.

Lemma in_replaced (db : database) (t t' : Task.row) :
  In t (tasks db) -> In t' (tasks (replace_task (Task.id t) t' db)).
Proof.
  intros Hin. unfold replace_task. cbn [set_tasks tasks].
  apply in_map_iff. exists t. rewrite String.eqb_refl. auto.
Qed.

(** ** Soft delete and restore *)

Lemma update_tasks_ok_constraints (db db' : database) (s : subject)
    (now : timestamptz) (st : update_stmt Task.row) :
  update_tasks db s now st = Ok db' -> constraints_ok db' = true.
Proof.
  unfold update_tasks.
  destruct (update_rows tasks_policies "tasks" (update_updated_at_column now)
              db s st (tasks db)) as [rows|]; simpl; [|discriminate].
  unfold commit. destruct (constraints_ok (set_tasks rows db)) eqn:E;
    intros H; [|discriminate].
  injection H as <-. exact E.
Qed.

Lemma handleDelete_by_admin (db : database) (uid : uuid)
    (now client_now : timestamptz) (profile : option Profile.row)
    (editing : TaskModal.TaskWithAssignees) (t : Task.row) :
  constraints_ok db = true ->
  has_role db uid admin = true ->
  isAdmin profile = true ->
  In t (tasks db) ->
  Task.id (TaskModal.base editing) = Task.id t ->
  Task.is_deleted t = Some false ->
  TaskModal.handleDelete db (Authenticated uid) now profile (Some editing)
    true client_now
  = Ok (replace_task (Task.id t) (trashed now client_now t) db).
Proof.
  intros Hok Hadm Hgate Hin Hid Hlive.
  unfold TaskModal.handleDelete. rewrite Hgate, Hid. cbn [negb].
  apply (update_tasks_by_id db (Authenticated uid) now
           (fun r => Task.set_deleted_at (Some client_now)
                       (Task.set_is_deleted (Some true) r)) t);
    try assumption; try reflexivity.
  - rewrite tasks_update_using, Hadm. reflexivity.
  - rewrite tasks_select_using, Hlive. reflexivity.
  - rewrite tasks_update_check, Hadm. reflexivity.
  - rewrite tasks_select_using. exact Hadm.
Qed.

Lemma handleRestore_by_admin (db : database) (uid : uuid) (now : timestamptz)
    (t : Task.row) :
  constraints_ok db = true ->
  has_role db uid admin = true ->
  In t (tasks db) ->
  Task.is_deleted t = Some true ->
  Trash.handleRestore db (Authenticated uid) now (Task.id t)
  = Ok (replace_task (Task.id t) (restored now t) db).
Proof.
  intros Hok Hadm Hin Hdel.
  unfold Trash.handleRestore.
  apply (update_tasks_by_id db (Authenticated uid) now
           (fun r => Task.set_deleted_at None
                       (Task.set_is_deleted (Some false) r)) t);
    try assumption; try reflexivity.
  - rewrite tasks_update_using, Hadm. reflexivity.
  - rewrite tasks_select_using, Hdel. exact Hadm.
  - rewrite tasks_update_check, Hadm. reflexivity.
Qed.

(** C6.  The soft delete of an admin answers the state in which the row
    of the task has [is_deleted = true] and [deleted_at] set to the
    timestamp the client sent; the restore of an admin answers the state
    in which the row has [is_deleted = false] and [deleted_at] NULL; and
    restoring the task just soft-deleted gives back the row it was, both
    deletion columns cleared. *)
Theorem soft_delete_then_restore (db : database) (uid : uuid)
    (now now' client_now : timestamptz) (profile : option Profile.row)
    (editing : TaskModal.TaskWithAssignees) (t : Task.row) :
  constraints_ok db = true ->
  has_role db uid admin = true ->
  isAdmin profile = true ->
  In t (tasks db) ->
  Task.id (TaskModal.base editing) = Task.id t ->
  Task.is_deleted t = Some false ->
  let t1 := trashed now client_now t in
  let db1 := replace_task (Task.id t) t1 db in
  let t2 := restored now' t1 in
  let db2 := replace_task (Task.id t) t2 db1 in
  (TaskModal.handleDelete db (Authenticated uid) now profile (Some editing)
     true client_now = Ok db1
   /\ find_task db1 (Task.id t) = Some t1
   /\ Task.is_deleted t1 = Some true
   /\ Task.deleted_at t1 = Some client_now)
  /\ (Trash.handleRestore db1 (Authenticated uid) now' (Task.id t) = Ok db2
      /\ find_task db2 (Task.id t) = Some t2
      /\ Task.is_deleted t2 = Some false
      /\ Task.deleted_at t2 = None
      /\ t2 = Task.set_updated_at (Some now') (Task.set_deleted_at None t))
  /\ (forall d, In d (tasks db) -> Task.is_deleted d = Some true ->
        Trash.handleRestore db (Authenticated uid) now' (Task.id d)
        = Ok (replace_task (Task.id d) (restored now' d) db)
        /\ find_task (replace_task (Task.id d) (restored now' d) db) (Task.id d)
           = Some (restored now' d)
        /\ Task.is_deleted (restored now' d) = Some false
        /\ Task.deleted_at (restored now' d) = None).
Proof.
  intros Hok Hadm Hgate Hin Hid Hlive t1 db1 t2 db2.
  pose proof (handleDelete_by_admin db uid now client_now profile editing t
                Hok Hadm Hgate Hin Hid Hlive) as Hdelete.
  fold t1 db1 in Hdelete.
  assert (Hok1 : constraints_ok db1 = true).
  { unfold TaskModal.handleDelete in Hdelete. rewrite Hgate in Hdelete.
    cbn [negb] in Hdelete.
    apply update_tasks_ok_constraints in Hdelete. exact Hdelete. }
  assert (Hin1 : In t1 (tasks db1)) by (apply in_replaced; exact Hin).
  split; [|split].
  - split; [exact Hdelete|]. split; [|split; reflexivity].
    apply find_task_replaced; [exact Hin|reflexivity].
  - split; [|split; [|split; [reflexivity|split; [reflexivity|]]]].
    + apply (handleRestore_by_admin db1 uid now' t1 Hok1 Hadm Hin1 eq_refl).
    + apply (find_task_replaced db1 t1 t2 Hin1). reflexivity.
    + unfold t2, t1, restored, trashed. destruct t. simpl in Hlive. subst.
      reflexivity.
  - intros d Hd Hdel. split; [|split; [|split; reflexivity]].
    + apply handleRestore_by_admin; assumption.
    + apply find_task_replaced; [exact Hd|reflexivity].
Qed.

Lemma soft_delete_then_restore_witness :
  TaskModal.handleDelete Sample.db (Authenticated "a1") 60%Z
    (Some Sample.alice) (Some Sample.report_card) true 61%Z
  = Ok (replace_task "t1" (trashed 60%Z 61%Z Sample.report) Sample.db)
  /\ Trash.handleRestore
       (replace_task "t1" (trashed 60%Z 61%Z Sample.report) Sample.db)
       (Authenticated "a1") 70%Z "t1"
     = Ok (replace_task "t1" (restored 70%Z (trashed 60%Z 61%Z Sample.report))
             (replace_task "t1" (trashed 60%Z 61%Z Sample.report) Sample.db)).
Proof.
  pose proof (soft_delete_then_restore Sample.db "a1" 60%Z 70%Z 61%Z
                (Some Sample.alice) Sample.report_card Sample.report
                eq_refl eq_refl eq_refl (or_introl eq_refl) eq_refl eq_refl) as H.
  cbv zeta in H.
  split; [exact (proj1 (proj1 H))|exact (proj1 (proj1 (proj2 H)))].
Defined.

(** ** Hard delete *)

Lemma filter_none {A : Type} (f : A -> bool) (l : list A) :
  (forall x, In x l -> f x = false) -> filter f l = [].
Proof.
  induction l as [|x l IH]; simpl; intros H; [reflexivity|].
  rewrite (H x (or_introl eq_refl)). apply IH.
  intros y Hy. apply H. right. exact Hy.
Qed.

Lemma tasks_delete_untargeted (db : database) (s : subject)
    (st : delete_stmt Task.row) (t : Task.row) :
  targeted tasks_policies DELETE db s (del_where st) (del_returning st) t = false.
Proof.
  unfold targeted. rewrite tasks_delete_using, andb_false_r. reflexivity.
Qed.

Lemma delete_tasks_no_effect (db : database) (s : subject)
    (st : delete_stmt Task.row) :
  state_after db (delete_tasks db s st) = db.
Proof.
  unfold delete_tasks, deleted_rows, delete_rows.
  rewrite (filter_none (targeted tasks_policies DELETE db s (del_where st)
                          (del_returning st)))
    by (intros t _; apply tasks_delete_untargeted).
  rewrite (filter_all (fun r => negb (targeted tasks_policies DELETE db s
                                        (del_where st) (del_returning st) r)))
    by (intros t _; rewrite tasks_delete_untargeted; reflexivity).
  cbn [map cascade].
  rewrite !filter_all
    by (intros x _; unfold cascade; destruct (_ x); reflexivity).
  unfold commit. destruct db. simpl.
  match goal with |- context [if ?c then _ else _] => destruct c end;
    reflexivity.
Qed.

(** C5, on the code.  No policy of [tasks] is FOR DELETE, so the rule-set
    denies the hard delete to every subject, admin included, and a DELETE
    leaves the database as it was: the purge of a soft-deleted task from
    the trash page by an admin removes nothing. *)
Theorem purge_denied_to_admin :
  (forall db s st t,
     rule_allows tasks_policies DELETE db s t = false
     /\ state_after db (delete_tasks db s st) = db)
  /\ has_role Sample.db "a1" admin = true
  /\ In Sample.archive (tasks Sample.db)
  /\ Task.is_deleted Sample.archive = Some true
  /\ Trash.handlePermanentDelete Sample.db (Authenticated "a1")
       (Task.id Sample.archive) true
     = Ok Sample.db.
Proof.
  split.
  - intros db s st t. split; [reflexivity|apply delete_tasks_no_effect].
  - repeat split; try reflexivity. right. left. reflexivity.
Qed.

(** ** What an assignee may write *)

(** An assignee's UPDATE of a live task goes through whatever columns it
    assigns, as long as the row keeps its keys and stays not deleted: the
    rule reads the assignment and [is_deleted], nothing else. *)
Lemma assignee_update_any_column (db : database) (uid : uuid) (now : timestamptz)
    (set : Task.row -> Task.row) (t : Task.row) :
  constraints_ok db = true ->
  In t (tasks db) ->
  assigned db uid (Task.id t) = true ->
  Task.is_deleted t = Some false ->
  Task.id (set t) = Task.id t ->
  Task.created_by (set t) = Task.created_by t ->
  Task.is_deleted (set t) = Some false ->
  update_tasks db (Authenticated uid) now
    {| upd_set := set; upd_where := eq_id (Task.id t); upd_returning := false |}
  = Ok (replace_task (Task.id t) (update_updated_at_column now (set t)) db).
Proof.
  intros Hok Hin Has Hlive Hid Hby Hlive'.
  apply update_tasks_by_id; try assumption.
  - rewrite tasks_update_using, Has, Hlive. apply orb_true_r.
  - rewrite tasks_select_using, Hlive. reflexivity.
  - rewrite tasks_update_check.
    change (Task.id (update_updated_at_column now (set t))) with (Task.id (set t)).
    change (Task.is_deleted (update_updated_at_column now (set t)))
      with (Task.is_deleted (set t)).
    rewrite Hid, Has, Hlive'. apply orb_true_r.
  - rewrite tasks_select_using.
    change (Task.is_deleted (update_updated_at_column now (set t)))
      with (Task.is_deleted (set t)).
    rewrite Hlive'. reflexivity.
Qed.

(** An assignee moves a live task to any status from any status. *)
Lemma assignee_sets_any_status (db : database) (uid : uuid) (now : timestamptz)
    (t : Task.row) (newStatus : TaskStatus) :
  constraints_ok db = true ->
  In t (tasks db) ->
  assigned db uid (Task.id t) = true ->
  Task.is_deleted t = Some false ->
  Tasks.handleDrop db (Authenticated uid) now (Task.id t) newStatus
  = Ok (replace_task (Task.id t)
          (Task.set_updated_at (Some now) (Task.set_status newStatus t)) db).
Proof.
  intros Hok Hin Has Hlive. unfold Tasks.handleDrop.
  apply (assignee_update_any_column db uid now (Task.set_status newStatus) t);
    try assumption; reflexivity.
Qed.

Lemma update_row_result {R : Type} (policies : list (policy R)) (table : string)
    (before_update : R -> R) (db : database) (s : subject) (st : update_stmt R)
    (r r' : R) :
  update_row policies table before_update db s st r = Ok r' ->
  r' = r \/ r' = before_update (upd_set st r).
Proof.
  unfold update_row.
  destruct (targeted policies UPDATE db s (upd_where st) (upd_returning st) r).
  - destruct (_ && _); intros H; [|discriminate].
    injection H as <-. right. reflexivity.
  - intros H. injection H as <-. left. reflexivity.
Qed.

Lemma update_tasks_keeps_assignees (db : database) (s : subject)
    (now : timestamptz) (st : update_stmt Task.row) :
  task_assignees (state_after db (update_tasks db s now st)) = task_assignees db.
Proof.
  unfold update_tasks.
  destruct (update_rows tasks_policies "tasks" (update_updated_at_column now)
              db s st (tasks db)) as [rows|]; simpl; [|reflexivity].
  unfold commit. destruct (constraints_ok (set_tasks rows db)); reflexivity.
Qed.

(** What the save of the task form leaves when the session is not an
    admin's: the assignments as they were, and every task row with the
    title, description, priority, due date, category, tags and deletion
    flag it had. *)
Lemma handleSubmit_not_admin_frame (db : database) (s : subject)
    (now : timestamptz) (uuids : nat -> uuid) (profile : option Profile.row)
    (task : option TaskModal.TaskWithAssignees) (formData : TaskModal.FormData)
    (i : nat) (t : Task.row) :
  isAdmin profile = false ->
  nth_error (tasks db) i = Some t ->
  let db' := fst (TaskModal.handleSubmit db s now uuids profile task formData) in
  task_assignees db' = task_assignees db
  /\ exists t',
       nth_error (tasks db') i = Some t'
       /\ Task.title t' = Task.title t
       /\ Task.description t' = Task.description t
       /\ Task.priority t' = Task.priority t
       /\ Task.due_date t' = Task.due_date t
       /\ Task.category t' = Task.category t
       /\ Task.tags t' = Task.tags t
       /\ Task.is_deleted t' = Task.is_deleted t.
Proof.
  intros Hgate Hi db'.
  assert (Hsame : task_assignees db = task_assignees db
                  /\ exists t', nth_error (tasks db) i = Some t'
                       /\ Task.title t' = Task.title t
                       /\ Task.description t' = Task.description t
                       /\ Task.priority t' = Task.priority t
                       /\ Task.due_date t' = Task.due_date t
                       /\ Task.category t' = Task.category t
                       /\ Task.tags t' = Task.tags t
                       /\ Task.is_deleted t' = Task.is_deleted t)
    by (split; [reflexivity|exists t; repeat split; assumption]).
  subst db'. unfold TaskModal.handleSubmit, TaskModal.updateData.
  rewrite Hgate. cbn [negb orb bind].
  destruct profile as [me|]; [|exact Hsame].
  destruct task as [editing|]; [|exact Hsame].
  destruct (existsb _ (TaskModal.assignees editing)); cbn [negb]; [|exact Hsame].
  set (st := {| upd_set := Task.set_status (TaskModal.status formData);
                upd_where := eq_id (Task.id (TaskModal.base editing));
                upd_returning := false |}).
  pose proof (update_tasks_keeps_assignees db s now st) as Hkeep.
  destruct (update_tasks_at db s now st i t Hi) as [t' [Hn Ht']].
  destruct (update_tasks db s now st) as [db1|e]; cbn [fst];
    [|exact Hsame].
  cbn [state_after] in Hkeep, Hn. split; [exact Hkeep|].
  exists t'. split; [exact Hn|].
  destruct Ht' as [->|Hu]; [repeat split|].
  apply update_row_result in Hu. destruct Hu as [->| ->]; repeat split.
Qed.

(** C3, on the code.  The rule for assignees does not restrict the
    columns: the employee assigned to a live task rewrites its title and
    priority by an UPDATE of their own, where the specification has
    the authorization layer allow the status only. *)
Theorem assignee_rewrites_title_and_priority :
  has_role Sample.db "e1" employee = true
  /\ has_role Sample.db "e1" admin = false
  /\ assigned Sample.db "e1" (Task.id Sample.report) = true
  /\ Task.is_deleted Sample.report = Some false
  /\ Task.title Sample.report = "Write report"
  /\ Task.priority Sample.report = high
  /\ update_tasks Sample.db (Authenticated "e1") 99%Z Sample.retitle
     = Ok (replace_task "t1"
             (Task.set_updated_at (Some 99%Z)
                (Task.set_priority low (Task.set_title "Do nothing" Sample.report)))
             Sample.db)
  /\ option_map Task.title
       (find_task (state_after Sample.db
                     (update_tasks Sample.db (Authenticated "e1") 99%Z Sample.retitle))
                  "t1")
     = Some "Do nothing"
  /\ option_map Task.priority
       (find_task (state_after Sample.db
                     (update_tasks Sample.db (Authenticated "e1") 99%Z Sample.retitle))
                  "t1")
     = Some low.
Proof.
  repeat split; vm_compute; reflexivity.
Qed.

(** ** What a subject may write on its own profile *)

(** The self-update rule compares [id] with [auth.uid()] on the old row
    and on the new one; the role and the status the new row carries are
    not looked at. *)
Lemma own_profile_update_allowed (db : database) (uid : uuid)
    (p p' : Profile.row) :
  Profile.id p = uid -> Profile.id p' = uid ->
  allow_using profiles_policies UPDATE db (Authenticated uid) p = true
  /\ allow_check profiles_policies UPDATE db (Authenticated uid) p' = true.
Proof.
  intros Hp Hp'. policy_eval. cbn [auth_uid].
  rewrite !holds_sql_eq_Some, Hp, Hp', String.eqb_refl. split; reflexivity.
Qed.

(** C9, on the code.  An employee's UPDATE of their own profile row that
    sets [role = 'admin'] is allowed and makes them an admin, and a
    disabled employee's UPDATE of their own row that sets
    [status = 'active'] is allowed too, where the specification has a
    non-admin self-update leave role and status as they were. *)
Theorem employee_promotes_self :
  has_role Sample.db "e1" employee = true
  /\ has_role Sample.db "e1" admin = false
  /\ update_profiles Sample.db (Authenticated "e1") 77%Z Sample.promote_self
     = Ok (set_profiles
             [Sample.alice;
              Profile.set_updated_at (Some 77%Z)
                (Profile.set_role admin Sample.bob);
              Sample.carol]
             Sample.db)
  /\ has_role (state_after Sample.db
                 (update_profiles Sample.db (Authenticated "e1") 77%Z
                    Sample.promote_self)) "e1" admin = true
  /\ has_role Sample.db "e2" admin = false
  /\ Profile.status Sample.carol = disabled
  /\ update_profiles Sample.db (Authenticated "e2") 78%Z Sample.enable_self
     = Ok (set_profiles
             [Sample.alice; Sample.bob;
              Profile.set_updated_at (Some 78%Z)
                (Profile.set_status active Sample.carol)]
             Sample.db).
Proof.
  repeat split; vm_compute; reflexivity.
Qed.

(** ** Account creation *)

Lemma nodupb_snoc (l : list string) (x : string) :
  nodupb String.eqb l = true ->
  existsb (String.eqb x) l = false ->
  nodupb String.eqb (l ++ [x])%list = true.
Proof.
  induction l as [|y l IH]; simpl; intros Hl Hx; [reflexivity|].
  apply andb_true_iff in Hl. destruct Hl as [Hy Hl].
  apply orb_false_iff in Hx. destruct Hx as [Hxy Hx].
  rewrite IH by assumption. rewrite andb_true_r.
  rewrite existsb_app. apply negb_true_iff in Hy. rewrite Hy. simpl.
  rewrite String.eqb_sym, Hxy. reflexivity.
Qed.

Lemma references_snoc (keys : list uuid) (x : uuid) (fks : list (option uuid)) :
  forallb (references keys) fks = true ->
  forallb (references (keys ++ [x])%list) fks = true.
Proof.
  rewrite !forallb_forall. intros H fk Hfk. specialize (H fk Hfk).
  destruct fk as [k|]; [|reflexivity]. unfold references in *.
  rewrite existsb_app. apply orb_true_iff. left. exact H.
Qed.

Lemma member_snoc (keys : list uuid) (x : uuid) (l : list uuid) :
  forallb (fun k => existsb (String.eqb k) keys) l = true ->
  forallb (fun k => existsb (String.eqb k) (keys ++ [x])%list) (l ++ [x])%list = true.
Proof.
  intros H. rewrite forallb_app. apply andb_true_iff. split.
  - rewrite forallb_forall in *. intros k Hk.
    rewrite existsb_app. apply orb_true_iff. left. exact (H k Hk).
  - simpl. rewrite existsb_app. simpl. rewrite String.eqb_refl.
    rewrite !orb_true_r. reflexivity.
Qed.

(** A key no account has is the key of no profile. *)
Lemma fresh_account_fresh_profile (users pids : list uuid) (x : uuid) :
  forallb (fun k => existsb (String.eqb k) users) pids = true ->
  existsb (String.eqb x) users = false ->
  existsb (String.eqb x) pids = false.
Proof.
  intros Hfk Hx. apply existsb_false_iff. intros k Hk.
  destruct (String.eqb x k) eqn:E; [|reflexivity].
  apply String.eqb_eq in E. subst k.
  rewrite forallb_forall in Hfk. rewrite (Hfk x Hk) in Hx. discriminate.
Qed.

(** C8.  Whenever an account is created, [profiles] holds exactly one
    row more, after the rows that were there: the id of the account, role
    employee, status active, and as username the email of the account
    when it has one, otherwise ['user_'] followed by the id.  And the
    creation of an account whose id is new and whose default username is
    free does succeed. *)
Theorem account_creation_inserts_one_profile (db : database)
    (now : timestamptz) (NEW : AuthUser.row) :
  (forall db', on_auth_user_created now NEW db = Ok db' ->
     exists p,
       profiles db' = (profiles db ++ [p])%list
       /\ length (profiles db') = S (length (profiles db))
       /\ Profile.id p = AuthUser.id NEW
       /\ Profile.role p = employee
       /\ Profile.status p = active
       /\ Profile.username p
          = match AuthUser.email NEW with
            | Some e => e
            | None => ("user_" ++ AuthUser.id NEW)%string
            end)
  /\ (constraints_ok db = true ->
      existsb (String.eqb (AuthUser.id NEW)) (map AuthUser.id (auth_users db)) = false ->
      existsb (String.eqb (coalesce (AuthUser.email NEW)
                             ("user_" ++ AuthUser.id NEW)%string))
              (map Profile.username (profiles db)) = false ->
      exists db', on_auth_user_created now NEW db = Ok db').
Proof.
  split.
  - intros db'. unfold on_auth_user_created, commit.
    destruct (constraints_ok _); intros H; [|discriminate].
    injection H as <-. eexists.
    split; [reflexivity|]. split; [|repeat split; reflexivity].
    cbn [handle_new_user set_profiles profiles]. rewrite length_app.
    simpl. lia.
  - intros Hok Hid Hname. eexists.
    unfold on_auth_user_created, commit.
    replace (constraints_ok _) with true; [reflexivity|]. symmetry.
    revert Hok. unfold constraints_ok, handle_new_user.
    cbn [set_profiles set_auth_users auth_users profiles tasks task_assignees
         task_comments task_attachments].
    rewrite !andb_true_iff, !map_app. cbn [map Profile.id Profile.username].
    intros [[[[[Hu [[Hp Hn] Hfk]] [Ht Hby]] [[[Ha Hat] Hau] Hak]]
               [[Hc Hct] Hcu]] [[Hf Hft] Hfu]].
    repeat split; try assumption.
    + apply nodupb_snoc; assumption.
    + apply nodupb_snoc; [assumption|].
      apply (fresh_account_fresh_profile (map AuthUser.id (auth_users db)));
        assumption.
    + apply nodupb_snoc; assumption.
    + apply member_snoc. exact Hfk.
    + apply references_snoc. exact Hby.
    + apply references_snoc. exact Hau.
    + apply references_snoc. exact Hcu.
    + apply references_snoc. exact Hfu.
Qed.

Lemma account_creation_inserts_one_profile_witness :
  (exists db', on_auth_user_created 100%Z Sample.erin Sample.db = Ok db')
  /\ exists p,
       profiles (state_after Sample.db
                   (on_auth_user_created 100%Z Sample.erin Sample.db))
       = (profiles Sample.db ++ [p])%list
       /\ length (profiles (state_after Sample.db
                    (on_auth_user_created 100%Z Sample.erin Sample.db)))
          = S (length (profiles Sample.db))
       /\ Profile.id p = AuthUser.id Sample.erin
       /\ Profile.role p = employee
       /\ Profile.status p = active
       /\ Profile.username p
          = match AuthUser.email Sample.erin with
            | Some e => e
            | None => ("user_" ++ AuthUser.id Sample.erin)%string
            end.
Proof.
  split.
  - exact (proj2 (account_creation_inserts_one_profile Sample.db 100%Z
                    Sample.erin) eq_refl eq_refl eq_refl).
  - exact (proj1 (account_creation_inserts_one_profile Sample.db 100%Z
                    Sample.erin) _ eq_refl).
Defined.

(** ** The status of the subject's profile *)

Lemma admin_subquery_value {R : Type} (db : database) (uid : uuid) (r : R) :
  exists_admin_profile db (Authenticated uid) r = Some (has_role db uid admin).
Proof.
  pose proof (admin_subquery db uid r) as H.
  unfold exists_admin_profile, sql_exists in *.
  rewrite holds_Some in H. rewrite H. reflexivity.
Qed.

Lemma has_role_status (db : database) (uid u : uuid) (st : ProfileStatus)
    (r : Role) :
  has_role (with_profile_status uid st db) u r = has_role db u r.
Proof.
  unfold has_role, with_profile_status. cbn [set_profiles profiles].
  induction (profiles db) as [|p l IH]; [reflexivity|].
  cbn [map existsb]. rewrite IH. f_equal.
  destruct (String.eqb (Profile.id p) uid); reflexivity.
Qed.

Lemma admin_subquery_status {R : Type} (db : database) (uid : uuid)
    (st : ProfileStatus) (r : R) :
  exists_admin_profile (with_profile_status uid st db) (Authenticated uid) r
  = exists_admin_profile db (Authenticated uid) r.
Proof. rewrite !admin_subquery_value, has_role_status. reflexivity. Qed.

Lemma assignment_subquery_status (db : database) (s : subject) (uid : uuid)
    (st : ProfileStatus) (t : Task.row) :
  exists_assignment (with_profile_status uid st db) s t = exists_assignment db s t.
Proof. reflexivity. Qed.

Lemma tasks_decision_status (db : database) (uid : uuid) (st : ProfileStatus)
    (c : command) (t : Task.row) :
  allow_using tasks_policies c (with_profile_status uid st db) (Authenticated uid) t
  = allow_using tasks_policies c db (Authenticated uid) t
  /\ allow_check tasks_policies c (with_profile_status uid st db) (Authenticated uid) t
     = allow_check tasks_policies c db (Authenticated uid) t.
Proof.
  destruct c; policy_eval;
    rewrite ?admin_subquery_status, ?assignment_subquery_status;
    split; reflexivity.
Qed.

Lemma live_task_subquery_status (db : database) (uid : uuid) (st : ProfileStatus)
    (fk : option uuid) :
  exists_live_task fk (with_profile_status uid st db) (Authenticated uid)
  = exists_live_task fk db (Authenticated uid).
Proof.
  unfold exists_live_task, sql_exists, visible.
  change (tasks (with_profile_status uid st db)) with (tasks db).
  rewrite (filter_ext _ (allow_using tasks_policies SELECT db (Authenticated uid)));
    [reflexivity|].
  intros t. apply tasks_decision_status.
Qed.

(** C10.  Let two databases differ in the status of the subject's profile
    only.  Every rule of [tasks], [task_assignees], [task_comments] and
    [task_attachments] decides alike in both, USING and WITH CHECK, for
    every command and every row; so do the rules of [profiles] on every
    row, and its INSERT, UPDATE and DELETE rules whatever the status of
    the row judged.  The subject reads its own profile row either way.  What the status changes is the
    SELECT on [profiles] by others: they read the row when it is active
    and not when it is disabled. *)
Theorem decisions_ignore_subject_status (db : database) (uid : uuid)
    (st : ProfileStatus) :
  let db' := with_profile_status uid st db in
  let s := Authenticated uid in
  (forall c t,
     allow_using tasks_policies c db' s t = allow_using tasks_policies c db s t
     /\ allow_check tasks_policies c db' s t = allow_check tasks_policies c db s t)
  /\ (forall c a,
        allow_using task_assignees_policies c db' s a
        = allow_using task_assignees_policies c db s a
        /\ allow_check task_assignees_policies c db' s a
           = allow_check task_assignees_policies c db s a)
  /\ (forall c m,
        allow_using task_comments_policies c db' s m
        = allow_using task_comments_policies c db s m
        /\ allow_check task_comments_policies c db' s m
           = allow_check task_comments_policies c db s m)
  /\ (forall c f,
        allow_using task_attachments_policies c db' s f
        = allow_using task_attachments_policies c db s f
        /\ allow_check task_attachments_policies c db' s f
           = allow_check task_attachments_policies c db s f)
  /\ (forall c p,
        allow_using profiles_policies c db' s p
        = allow_using profiles_policies c db s p
        /\ allow_check profiles_policies c db' s p
           = allow_check profiles_policies c db s p)
  /\ (forall c p st',
        c <> SELECT ->
        allow_using profiles_policies c db' s (Profile.set_status st' p)
        = allow_using profiles_policies c db s p
        /\ allow_check profiles_policies c db' s (Profile.set_status st' p)
           = allow_check profiles_policies c db s p)
  /\ (forall p st',
        Profile.id p = uid ->
        allow_using profiles_policies SELECT db' s (Profile.set_status st' p) = true)
  /\ (forall other p,
        other <> uid -> Profile.id p = uid ->
        allow_using profiles_policies SELECT db (Authenticated other)
          (Profile.set_status active p) = true
        /\ allow_using profiles_policies SELECT db (Authenticated other)
             (Profile.set_status disabled p) = false).
Proof.
  intros db' s. subst db' s.
  split; [intros c t; apply tasks_decision_status|].
  split; [|split; [|split; [|split; [|split; [|split]]]]].
  - intros c a. destruct c; policy_eval;
      rewrite ?admin_subquery_status; split; reflexivity.
  - intros c m. destruct c; policy_eval;
      rewrite ?live_task_subquery_status; split; reflexivity.
  - intros c f. destruct c; policy_eval;
      rewrite ?live_task_subquery_status, ?admin_subquery_status;
      split; reflexivity.
  - intros c p. destruct c; policy_eval;
      rewrite ?admin_subquery_status; split; reflexivity.
  - intros c p st' Hc. destruct c; [congruence| | |]; policy_eval;
      rewrite ?admin_subquery_status; split; reflexivity.
  - intros p st' Hp. policy_eval. cbn [auth_uid Profile.id Profile.status
      Profile.set_status].
    rewrite holds_sql_or, holds_sql_eq_Some, Hp, String.eqb_refl.
    apply orb_true_r.
  - intros other p Hother Hp. policy_eval. cbn [auth_uid Profile.id
      Profile.status Profile.set_status ProfileStatus_eqb].
    split; [reflexivity|].
    rewrite holds_sql_or, holds_sql_eq_Some, Hp.
    destruct (String.eqb uid other) eqn:E; [|reflexivity].
    apply String.eqb_eq in E. congruence.
Qed.

Lemma decisions_ignore_subject_status_witness :
  allow_using profiles_policies UPDATE
    (with_profile_status "e2" active Sample.db) (Authenticated "e2")
    (Profile.set_status active Sample.carol)
  = allow_using profiles_policies UPDATE Sample.db (Authenticated "e2")
      Sample.carol
  /\ allow_using profiles_policies SELECT
       (with_profile_status "e2" active Sample.db) (Authenticated "e2")
       (Profile.set_status active Sample.carol) = true
  /\ allow_using profiles_policies SELECT Sample.db (Authenticated "e1")
       (Profile.set_status disabled Sample.carol) = false.
Proof.
  pose proof (decisions_ignore_subject_status Sample.db "e2" active) as H.
  cbv zeta in H.
  destruct H as [_ [_ [_ [_ [_ [Hp [Hself Hothers]]]]]]].
  split; [|split].
  - refine (proj1 (Hp UPDATE Sample.carol active _)). discriminate.
  - exact (Hself Sample.carol active eq_refl).
  - refine (proj2 (Hothers "e1" Sample.carol _ eq_refl)). discriminate.
Defined.

(** * Further properties of the rule-set and of the pages *)

(** ** Requests without a session *)

(** X1.  Every policy is TO authenticated: a request without a session is
    allowed no command on any row of the five tables, by USING as by WITH
    CHECK, and its SELECT on tasks and on comments answers nothing. *)
Theorem anonymous_denied (db : database) (c : command) :
  (forall p, allow_using profiles_policies c db Anonymous p = false
             /\ allow_check profiles_policies c db Anonymous p = false)
  /\ (forall t, allow_using tasks_policies c db Anonymous t = false
                /\ allow_check tasks_policies c db Anonymous t = false)
  /\ (forall a, allow_using task_assignees_policies c db Anonymous a = false
                /\ allow_check task_assignees_policies c db Anonymous a = false)
  /\ (forall m, allow_using task_comments_policies c db Anonymous m = false
                /\ allow_check task_comments_policies c db Anonymous m = false)
  /\ (forall f, allow_using task_attachments_policies c db Anonymous f = false
                /\ allow_check task_attachments_policies c db Anonymous f = false)
  /\ select_tasks db Anonymous = []
  /\ select_task_comments db Anonymous = [].
Proof.
  repeat split; try (destruct c; reflexivity).
  - unfold select_tasks, visible. apply filter_none. reflexivity.
  - unfold select_task_comments, visible. apply filter_none. reflexivity.
Qed.

(** ** A task whose [is_deleted] is NULL *)

Lemma tasks_select_needs_flag (db : database) (s : subject) (t : Task.row) :
  Task.is_deleted t = None ->
  allow_using tasks_policies SELECT db s t = false.
Proof.
  intros H. destruct s as [|uid]; [reflexivity|].
  rewrite tasks_select_using, H. reflexivity.
Qed.

(** X2.  [is_deleted] is a nullable column and both SELECT policies
    compare it with a constant: a task whose flag is NULL is read by no
    subject, admin or not, is in no task list, and no UPDATE that has a
    WHERE or a RETURNING changes it, so neither the soft delete nor the
    restore nor the board reach it. *)
Theorem null_flag_task_unreachable (db : database) (s : subject)
    (now : timestamptz) (i : nat) (t : Task.row) :
  Task.is_deleted t = None ->
  nth_error (tasks db) i = Some t ->
  rule_allows tasks_policies SELECT db s t = false
  /\ ~ In t (select_tasks db s)
  /\ (forall st : update_stmt Task.row,
        reads_rows (upd_where st) (upd_returning st) = true ->
        nth_error (tasks (state_after db (update_tasks db s now st))) i = Some t)
  /\ nth_error (tasks (state_after db (Trash.handleRestore db s now (Task.id t)))) i
     = Some t.
Proof.
  intros Hnull Hi.
  pose proof (tasks_select_needs_flag db s t Hnull) as Hsel.
  assert (Hany : forall st : update_stmt Task.row,
            reads_rows (upd_where st) (upd_returning st) = true ->
            nth_error (tasks (state_after db (update_tasks db s now st))) i = Some t).
  { intros st Hreads.
    destruct (update_tasks_at db s now st i t Hi) as [t' [Hn [->|Hu]]];
      [exact Hn|].
    unfold update_row, targeted, readable in Hu.
    rewrite Hreads, Hsel, !andb_false_r in Hu.
    injection Hu as <-. exact Hn. }
  split; [exact Hsel|]. split; [|split; [exact Hany|]].
  - unfold select_tasks, visible. intros Hin.
    apply filter_In in Hin. destruct Hin as [_ Hin]. congruence.
  - apply Hany. reflexivity.
Qed.

Lemma null_flag_task_unreachable_witness :
  rule_allows tasks_policies SELECT Sample.db_with_draft (Authenticated "a1")
    Sample.draft = false
  /\ nth_error (tasks (state_after Sample.db_with_draft
                  (Trash.handleRestore Sample.db_with_draft (Authenticated "a1")
                     90%Z (Task.id Sample.draft)))) 2
     = Some Sample.draft.
Proof.
  pose proof (null_flag_task_unreachable Sample.db_with_draft (Authenticated "a1")
                90%Z 2 Sample.draft eq_refl eq_refl) as H.
  split; [exact (proj1 H)|exact (proj2 (proj2 (proj2 H)))].
Defined.

(** ** Trashed tasks and subjects that are not admin *)

(** X3.  The only rule that lets a subject who is not admin write a task
    requires [NOT is_deleted] of the row as it is: whatever UPDATE such a
    subject sends, assigned or not, every soft-deleted task is afterwards
    the row it was; in particular it stays in the trash. *)
Theorem trashed_task_frozen_for_non_admin (db : database) (uid : uuid)
    (now : timestamptz) (st : update_stmt Task.row) (i : nat) (t : Task.row) :
  has_role db uid admin = false ->
  nth_error (tasks db) i = Some t ->
  Task.is_deleted t = Some true ->
  nth_error (tasks (state_after db (update_tasks db (Authenticated uid) now st))) i
  = Some t.
Proof.
  intros Hnadm Hi Hdel.
  destruct (update_tasks_at db (Authenticated uid) now st i t Hi)
    as [t' [Hn [->|Hu]]]; [exact Hn|].
  rewrite update_row_untargeted in Hu.
  - injection Hu as <-. exact Hn.
  - rewrite tasks_update_using, Hnadm, Hdel. apply andb_false_r.
Qed.

Lemma trashed_task_frozen_for_non_admin_witness :
  nth_error (tasks (state_after Sample.db
               (update_tasks Sample.db (Authenticated "e1") 90%Z
                  Sample.untrash_archive))) 1
  = Some Sample.archive.
Proof.
  apply (trashed_task_frozen_for_non_admin Sample.db "e1" 90%Z
           Sample.untrash_archive 1 Sample.archive); reflexivity.
Defined.

(** ** The [updated_at] triggers *)

Lemma update_profiles_at (db : database) (s : subject) (now : timestamptz)
    (st : update_stmt Profile.row) (i : nat) (p : Profile.row) :
  nth_error (profiles db) i = Some p ->
  exists p',
    nth_error (profiles (state_after db (update_profiles db s now st))) i = Some p'
    /\ (p' = p
        \/ update_row profiles_policies "profiles" (update_updated_at_column now)
             db s st p = Ok p').
Proof.
  intros Hi. unfold update_profiles.
  destruct (update_rows profiles_policies "profiles" (update_updated_at_column now)
              db s st (profiles db)) as [rows|] eqn:E; simpl.
  - unfold commit. destruct (constraints_ok (set_profiles rows db)); simpl.
    + apply update_rows_pointwise in E.
      destruct (Forall2_nth_error _ _ _ _ _ E Hi) as [p' [Hn Hu]].
      exists p'. split; [exact Hn|right; exact Hu].
    + exists p. split; [exact Hi|left; reflexivity].
  - exists p. split; [exact Hi|left; reflexivity].
Qed.

(** X4.  After an UPDATE on [tasks] or on [profiles], each row is either
    the row it was or carries [updated_at = now()], whatever the SET list
    assigns, [updated_at] included: the BEFORE UPDATE trigger writes
    last. *)
Theorem updated_at_is_the_servers (db : database) (s : subject)
    (now : timestamptz) :
  (forall (st : update_stmt Task.row) i t,
     nth_error (tasks db) i = Some t ->
     exists t',
       nth_error (tasks (state_after db (update_tasks db s now st))) i = Some t'
       /\ (t' = t \/ Task.updated_at t' = Some now))
  /\ (forall (st : update_stmt Profile.row) i p,
        nth_error (profiles db) i = Some p ->
        exists p',
          nth_error (profiles (state_after db (update_profiles db s now st))) i
          = Some p'
          /\ (p' = p \/ Profile.updated_at p' = Some now)).
Proof.
  split.
  - intros st i t Hi.
    destruct (update_tasks_at db s now st i t Hi) as [t' [Hn [->|Hu]]].
    + exists t. split; [exact Hn|left; reflexivity].
    + exists t'. split; [exact Hn|].
      apply update_row_result in Hu. destruct Hu as [->| ->];
        [left|right]; reflexivity.
  - intros st i p Hi.
    destruct (update_profiles_at db s now st i p Hi) as [p' [Hn [->|Hu]]].
    + exists p. split; [exact Hn|left; reflexivity].
    + exists p'. split; [exact Hn|].
      apply update_row_result in Hu. destruct Hu as [->| ->];
        [left|right]; reflexivity.
Qed.

Lemma updated_at_is_the_servers_witness :
  exists t',
    nth_error (tasks (state_after Sample.db
                 (update_tasks Sample.db (Authenticated "a1") 90%Z
                    Sample.backdate_report))) 0 = Some t'
    /\ (t' = Sample.report \/ Task.updated_at t' = Some 90%Z).
Proof.
  exact (proj1 (updated_at_is_the_servers Sample.db (Authenticated "a1") 90%Z)
           Sample.backdate_report 0 Sample.report eq_refl).
Defined.

(** ** Rules of [profiles] *)

Lemma profiles_select_using (db : database) (uid : uuid) (p : Profile.row) :
  allow_using profiles_policies SELECT db (Authenticated uid) p
  = ProfileStatus_eqb (Profile.status p) active || String.eqb (Profile.id p) uid.
Proof.
  policy_eval. cbn [auth_uid].
  rewrite holds_sql_or, holds_Some, holds_sql_eq_Some. reflexivity.
Qed.

Lemma profiles_update_using (db : database) (uid : uuid) (p : Profile.row) :
  allow_using profiles_policies UPDATE db (Authenticated uid) p
  = String.eqb (Profile.id p) uid || has_role db uid admin.
Proof.
  policy_eval. cbn [auth_uid].
  rewrite holds_sql_eq_Some, admin_subquery. reflexivity.
Qed.

Lemma profiles_update_check (db : database) (uid : uuid) (p : Profile.row) :
  allow_check profiles_policies UPDATE db (Authenticated uid) p
  = String.eqb (Profile.id p) uid || has_role db uid admin.
Proof.
  policy_eval. cbn [auth_uid].
  rewrite holds_sql_eq_Some, admin_subquery. reflexivity.
Qed.

Lemma eqb_false_of_neq (a b : string) : a <> b -> String.eqb a b = false.
Proof. intros H. apply String.eqb_neq. exact H. Qed.

(** X5.  Whatever UPDATE a subject who is not admin sends to [profiles],
    the rows of the other users are afterwards the rows they were. *)
Theorem non_admin_cannot_write_other_profiles (db : database) (uid : uuid)
    (now : timestamptz) (st : update_stmt Profile.row) (i : nat)
    (p : Profile.row) :
  has_role db uid admin = false ->
  nth_error (profiles db) i = Some p ->
  Profile.id p <> uid ->
  nth_error (profiles (state_after db
               (update_profiles db (Authenticated uid) now st))) i
  = Some p.
Proof.
  intros Hnadm Hi Hother.
  destruct (update_profiles_at db (Authenticated uid) now st i p Hi)
    as [p' [Hn [->|Hu]]]; [exact Hn|].
  rewrite update_row_untargeted in Hu.
  - injection Hu as <-. exact Hn.
  - rewrite profiles_update_using, Hnadm, (eqb_false_of_neq _ _ Hother).
    reflexivity.
Qed.

Lemma non_admin_cannot_write_other_profiles_witness :
  nth_error (profiles (state_after Sample.db
               (update_profiles Sample.db (Authenticated "e1") 90%Z
                  Sample.rename_everyone))) 0
  = Some Sample.alice.
Proof.
  apply (non_admin_cannot_write_other_profiles Sample.db "e1" 90%Z
           Sample.rename_everyone 0 Sample.alice); [reflexivity|reflexivity|].
  discriminate.
Defined.

(** X6.  The SELECT policy of [profiles] hides a disabled profile from
    everyone but its owner, and an UPDATE with a WHERE or a RETURNING
    acts on the rows its subject can read only: no such UPDATE of another
    subject, admin included, changes the row of a disabled user, so
    neither the status toggle nor the role change of the team page
    reaches it. *)
Theorem disabled_profile_out_of_reach (db : database) (uid : uuid)
    (now : timestamptz) (i : nat) (p : Profile.row) :
  Profile.status p = disabled ->
  Profile.id p <> uid ->
  nth_error (profiles db) i = Some p ->
  (forall st : update_stmt Profile.row,
     reads_rows (upd_where st) (upd_returning st) = true ->
     nth_error (profiles (state_after db
                  (update_profiles db (Authenticated uid) now st))) i = Some p)
  /\ (forall cur,
        nth_error (profiles (state_after db
                     (Team.handleToggleStatus db (Authenticated uid) now
                        (Profile.id p) cur))) i = Some p)
  /\ (forall newRole,
        nth_error (profiles (state_after db
                     (Team.handleChangeRole db (Authenticated uid) now
                        (Profile.id p) newRole))) i = Some p).
Proof.
  intros Hdis Hother Hi.
  assert (Hany : forall st : update_stmt Profile.row,
            reads_rows (upd_where st) (upd_returning st) = true ->
            nth_error (profiles (state_after db
                         (update_profiles db (Authenticated uid) now st))) i
            = Some p).
  { intros st Hreads.
    destruct (update_profiles_at db (Authenticated uid) now st i p Hi)
      as [p' [Hn [->|Hu]]]; [exact Hn|].
    unfold update_row, targeted, readable in Hu.
    rewrite Hreads, profiles_select_using, Hdis in Hu.
    rewrite (eqb_false_of_neq _ _ Hother) in Hu.
    cbn [ProfileStatus_eqb orb] in Hu. rewrite !andb_false_r in Hu.
    injection Hu as <-. exact Hn. }
  split; [exact Hany|]. split.
  - intros cur. apply Hany. reflexivity.
  - intros newRole. apply Hany. reflexivity.
Qed.

Lemma disabled_profile_out_of_reach_witness :
  nth_error (profiles (state_after Sample.db
               (Team.handleToggleStatus Sample.db (Authenticated "a1") 90%Z
                  (Profile.id Sample.carol) disabled))) 2
  = Some Sample.carol.
Proof.
  refine (proj1 (proj2 (disabled_profile_out_of_reach Sample.db "a1" 90%Z 2
                          Sample.carol eq_refl _ eq_refl)) disabled).
  discriminate.
Defined.

(** X7.  The status toggle of the team page changes the status of no
    user but the caller's own, whoever calls it and whatever current
    status it is given: the row of a disabled user is not reached, and a
    row set to disabled would no longer be readable by the caller, which
    the store refuses. *)
Theorem toggle_keeps_status_of_others (db : database) (uid : uuid)
    (now : timestamptz) (userId : uuid) (cur : ProfileStatus) (i : nat)
    (p : Profile.row) :
  Profile.id p <> uid ->
  nth_error (profiles db) i = Some p ->
  exists p',
    nth_error (profiles (state_after db
                 (Team.handleToggleStatus db (Authenticated uid) now userId cur))) i
    = Some p'
    /\ Profile.status p' = Profile.status p.
Proof.
  intros Hother Hi. unfold Team.handleToggleStatus.
  match goal with
  | |- context [update_profiles db ?s now ?st] =>
      destruct (update_profiles_at db s now st i p Hi) as [p' [Hn [->|Hu]]]
  end.
  - exists p. split; [exact Hn|reflexivity].
  - exists p'. split; [exact Hn|].
    unfold update_row, targeted, readable in Hu.
    cbn [upd_where upd_returning upd_set Team.eq_profile_id reads_rows] in Hu.
    destruct (matches _ p && _ && _) eqn:T.
    + destruct (allow_check profiles_policies UPDATE db (Authenticated uid) _
                && allow_using profiles_policies SELECT db (Authenticated uid) _)
        eqn:C; [|discriminate].
      injection Hu as <-.
      apply andb_true_iff in T. destruct T as [_ Hread].
      apply andb_true_iff in C. destruct C as [_ Hread'].
      rewrite profiles_select_using, (eqb_false_of_neq _ _ Hother),
        orb_false_r in Hread.
      rewrite profiles_select_using in Hread'.
      change (Profile.id (update_updated_at_column now
                (Profile.set_status
                   (if ProfileStatus_eqb cur active then disabled else active) p)))
        with (Profile.id p) in Hread'.
      rewrite (eqb_false_of_neq _ _ Hother), orb_false_r in Hread'.
      cbn [update_updated_at_column with_updated_at Profile_HasUpdatedAt
           Profile.set_updated_at Profile.set_status Profile.status] in *.
      destruct (Profile.status p); [|discriminate].
      destruct (if ProfileStatus_eqb cur active then disabled else active);
        [reflexivity|discriminate].
    + injection Hu as <-. reflexivity.
Qed.

Lemma toggle_keeps_status_of_others_witness :
  exists p',
    nth_error (profiles (state_after Sample.db
                 (Team.handleToggleStatus Sample.db (Authenticated "a1") 90%Z
                    "e1" active))) 1
    = Some p'
    /\ Profile.status p' = Profile.status Sample.bob.
Proof.
  refine (toggle_keeps_status_of_others Sample.db "a1" 90%Z "e1" active 1
            Sample.bob _ eq_refl).
  discriminate.
Defined.

(** What the toggle of an admin on an active colleague answers. *)
Lemma toggle_of_colleague_refused :
  has_role Sample.db "a1" admin = true
  /\ Team.handleToggleStatus Sample.db (Authenticated "a1") 90%Z "e1" active
     = Err (rls_violation "profiles").
Proof. split; reflexivity. Qed.

(** ** An UPDATE of one profile by its id *)

Lemma constraints_ok_set_profiles (rows : list Profile.row) (db : database) :
  map Profile.id rows = map Profile.id (profiles db) ->
  map Profile.username rows = map Profile.username (profiles db) ->
  constraints_ok (set_profiles rows db) = constraints_ok db.
Proof.
  intros Hid Hname. unfold constraints_ok.
  cbn [set_profiles auth_users profiles tasks task_assignees task_comments
       task_attachments].
  rewrite Hid, Hname. reflexivity.
Qed.

Lemma update_profiles_by_id (db : database) (s : subject) (now : timestamptz)
    (set : Profile.row -> Profile.row) (p : Profile.row) :
  constraints_ok db = true ->
  In p (profiles db) ->
  Profile.id (set p) = Profile.id p ->
  Profile.username (set p) = Profile.username p ->
  allow_using profiles_policies UPDATE db s p = true ->
  allow_using profiles_policies SELECT db s p = true ->
  allow_check profiles_policies UPDATE db s (update_updated_at_column now (set p)) = true ->
  allow_using profiles_policies SELECT db s (update_updated_at_column now (set p)) = true ->
  update_profiles db s now
    {| upd_set := set; upd_where := Team.eq_profile_id (Profile.id p);
       upd_returning := false |}
  = Ok (replace_profile (Profile.id p) (update_updated_at_column now (set p)) db).
Proof.
  intros Hok Hin Hid Hname Hu Hs Hc Hs'.
  pose proof (constraints_profiles_pk db Hok) as Hpk.
  assert (Hsame : forall r, In r (profiles db) ->
            String.eqb (Profile.id r) (Profile.id p) = true -> r = p).
  { intros r Hr E. apply String.eqb_eq in E.
    apply (nodupb_unique Profile.id (profiles db)); assumption. }
  unfold update_profiles, replace_profile.
  rewrite (update_rows_map profiles_policies "profiles"
             (update_updated_at_column now) db s _
             (fun r => if String.eqb (Profile.id r) (Profile.id p)
                       then update_updated_at_column now (set p) else r)).
  - cbn [bind]. unfold commit.
    rewrite constraints_ok_set_profiles, Hok; [reflexivity| |].
    + rewrite map_map. apply map_ext_in. intros r Hr.
      destruct (String.eqb (Profile.id r) (Profile.id p)) eqn:E; [|reflexivity].
      apply String.eqb_eq in E. rewrite E. exact Hid.
    + rewrite map_map. apply map_ext_in. intros r Hr.
      destruct (String.eqb (Profile.id r) (Profile.id p)) eqn:E; [|reflexivity].
      rewrite (Hsame r Hr E). exact Hname.
  - intros r Hr. unfold update_row, targeted, readable.
    cbn [upd_where upd_returning upd_set Team.eq_profile_id matches reads_rows].
    destruct (String.eqb (Profile.id r) (Profile.id p)) eqn:E; [|reflexivity].
    rewrite (Hsame r Hr E), Hu, Hs, Hc, Hs'. reflexivity.
Qed.

Lemma in_replaced_profile (db : database) (p p' : Profile.row) :
  In p (profiles db) -> In p' (profiles (replace_profile (Profile.id p) p' db)).
Proof.
  intros Hin. unfold replace_profile. cbn [set_profiles profiles].
  apply in_map_iff. exists p. rewrite String.eqb_refl. auto.
Qed.

Lemma constraints_ok_replace_profile (db : database) (p p' : Profile.row) :
  constraints_ok db = true ->
  In p (profiles db) ->
  Profile.id p' = Profile.id p ->
  Profile.username p' = Profile.username p ->
  constraints_ok (replace_profile (Profile.id p) p' db) = true.
Proof.
  intros Hok Hin Hid Hname. unfold replace_profile.
  rewrite constraints_ok_set_profiles; [exact Hok| |].
  - rewrite map_map. apply map_ext_in. intros r Hr.
    destruct (String.eqb (Profile.id r) (Profile.id p)) eqn:E; [|reflexivity].
    apply String.eqb_eq in E. rewrite E. exact Hid.
  - rewrite map_map. apply map_ext_in. intros r Hr.
    destruct (String.eqb (Profile.id r) (Profile.id p)) eqn:E; [|reflexivity].
    apply String.eqb_eq in E.
    rewrite (nodupb_unique Profile.id (profiles db) r p
               (constraints_profiles_pk db Hok) Hr Hin E).
    exact Hname.
Qed.

(** X8.  The role change of the team page by an admin on a user whose
    profile is active succeeds and replaces that row by the same row with
    the new role and [updated_at = now()]; the other rows and tables are
    as they were. *)
Theorem admin_changes_role_of_active_user (db : database) (uid : uuid)
    (now : timestamptz) (p : Profile.row) (newRole : Role) :
  constraints_ok db = true ->
  has_role db uid admin = true ->
  In p (profiles db) ->
  Profile.status p = active ->
  Team.handleChangeRole db (Authenticated uid) now (Profile.id p) newRole
  = Ok (replace_profile (Profile.id p)
          (Profile.set_updated_at (Some now) (Profile.set_role newRole p)) db).
Proof.
  intros Hok Hadm Hin Hact. unfold Team.handleChangeRole.
  apply (update_profiles_by_id db (Authenticated uid) now
           (Profile.set_role newRole) p); try assumption; try reflexivity.
  - rewrite profiles_update_using, Hadm. apply orb_true_r.
  - rewrite profiles_select_using, Hact. reflexivity.
  - rewrite profiles_update_check, Hadm. apply orb_true_r.
  - rewrite profiles_select_using.
    change (Profile.status (update_updated_at_column now
              (Profile.set_role newRole p))) with (Profile.status p).
    rewrite Hact. reflexivity.
Qed.

Lemma admin_changes_role_of_active_user_witness :
  Team.handleChangeRole Sample.db (Authenticated "a1") 90%Z
    (Profile.id Sample.bob) admin
  = Ok (replace_profile (Profile.id Sample.bob)
          (Profile.set_updated_at (Some 90%Z) (Profile.set_role admin Sample.bob))
          Sample.db).
Proof.
  apply (admin_changes_role_of_active_user Sample.db "a1" 90%Z Sample.bob admin);
    try reflexivity.
  right. left. reflexivity.
Defined.

Lemma toggled_twice (st : ProfileStatus) : toggled (toggled st) = st.
Proof. destruct st; reflexivity. Qed.

Lemma toggle_own_status (db : database) (now : timestamptz) (p : Profile.row) :
  constraints_ok db = true ->
  In p (profiles db) ->
  Team.handleToggleStatus db (Authenticated (Profile.id p)) now (Profile.id p)
    (Profile.status p)
  = Ok (replace_profile (Profile.id p)
          (Profile.set_updated_at (Some now)
             (Profile.set_status (toggled (Profile.status p)) p)) db).
Proof.
  intros Hok Hin. unfold Team.handleToggleStatus.
  apply (update_profiles_by_id db (Authenticated (Profile.id p)) now
           (Profile.set_status (toggled (Profile.status p))) p);
    try assumption; try reflexivity.
  - rewrite profiles_update_using, String.eqb_refl. reflexivity.
  - rewrite profiles_select_using, String.eqb_refl. apply orb_true_r.
  - rewrite profiles_update_check.
    change (Profile.id (update_updated_at_column now
              (Profile.set_status (toggled (Profile.status p)) p)))
      with (Profile.id p).
    rewrite String.eqb_refl. reflexivity.
  - rewrite profiles_select_using.
    change (Profile.id (update_updated_at_column now
              (Profile.set_status (toggled (Profile.status p)) p)))
      with (Profile.id p).
    rewrite String.eqb_refl. apply orb_true_r.
Qed.

(** X9.  The status toggle on the caller's own row succeeds for every
    authenticated subject, admin or not, and flips the status; toggled a
    second time it gives the row back as it was but for [updated_at]. *)
Theorem own_status_toggle_round_trip (db : database) (now now' : timestamptz)
    (p : Profile.row) :
  constraints_ok db = true ->
  In p (profiles db) ->
  let s := Authenticated (Profile.id p) in
  let p1 := Profile.set_updated_at (Some now)
              (Profile.set_status (toggled (Profile.status p)) p) in
  let db1 := replace_profile (Profile.id p) p1 db in
  Team.handleToggleStatus db s now (Profile.id p) (Profile.status p) = Ok db1
  /\ Profile.status p1 <> Profile.status p
  /\ Team.handleToggleStatus db1 s now' (Profile.id p) (Profile.status p1)
     = Ok (replace_profile (Profile.id p) (Profile.set_updated_at (Some now') p) db1).
Proof.
  intros Hok Hin s p1 db1. subst s.
  split; [apply toggle_own_status; assumption|].
  split; [destruct p as [? ? ? [|] ? ?]; discriminate|].
  assert (Hok1 : constraints_ok db1 = true)
    by (apply constraints_ok_replace_profile; try assumption; reflexivity).
  assert (Hin1 : In p1 (profiles db1)) by (apply in_replaced_profile; exact Hin).
  pose proof (toggle_own_status db1 now' p1 Hok1 Hin1) as H.
  change (Profile.id p1) with (Profile.id p) in H.
  rewrite H. f_equal. f_equal.
  unfold p1. cbn [Profile.status Profile.set_status Profile.set_updated_at
                  Profile.id Profile.username Profile.role Profile.created_at
                  Profile.updated_at].
  rewrite toggled_twice. destruct p. reflexivity.
Qed.

Lemma own_status_toggle_round_trip_witness :
  Team.handleToggleStatus Sample.db (Authenticated "e1") 90%Z "e1" active
  = Ok (replace_profile "e1"
          (Profile.set_updated_at (Some 90%Z)
             (Profile.set_status disabled Sample.bob)) Sample.db).
Proof.
  exact (proj1 (own_status_toggle_round_trip Sample.db 90%Z 91%Z Sample.bob
                  eq_refl (or_intror (or_introl eq_refl)))).
Defined.

(** ** Assignments and task creation: admin only *)

Lemma has_role_same_profiles (db db' : database) (uid : uuid) (r : Role) :
  profiles db' = profiles db -> has_role db' uid r = has_role db uid r.
Proof. intros H. unfold has_role. rewrite H. reflexivity. Qed.

Lemma assignees_insert_check (db : database) (uid : uuid) (a : TaskAssignee.row) :
  allow_check task_assignees_policies INSERT db (Authenticated uid) a
  = has_role db uid admin.
Proof. policy_eval. apply admin_subquery. Qed.

Lemma assignees_delete_using (db : database) (uid : uuid) (a : TaskAssignee.row) :
  allow_using task_assignees_policies DELETE db (Authenticated uid) a
  = has_role db uid admin.
Proof. policy_eval. apply admin_subquery. Qed.

Lemma tasks_insert_check (db : database) (uid : uuid) (t : Task.row) :
  allow_check tasks_policies INSERT db (Authenticated uid) t
  = has_role db uid admin.
Proof. policy_eval. apply admin_subquery. Qed.

Lemma update_tasks_keeps_others (db db' : database) (s : subject)
    (now : timestamptz) (st : update_stmt Task.row) :
  update_tasks db s now st = Ok db' ->
  profiles db' = profiles db /\ task_assignees db' = task_assignees db.
Proof.
  unfold update_tasks.
  destruct (update_rows tasks_policies "tasks" (update_updated_at_column now)
              db s st (tasks db)) as [rows|]; simpl; [|discriminate].
  unfold commit. destruct (constraints_ok (set_tasks rows db));
    intros H; [|discriminate].
  injection H as <-. split; reflexivity.
Qed.

Lemma non_admin_insert_assignees (db : database) (uid : uuid)
    (st : insert_stmt TaskAssignee.row) :
  has_role db uid admin = false ->
  task_assignees (state_after db (insert_task_assignees db (Authenticated uid) st))
  = task_assignees db
  /\ (ins_rows st <> [] ->
      insert_task_assignees db (Authenticated uid) st
      = Err (rls_violation "task_assignees")).
Proof.
  intros Hnadm. unfold insert_task_assignees, insert_rows.
  destruct (ins_rows st) as [|a rows] eqn:E.
  - cbn [forallb bind]. rewrite app_nil_r. unfold commit. split.
    + destruct (constraints_ok _); reflexivity.
    + intros H. congruence.
  - cbn [forallb]. rewrite assignees_insert_check, Hnadm.
    cbn [andb bind state_after]. split; reflexivity.
Qed.

Lemma non_admin_delete_assignees (db : database) (uid : uuid)
    (st : delete_stmt TaskAssignee.row) :
  has_role db uid admin = false ->
  task_assignees (state_after db (delete_task_assignees db (Authenticated uid) st))
  = task_assignees db.
Proof.
  intros Hnadm. unfold delete_task_assignees, delete_rows.
  rewrite filter_all.
  - unfold commit. destruct (constraints_ok _); reflexivity.
  - intros a _. unfold targeted.
    rewrite assignees_delete_using, Hnadm, andb_false_r. reflexivity.
Qed.

Lemma delete_assignees_keeps_profiles (db : database) (s : subject)
    (st : delete_stmt TaskAssignee.row) :
  profiles (state_after db (delete_task_assignees db s st)) = profiles db.
Proof.
  unfold delete_task_assignees, commit.
  destruct (constraints_ok _); reflexivity.
Qed.

(** X10.  The assignments change by an admin only.  For a subject who is
    not admin, no INSERT and no DELETE changes [task_assignees], no rule
    allows an UPDATE to anyone, and the save of the task form leaves the
    assignments as they were whatever profile, task and form the client
    holds, even a client that believes its user an admin. *)
Theorem assignments_change_by_admin_only (db : database) (uid : uuid) :
  has_role db uid admin = false ->
  let s := Authenticated uid in
  (forall st, task_assignees (state_after db (insert_task_assignees db s st))
              = task_assignees db)
  /\ (forall st, ins_rows st <> [] ->
        insert_task_assignees db s st = Err (rls_violation "task_assignees"))
  /\ (forall st, task_assignees (state_after db (delete_task_assignees db s st))
                 = task_assignees db)
  /\ (forall s' a, rule_allows task_assignees_policies UPDATE db s' a = false)
  /\ (forall now uuids profile task formData,
        task_assignees
          (fst (TaskModal.handleSubmit db s now uuids profile task formData))
        = task_assignees db).
Proof.
  intros Hnadm s. subst s.
  split; [intros st; apply non_admin_insert_assignees; exact Hnadm|].
  split; [intros st; apply non_admin_insert_assignees; exact Hnadm|].
  split; [intros st; apply non_admin_delete_assignees; exact Hnadm|].
  split; [intros s' a; reflexivity|].
  intros now uuids profile task formData. unfold TaskModal.handleSubmit.
  destruct profile as [me|]; [|reflexivity].
  destruct task as [editing|].
  - destruct (negb _); [reflexivity|].
    destruct (bind _ _) as [db1|e] eqn:E1; [|reflexivity].
    assert (H1 : profiles db1 = profiles db /\ task_assignees db1 = task_assignees db).
    { destruct (TaskModal.updateData (Some me) formData) as [set|]; [|discriminate].
      cbn [bind] in E1. apply update_tasks_keeps_others in E1. exact E1. }
    destruct H1 as [Hp1 Ha1].
    assert (Hn1 : has_role db1 uid admin = false)
      by (rewrite (has_role_same_profiles db db1 uid admin Hp1); exact Hnadm).
    destruct (isAdmin (Some me)); [|exact Ha1].
    set (del := {| del_where := eq_task_id (Task.id (TaskModal.base editing));
                   del_returning := false |}).
    pose proof (non_admin_delete_assignees db1 uid del Hn1) as Hd.
    pose proof (delete_assignees_keeps_profiles db1 (Authenticated uid) del) as Hp2.
    set (db2 := state_after db1 (delete_task_assignees db1 (Authenticated uid) del))
      in *.
    assert (Hn2 : has_role db2 uid admin = false)
      by (rewrite (has_role_same_profiles db1 db2 uid admin Hp2); exact Hn1).
    destruct (TaskModal.assignee_ids formData) as [|u us] eqn:Eids;
      cbn [fst]; [congruence|].
    match goal with
    | |- context [insert_task_assignees db2 ?s ?st] =>
        destruct (non_admin_insert_assignees db2 uid st Hn2) as [Hi _];
        destruct (insert_task_assignees db2 s st) as [db3|e]
    end; cbn [fst state_after] in *; congruence.
  - destruct (negb _); [reflexivity|].
    destruct (TaskModal.taskData formData) as [set|e]; [|reflexivity].
    cbn [bind]. unfold insert_tasks, insert_rows.
    cbn [ins_rows ins_returning forallb].
    rewrite tasks_insert_check, Hnadm. reflexivity.
Qed.

Lemma assignments_change_by_admin_only_witness :
  task_assignees
    (fst (TaskModal.handleSubmit Sample.db (Authenticated "e1") 90%Z Sample.uuids
            (Some Sample.alice) (Some Sample.report_card) Sample.form))
  = task_assignees Sample.db.
Proof.
  pose proof (assignments_change_by_admin_only Sample.db "e1" eq_refl) as H.
  cbv zeta in H.
  exact (proj2 (proj2 (proj2 (proj2 H))) 90%Z Sample.uuids (Some Sample.alice)
           (Some Sample.report_card) Sample.form).
Defined.

(** X11.  Tasks are created by an admin only.  The INSERT of a subject
    who is not admin is refused whatever rows it brings, and the save of
    a new task by such a subject leaves the whole database as it was,
    whatever the client believes. *)
Theorem task_creation_by_admin_only (db : database) (uid : uuid) :
  has_role db uid admin = false ->
  (forall st, ins_rows st <> [] ->
     insert_tasks db (Authenticated uid) st = Err (rls_violation "tasks"))
  /\ (forall now uuids profile formData,
        fst (TaskModal.handleSubmit db (Authenticated uid) now uuids profile
               None formData) = db).
Proof.
  intros Hnadm. split.
  - intros st Hne. unfold insert_tasks, insert_rows.
    destruct (ins_rows st) as [|t rows]; [congruence|].
    cbn [forallb]. rewrite tasks_insert_check, Hnadm. reflexivity.
  - intros now uuids profile formData. unfold TaskModal.handleSubmit.
    destruct profile as [me|]; [|reflexivity].
    destruct (negb _); [reflexivity|].
    destruct (TaskModal.taskData formData) as [set|e]; [|reflexivity].
    cbn [bind]. unfold insert_tasks, insert_rows.
    cbn [ins_rows ins_returning forallb].
    rewrite tasks_insert_check, Hnadm. reflexivity.
Qed.

Lemma task_creation_by_admin_only_witness :
  fst (TaskModal.handleSubmit Sample.db (Authenticated "e1") 90%Z Sample.uuids
         (Some Sample.alice) None Sample.form) = Sample.db.
Proof.
  exact (proj2 (task_creation_by_admin_only Sample.db "e1" eq_refl)
           90%Z Sample.uuids (Some Sample.alice) Sample.form).
Defined.

(** ** The save of an admin: the assignee set is replaced *)

Lemma existsb_map_filter {A : Type} (f : string -> bool) (key : A -> string)
    (g : A -> bool) (l : list A) :
  existsb f (map key (filter g l)) = true -> existsb f (map key l) = true.
Proof.
  induction l as [|x l IH]; simpl; [auto|].
  destruct (g x); simpl.
  - intros H. apply orb_true_iff in H. apply orb_true_iff.
    destruct H as [H|H]; [left; exact H|right; apply IH; exact H].
  - intros H. apply orb_true_iff. right. apply IH. exact H.
Qed.

Lemma nodupb_map_filter {A : Type} (key : A -> string) (g : A -> bool)
    (l : list A) :
  nodupb String.eqb (map key l) = true ->
  nodupb String.eqb (map key (filter g l)) = true.
Proof.
  induction l as [|x l IH]; simpl; [auto|].
  intros H. apply andb_true_iff in H. destruct H as [Hx Hl].
  destruct (g x); simpl; [|apply IH; exact Hl].
  rewrite (IH Hl), andb_true_r.
  apply negb_true_iff in Hx. apply negb_true_iff.
  destruct (existsb (String.eqb (key x)) (map key (filter g l))) eqn:E;
    [|reflexivity].
  apply existsb_map_filter in E. congruence.
Qed.

Lemma references_map_filter {A : Type} (keys : list uuid)
    (fk : A -> option uuid) (g : A -> bool) (l : list A) :
  forallb (references keys) (map fk l) = true ->
  forallb (references keys) (map fk (filter g l)) = true.
Proof.
  rewrite !forallb_forall. intros H x Hx.
  apply in_map_iff in Hx. destruct Hx as [a [<- Ha]].
  apply filter_In in Ha. destruct Ha as [Ha _].
  apply H. apply in_map. exact Ha.
Qed.

Lemma existsb_keys_filter (f : uuid * uuid -> bool) (g : TaskAssignee.row -> bool)
    (l : list TaskAssignee.row) :
  existsb f (assignment_keys (filter g l)) = true ->
  existsb f (assignment_keys l) = true.
Proof.
  unfold assignment_keys.
  induction l as [|a l IH]; simpl; [auto|].
  destruct (g a); simpl; rewrite !existsb_app.
  - intros H. apply orb_true_iff in H. apply orb_true_iff.
    destruct H as [H|H]; [left; exact H|right; apply IH; exact H].
  - intros H. apply orb_true_iff. right. apply IH. exact H.
Qed.

Lemma nodupb_keys_filter (g : TaskAssignee.row -> bool)
    (l : list TaskAssignee.row) :
  nodupb pair_eqb (assignment_keys l) = true ->
  nodupb pair_eqb (assignment_keys (filter g l)) = true.
Proof.
  induction l as [|a l IH]; [auto|].
  assert (Hcons : forall rows,
            assignment_keys (a :: rows)
            = (match TaskAssignee.task_id a, TaskAssignee.user_id a with
               | Some t, Some u => [(t, u)]
               | _, _ => []
               end ++ assignment_keys rows)%list) by reflexivity.
  rewrite Hcons. cbn [filter].
  destruct (g a); [rewrite Hcons|];
    destruct (TaskAssignee.task_id a) as [t|], (TaskAssignee.user_id a) as [u|];
    cbn [app nodupb]; try exact IH.
  - intros H. apply andb_true_iff in H. destruct H as [Hx Hl].
    rewrite (IH Hl), andb_true_r.
    apply negb_true_iff in Hx. apply negb_true_iff.
    destruct (existsb (pair_eqb (t, u)) (assignment_keys (filter g l))) eqn:E;
      [|reflexivity].
    apply existsb_keys_filter in E. congruence.
  - intros H. apply andb_true_iff in H. destruct H as [_ Hl]. apply IH. exact Hl.
Qed.

Lemma constraints_ok_filter_assignees (g : TaskAssignee.row -> bool)
    (db : database) :
  constraints_ok db = true ->
  constraints_ok (set_task_assignees (filter g (task_assignees db)) db) = true.
Proof.
  unfold constraints_ok.
  cbn [set_task_assignees auth_users profiles tasks task_assignees task_comments
       task_attachments].
  rewrite !andb_true_iff.
  intros [[[[[Hu Hp] Ht] [[[Ha Hat] Hau] Hak]] Hc] Hf].
  repeat split; try tauto.
  - apply nodupb_map_filter. exact Ha.
  - apply references_map_filter. exact Hat.
  - apply references_map_filter. exact Hau.
  - apply nodupb_keys_filter. exact Hak.
Qed.

(** The DELETE of an admin by [task_id] removes the rows of that task and
    no other. *)
Lemma admin_deletes_assignments (db : database) (uid : uuid) (tid : uuid) :
  constraints_ok db = true ->
  has_role db uid admin = true ->
  delete_task_assignees db (Authenticated uid)
    {| del_where := eq_task_id tid; del_returning := false |}
  = Ok (set_task_assignees
          (filter (fun a => negb (matches (eq_task_id tid) a)) (task_assignees db))
          db).
Proof.
  intros Hok Hadm. unfold delete_task_assignees, delete_rows.
  rewrite (filter_ext _ (fun a => negb (matches (eq_task_id tid) a))).
  - unfold commit. rewrite constraints_ok_filter_assignees by exact Hok.
    reflexivity.
  - intros a. unfold targeted, readable. cbn [del_where del_returning reads_rows].
    rewrite assignees_delete_using, Hadm.
    replace (allow_using task_assignees_policies SELECT db (Authenticated uid) a)
      with true by reflexivity.
    rewrite !andb_true_r. reflexivity.
Qed.

Lemma assignments_in_rest (tid : uuid) (rows : list TaskAssignee.row) :
  assignments_in tid
    (filter (fun a => negb (matches (eq_task_id tid) a)) rows) = [].
Proof.
  unfold assignments_in. apply filter_none. intros a Ha.
  apply filter_In in Ha. destruct Ha as [_ Ha].
  apply negb_true_iff in Ha. exact Ha.
Qed.

Lemma assignments_in_assigneesData (uuids : nat -> uuid) (now : timestamptz)
    (tid : uuid) (n : nat) (ids : list uuid) :
  assignments_in tid (TaskModal.assigneesData uuids now tid n ids)
  = TaskModal.assigneesData uuids now tid n ids.
Proof.
  unfold assignments_in. apply filter_all.
  revert n. induction ids as [|u ids IH]; intros n a Ha; [destruct Ha|].
  destruct Ha as [<-|Ha]; [|exact (IH (S n) a Ha)].
  cbn [matches eq_task_id TaskAssignee.task_id].
  rewrite holds_sql_eq_Some. apply String.eqb_refl.
Qed.

Lemma rest_of_assigneesData (uuids : nat -> uuid) (now : timestamptz)
    (tid : uuid) (n : nat) (ids : list uuid) :
  filter (fun a => negb (matches (eq_task_id tid) a))
         (TaskModal.assigneesData uuids now tid n ids) = [].
Proof.
  apply filter_none. intros a Ha.
  pose proof (assignments_in_assigneesData uuids now tid n ids) as H.
  unfold assignments_in in H. rewrite <- H in Ha.
  apply filter_In in Ha. destruct Ha as [_ Ha]. rewrite Ha. reflexivity.
Qed.

Lemma filter_twice {A : Type} (f : A -> bool) (l : list A) :
  filter f (filter f l) = filter f l.
Proof.
  apply filter_all. intros x Hx. apply filter_In in Hx. tauto.
Qed.

Lemma insert_assignees_shape (db db' : database) (s : subject)
    (st : insert_stmt TaskAssignee.row) :
  insert_task_assignees db s st = Ok db' ->
  task_assignees db' = (task_assignees db ++ ins_rows st)%list
  /\ tasks db' = tasks db.
Proof.
  unfold insert_task_assignees, insert_rows.
  destruct (forallb _ (ins_rows st)); cbn [bind]; [|discriminate].
  unfold commit. destruct (constraints_ok _); intros H; [|discriminate].
  injection H as <-. split; reflexivity.
Qed.

(** X12.  The save of an edited task by an admin, once its UPDATE has
    succeeded, replaces the assignee set in two further requests.  When
    the save ends without error the assignments of the task are exactly
    the rows made of the ids of the form, in their order; when the INSERT
    fails the old assignments are gone all the same and the task is left
    with none.  Either way the assignments of the other tasks and the
    tasks the UPDATE left are untouched. *)
Theorem admin_save_replaces_assignees (db db1 : database) (uid : uuid)
    (now : timestamptz) (uuids : nat -> uuid) (profile : option Profile.row)
    (editing : TaskModal.TaskWithAssignees) (formData : TaskModal.FormData) :
  isAdmin profile = true ->
  has_role db uid admin = true ->
  (set <- TaskModal.updateData profile formData ;;
   update_tasks db (Authenticated uid) now
     {| upd_set := set;
        upd_where := eq_id (Task.id (TaskModal.base editing));
        upd_returning := false |}) = Ok db1 ->
  let r := TaskModal.handleSubmit db (Authenticated uid) now uuids profile
             (Some editing) formData in
  let tid := Task.id (TaskModal.base editing) in
  assignments_in tid (task_assignees (fst r))
  = match snd r with
    | None => TaskModal.assigneesData uuids now tid 0 (TaskModal.assignee_ids formData)
    | Some _ => []
    end
  /\ filter (fun a => negb (matches (eq_task_id tid) a)) (task_assignees (fst r))
     = filter (fun a => negb (matches (eq_task_id tid) a)) (task_assignees db)
  /\ tasks (fst r) = tasks db1.
Proof.
  intros Hgate Hadm E1 r tid. subst r.
  assert (H1 : constraints_ok db1 = true
               /\ profiles db1 = profiles db
               /\ task_assignees db1 = task_assignees db).
  { destruct (TaskModal.updateData profile formData) as [set|]; [|discriminate].
    cbn [bind] in E1. split.
    - apply update_tasks_ok_constraints in E1. exact E1.
    - apply update_tasks_keeps_others in E1. exact E1. }
  destruct H1 as [Hok1 [Hp1 Ha1]].
  assert (Hadm1 : has_role db1 uid admin = true)
    by (rewrite (has_role_same_profiles db db1 uid admin Hp1); exact Hadm).
  unfold TaskModal.handleSubmit.
  destruct profile as [me|]; [|discriminate].
  rewrite Hgate. cbn [orb negb]. rewrite E1.
  rewrite (admin_deletes_assignments db1 uid _ Hok1 Hadm1).
  cbn [state_after]. fold tid. rewrite Ha1.
  destruct (TaskModal.assignee_ids formData) as [|u us] eqn:Eids.
  - cbn [fst snd set_task_assignees task_assignees tasks
         TaskModal.assigneesData].
    split; [apply assignments_in_rest|].
    split; [apply filter_twice|reflexivity].
  - match goal with
    | |- context [insert_task_assignees ?d ?s ?st] =>
        destruct (insert_task_assignees d s st) as [db3|e] eqn:E3
    end.
    + apply insert_assignees_shape in E3. destruct E3 as [Ha3 Ht3].
      cbn [fst snd ins_rows set_task_assignees task_assignees tasks] in *.
      rewrite Ha3, Ht3. unfold assignments_in in *.
      rewrite !filter_app.
      pose proof (assignments_in_rest tid (task_assignees db)) as Hrest.
      unfold assignments_in in Hrest. rewrite Hrest.
      pose proof (assignments_in_assigneesData uuids now tid 0 (u :: us)) as Hnew.
      unfold assignments_in in Hnew. rewrite Hnew.
      rewrite rest_of_assigneesData, filter_twice, app_nil_r.
      repeat split; reflexivity.
    + cbn [fst snd set_task_assignees task_assignees tasks].
      split; [apply assignments_in_rest|].
      split; [apply filter_twice|reflexivity].
Qed.

Lemma admin_save_replaces_assignees_witness :
  assignments_in "t1"
    (task_assignees
       (fst (TaskModal.handleSubmit Sample.db (Authenticated "a1") 90%Z
               Sample.uuids (Some Sample.alice) (Some Sample.report_card)
               Sample.form)))
  = match snd (TaskModal.handleSubmit Sample.db (Authenticated "a1") 90%Z
                 Sample.uuids (Some Sample.alice) (Some Sample.report_card)
                 Sample.form) with
    | None => TaskModal.assigneesData Sample.uuids 90%Z "t1" 0 ["e1"; "e2"]
    | Some _ => []
    end.
Proof.
  exact (proj1 (admin_save_replaces_assignees Sample.db _ "a1" 90%Z Sample.uuids
                  (Some Sample.alice) Sample.report_card Sample.form
                  eq_refl eq_refl eq_refl)).
Defined.

(** The same save with the two generated identifiers equal: the INSERT
    breaks the primary key, and the task has lost its assignees. *)
Lemma admin_save_can_lose_assignees :
  snd (TaskModal.handleSubmit Sample.db (Authenticated "a1") 90%Z (fun _ => "g0")
         (Some Sample.alice) (Some Sample.report_card) Sample.form)
  = Some constraint_violation
  /\ assigned Sample.db "e1" "t1" = true
  /\ assignments_in "t1"
       (task_assignees
          (fst (TaskModal.handleSubmit Sample.db (Authenticated "a1") 90%Z
                  (fun _ => "g0") (Some Sample.alice) (Some Sample.report_card)
                  Sample.form)))
     = [].
Proof. repeat split; vm_compute; reflexivity. Qed.

(** ** Comments and attachments of a live task *)

Lemma live_task_exists (db : database) (uid : uuid) (t : Task.row) :
  In t (tasks db) ->
  Task.is_deleted t = Some false ->
  holds (exists_live_task (Some (Task.id t)) db (Authenticated uid)) = true.
Proof.
  intros Hin Hlive. unfold exists_live_task, sql_exists, visible.
  rewrite holds_Some. apply existsb_exists. exists t. split.
  - apply filter_In. split; [exact Hin|].
    rewrite tasks_select_using, Hlive. reflexivity.
  - rewrite holds_sql_and, holds_sql_eq_Some, String.eqb_refl, Hlive.
    reflexivity.
Qed.

Lemma comments_select_value (db : database) (uid : uuid) (c : TaskComment.row) :
  allow_using task_comments_policies SELECT db (Authenticated uid) c
  = holds (exists_live_task (TaskComment.task_id c) db (Authenticated uid)).
Proof. policy_eval. reflexivity. Qed.

Lemma comments_insert_value (db : database) (uid : uuid) (c : TaskComment.row) :
  allow_check task_comments_policies INSERT db (Authenticated uid) c
  = holds (exists_live_task (TaskComment.task_id c) db (Authenticated uid)).
Proof. policy_eval. reflexivity. Qed.

Lemma references_member (keys : list uuid) (k : uuid) :
  In k keys -> references keys (Some k) = true.
Proof.
  intros H. unfold references. apply existsb_exists.
  exists k. split; [exact H|apply String.eqb_refl].
Qed.

Lemma constraints_ok_add_comment (db : database) (c : TaskComment.row) :
  constraints_ok db = true ->
  existsb (String.eqb (TaskComment.id c))
          (map TaskComment.id (task_comments db)) = false ->
  references (map Task.id (tasks db)) (TaskComment.task_id c) = true ->
  references (map Profile.id (profiles db)) (TaskComment.user_id c) = true ->
  constraints_ok (set_task_comments (task_comments db ++ [c])%list db) = true.
Proof.
  intros Hok Hid Ht Hu. revert Hok. unfold constraints_ok.
  cbn [set_task_comments auth_users profiles tasks task_assignees task_comments
       task_attachments].
  rewrite !map_app, !forallb_app. cbn [map forallb].
  rewrite !andb_true_iff.
  intros [[[[[H1 H2] H3] H4] [[Hc Hct] Hcu]] H5].
  repeat split; try tauto.
  apply nodupb_snoc; assumption.
Qed.

(** X13.  On a task that is not deleted every authenticated subject may
    comment, assigned or not, and the INSERT rule does not compare the
    author column with the subject: a comment row naming any existing
    user as its author is accepted and appended as it is. *)
Theorem comment_insert_names_any_author (db : database) (uid : uuid)
    (t : Task.row) (c : TaskComment.row) (returning : bool) :
  constraints_ok db = true ->
  In t (tasks db) ->
  Task.is_deleted t = Some false ->
  TaskComment.task_id c = Some (Task.id t) ->
  existsb (String.eqb (TaskComment.id c))
          (map TaskComment.id (task_comments db)) = false ->
  references (map Profile.id (profiles db)) (TaskComment.user_id c) = true ->
  insert_task_comments db (Authenticated uid)
    {| ins_rows := [c]; ins_returning := returning |}
  = Ok (set_task_comments (task_comments db ++ [c])%list db).
Proof.
  intros Hok Hin Hlive Hfk Hid Hu.
  pose proof (live_task_exists db uid t Hin Hlive) as Hex.
  rewrite <- Hfk in Hex.
  unfold insert_task_comments, insert_rows, readable.
  cbn [ins_rows ins_returning forallb].
  rewrite comments_insert_value, comments_select_value, Hex.
  replace (if returning then true else true) with true
    by (destruct returning; reflexivity).
  cbn [andb bind]. unfold commit.
  rewrite constraints_ok_add_comment; try assumption; [reflexivity|].
  rewrite Hfk. apply references_member. apply in_map. exact Hin.
Qed.

Lemma comment_insert_names_any_author_witness :
  insert_task_comments Sample.db (Authenticated "e2")
    {| ins_rows := [Sample.forged_note]; ins_returning := false |}
  = Ok (set_task_comments
          (task_comments Sample.db ++ [Sample.forged_note])%list Sample.db).
Proof.
  apply (comment_insert_names_any_author Sample.db "e2" Sample.report
           Sample.forged_note false); try reflexivity.
  left. reflexivity.
Defined.

(** X14.  Attachments follow their task for reading and adding: on a
    soft-deleted task both are denied to every subject.  No rule allows
    an UPDATE of an attachment to anyone.  The DELETE rules look at the
    uploader and at the role of the subject only: an authenticated
    subject is allowed exactly when it uploaded the file or is admin. *)
Theorem attachment_rules (db : database) (f : TaskAttachment.row) :
  (forall s t,
     constraints_ok db = true -> In t (tasks db) ->
     TaskAttachment.task_id f = Some (Task.id t) ->
     Task.is_deleted t = Some true ->
     rule_allows task_attachments_policies SELECT db s f = false
     /\ rule_allows task_attachments_policies INSERT db s f = false)
  /\ (forall s, rule_allows task_attachments_policies UPDATE db s f = false)
  /\ (forall uid,
        rule_allows task_attachments_policies DELETE db (Authenticated uid) f
        = holds (sql_eq String.eqb (TaskAttachment.uploaded_by f) (Some uid))
          || has_role db uid admin).
Proof.
  split; [|split].
  - intros s t Hok Hin Hfk Hdel.
    pose proof (no_live_task_when_trashed db s t Hok Hin Hdel) as Hno.
    rewrite <- Hfk in Hno. unfold rule_allows.
    split; policy_eval; rewrite Hno; apply andb_false_r.
  - intros s. reflexivity.
  - intros uid. unfold rule_allows. policy_eval. cbn [auth_uid].
    rewrite admin_subquery. reflexivity.
Qed.

Lemma attachment_rules_witness :
  rule_allows task_attachments_policies SELECT Sample.db (Authenticated "a1")
    Sample.old_file = false
  /\ rule_allows task_attachments_policies INSERT Sample.db (Authenticated "a1")
       Sample.old_file = false.
Proof.
  exact (proj1 (attachment_rules Sample.db Sample.old_file) (Authenticated "a1")
           Sample.archive eq_refl (or_intror (or_introl eq_refl)) eq_refl eq_refl).
Defined.

(** ** What the trash hides and the restore shows again *)

Lemma replaced_rows (db : database) (t' r : Task.row) (tid : uuid) :
  In r (tasks (replace_task tid t' db)) ->
  r = t' \/ (In r (tasks db) /\ String.eqb (Task.id r) tid = false).
Proof.
  unfold replace_task. cbn [set_tasks tasks]. intros H.
  apply in_map_iff in H. destruct H as [r0 [Hr Hin]].
  destruct (String.eqb (Task.id r0) tid) eqn:E.
  - left. symmetry. exact Hr.
  - right. subst r0. split; assumption.
Qed.

(** X15.  Once an admin has moved a task to the trash, no subject who is
    not admin is answered a task of that id, and no subject at all is
    answered a comment of that task; once the admin has restored it,
    every authenticated subject is answered the task again and every
    comment the task had. *)
Theorem trash_hides_restore_shows (db : database) (uid : uuid)
    (now now' client_now : timestamptz) (profile : option Profile.row)
    (editing : TaskModal.TaskWithAssignees) (t : Task.row) :
  constraints_ok db = true ->
  has_role db uid admin = true ->
  isAdmin profile = true ->
  In t (tasks db) ->
  Task.id (TaskModal.base editing) = Task.id t ->
  Task.is_deleted t = Some false ->
  let t1 := trashed now client_now t in
  let db1 := replace_task (Task.id t) t1 db in
  let t2 := restored now' t1 in
  let db2 := replace_task (Task.id t) t2 db1 in
  TaskModal.handleDelete db (Authenticated uid) now profile (Some editing)
    true client_now = Ok db1
  /\ Trash.handleRestore db1 (Authenticated uid) now' (Task.id t) = Ok db2
  /\ (forall u r, has_role db u admin = false ->
        In r (select_tasks db1 (Authenticated u)) -> Task.id r <> Task.id t)
  /\ (forall s c, TaskComment.task_id c = Some (Task.id t) ->
        ~ In c (select_task_comments db1 s))
  /\ (forall u, In t2 (select_tasks db2 (Authenticated u)))
  /\ (forall u c, In c (task_comments db) ->
        TaskComment.task_id c = Some (Task.id t) ->
        In c (select_task_comments db2 (Authenticated u))).
Proof.
  intros Hok Hadm Hgate Hin Hid Hlive t1 db1 t2 db2.
  pose proof (handleDelete_by_admin db uid now client_now profile editing t
                Hok Hadm Hgate Hin Hid Hlive) as Hdelete.
  fold t1 db1 in Hdelete.
  assert (Hok1 : constraints_ok db1 = true).
  { unfold TaskModal.handleDelete in Hdelete. rewrite Hgate in Hdelete.
    cbn [negb] in Hdelete.
    apply update_tasks_ok_constraints in Hdelete. exact Hdelete. }
  assert (Hin1 : In t1 (tasks db1)) by (apply in_replaced; exact Hin).
  assert (Hin2 : In t2 (tasks db2)) by (apply (in_replaced db1 t1 t2); exact Hin1).
  split; [exact Hdelete|].
  split; [apply (handleRestore_by_admin db1 uid now' t1 Hok1 Hadm Hin1 eq_refl)|].
  split; [|split; [|split]].
  - intros u r Hu Hr Hsame.
    unfold select_tasks, visible in Hr. apply filter_In in Hr.
    destruct Hr as [Hr Hvis].
    apply replaced_rows in Hr. destruct Hr as [->|[_ Hne]].
    + rewrite tasks_select_using in Hvis.
      change (Task.is_deleted t1) with (Some true) in Hvis.
      cbv beta iota in Hvis.
      rewrite (has_role_same_profiles db db1 u admin eq_refl) in Hvis.
      congruence.
    + rewrite Hsame, String.eqb_refl in Hne. discriminate.
  - intros s c Hfk Hc.
    unfold select_task_comments, visible in Hc. apply filter_In in Hc.
    destruct Hc as [_ Hvis]. apply comments_select_using in Hvis.
    rewrite Hfk in Hvis.
    pose proof (no_live_task_when_trashed db1 s t1 Hok1 Hin1 eq_refl) as Hno.
    change (Task.id t1) with (Task.id t) in Hno. congruence.
  - intros u. unfold select_tasks, visible. apply filter_In.
    split; [exact Hin2|]. rewrite tasks_select_using. reflexivity.
  - intros u c Hc Hfk. unfold select_task_comments, visible. apply filter_In.
    split; [exact Hc|].
    rewrite comments_select_value, Hfk.
    apply (live_task_exists db2 u t2 Hin2). reflexivity.
Qed.

Lemma trash_hides_restore_shows_witness :
  (forall s c, TaskComment.task_id c = Some "t1" ->
     ~ In c (select_task_comments
               (replace_task "t1" (trashed 60%Z 61%Z Sample.report) Sample.db) s))
  /\ (forall u c, In c (task_comments Sample.db) ->
        TaskComment.task_id c = Some "t1" ->
        In c (select_task_comments
                (replace_task "t1" (restored 70%Z (trashed 60%Z 61%Z Sample.report))
                   (replace_task "t1" (trashed 60%Z 61%Z Sample.report) Sample.db))
                (Authenticated u))).
Proof.
  pose proof (trash_hides_restore_shows Sample.db "a1" 60%Z 70%Z 61%Z
                (Some Sample.alice) Sample.report_card Sample.report
                eq_refl eq_refl eq_refl (or_introl eq_refl) eq_refl eq_refl) as H.
  cbv zeta in H.
  split; [exact (proj1 (proj2 (proj2 (proj2 H))))
         |exact (proj2 (proj2 (proj2 (proj2 (proj2 H)))))].
Defined.

(** ** The lists of the board and of the trash page *)

Lemma In_insert_desc {R : Type} (key : R -> option timestamptz) (x y : R)
    (l : list R) :
  In x (insert_desc key y l) <-> x = y \/ In x l.
Proof.
  induction l as [|z l IH]; simpl.
  - split; intros [H|H]; auto.
  - destruct (before_desc (key y) (key z)); simpl.
    + split; intros [H|H]; auto.
    + rewrite IH. split; intros H; tauto.
Qed.

Lemma In_order_desc {R : Type} (key : R -> option timestamptz) (x : R)
    (l : list R) :
  In x (order_desc key l) <-> In x l.
Proof.
  unfold order_desc. induction l as [|y l IH]; simpl; [tauto|].
  rewrite In_insert_desc, IH. split; intros [H|H]; auto.
Qed.

Lemma before_desc_total (a b : option timestamptz) :
  before_desc a b = false -> before_desc b a = true.
Proof.
  destruct a as [x|], b as [y|]; simpl; try congruence.
  intros H. apply Z.leb_gt in H. apply Z.leb_le. lia.
Qed.

Lemma insert_desc_sorted {R : Type} (key : R -> option timestamptz) (x : R)
    (l : list R) :
  Sorted (fun a b => before_desc (key a) (key b) = true) l ->
  Sorted (fun a b => before_desc (key a) (key b) = true) (insert_desc key x l).
Proof.
  induction l as [|y l IH]; simpl; intros Hs.
  - constructor; constructor.
  - destruct (before_desc (key x) (key y)) eqn:E.
    + constructor; [exact Hs|]. constructor. exact E.
    + inversion Hs as [|? ? Hs' Hhd]; subst.
      constructor; [apply IH; exact Hs'|].
      destruct l as [|z l]; simpl.
      * constructor. apply before_desc_total. exact E.
      * destruct (before_desc (key x) (key z)); constructor.
        -- apply before_desc_total. exact E.
        -- inversion Hhd; assumption.
Qed.

Lemma order_desc_sorted {R : Type} (key : R -> option timestamptz) (l : list R) :
  Sorted (fun a b => before_desc (key a) (key b) = true) (order_desc key l).
Proof.
  unfold order_desc. induction l as [|x l IH]; simpl; [constructor|].
  apply insert_desc_sorted. exact IH.
Qed.

Lemma filter_of_readable {A : Type} (P V : A -> bool) (l : list A) :
  (forall x, In x l -> P x = true -> V x = true) ->
  filter P (filter V l) = filter P l.
Proof.
  induction l as [|x l IH]; simpl; intros H; [reflexivity|].
  assert (IH' : filter P (filter V l) = filter P l)
    by (apply IH; intros y Hy; apply H; right; exact Hy).
  destruct (V x) eqn:EV; simpl.
  - rewrite IH'. reflexivity.
  - destruct (P x) eqn:EP; [|exact IH'].
    rewrite (H x (or_introl eq_refl) EP) in EV. discriminate.
Qed.

Lemma holds_flag (d : option bool) (b : bool) :
  holds (sql_eq Bool.eqb d (Some b)) = true <-> d = Some b.
Proof. destruct d as [[|]|], b; simpl; split; congruence. Qed.

(** X16.  The board lists, for every authenticated subject, admin
    included, exactly the tasks that are not deleted, the most recently
    created first; and the count on each card is the number of comments
    the table holds for that task. *)
Theorem board_lists_live_tasks (db : database) (uid : uuid) :
  (forall t, In t (map TasksPage.task (TasksPage.loadTasks db (Authenticated uid)))
             <-> In t (tasks db) /\ Task.is_deleted t = Some false)
  /\ Sorted (fun a b => before_desc (Task.created_at a) (Task.created_at b) = true)
            (map TasksPage.task (TasksPage.loadTasks db (Authenticated uid)))
  /\ (forall card, In card (TasksPage.loadTasks db (Authenticated uid)) ->
        TasksPage.comments_count card
        = length (filter (fun c => holds (sql_eq String.eqb (TaskComment.task_id c)
                                            (Some (Task.id (TasksPage.task card)))))
                         (task_comments db))).
Proof.
  assert (Hmap : map TasksPage.task (TasksPage.loadTasks db (Authenticated uid))
                 = order_desc Task.created_at
                     (filter (fun t => holds (sql_eq Bool.eqb (Task.is_deleted t)
                                                (Some false)))
                             (tasks db))).
  { unfold TasksPage.loadTasks. rewrite map_map. cbn [TasksPage.task].
    rewrite map_id. unfold select_tasks, visible.
    rewrite filter_of_readable; [reflexivity|].
    intros t _ Hlive. apply holds_flag in Hlive.
    rewrite tasks_select_using, Hlive. reflexivity. }
  split; [|split].
  - intros t. rewrite Hmap, In_order_desc, filter_In, holds_flag. tauto.
  - rewrite Hmap. apply order_desc_sorted.
  - intros card Hcard.
    assert (Ht : In (TasksPage.task card) (tasks db)
                 /\ Task.is_deleted (TasksPage.task card) = Some false).
    { apply (in_map TasksPage.task) in Hcard.
      rewrite Hmap, In_order_desc, filter_In, holds_flag in Hcard. exact Hcard. }
    destruct Ht as [Hin Hlive].
    unfold TasksPage.loadTasks in Hcard. apply in_map_iff in Hcard.
    destruct Hcard as [t [<- _]]. cbn [TasksPage.task TasksPage.comments_count] in *.
    unfold TasksPage.count_comments, select_task_comments, visible.
    rewrite filter_of_readable; [reflexivity|].
    intros c _ Hc. rewrite comments_select_value.
    destruct (TaskComment.task_id c) as [k|]; [|discriminate].
    rewrite holds_sql_eq_Some in Hc. apply String.eqb_eq in Hc. subst k.
    apply live_task_exists; assumption.
Qed.

Lemma traverse_map {A B : Type} (f : A -> option B) (g : B -> A)
    (l : list A) (l' : list B) :
  (forall x y, f x = Some y -> g y = x) ->
  traverse f l = Some l' -> map g l' = l.
Proof.
  intros Hg. revert l'. induction l as [|x l IH]; simpl; intros l' H.
  - injection H as <-. reflexivity.
  - destruct (f x) as [y|] eqn:E; [|discriminate].
    destruct (traverse f l) as [ys|]; [|discriminate].
    injection H as <-. simpl. rewrite (Hg x y E), (IH ys eq_refl). reflexivity.
Qed.

Lemma traverse_stops {A B : Type} (f : A -> option B) (l : list A) (x : A) :
  In x l -> f x = None -> traverse f l = None.
Proof.
  induction l as [|y l IH]; simpl; intros Hin Hx; [destruct Hin|].
  destruct Hin as [->|Hin].
  - rewrite Hx. reflexivity.
  - rewrite (IH Hin Hx). destruct (f y); reflexivity.
Qed.

Lemma trashed_rows_read (db : database) (uid : uuid) :
  filter (fun t => holds (sql_eq Bool.eqb (Task.is_deleted t) (Some true)))
         (select_tasks db (Authenticated uid))
  = if has_role db uid admin
    then filter (fun t => holds (sql_eq Bool.eqb (Task.is_deleted t) (Some true)))
                (tasks db)
    else [].
Proof.
  unfold select_tasks, visible. destruct (has_role db uid admin) eqn:Hadm.
  - apply filter_of_readable. intros t _ Hdel. apply holds_flag in Hdel.
    rewrite tasks_select_using, Hdel. exact Hadm.
  - apply filter_none. intros t Ht. apply filter_In in Ht.
    destruct Ht as [_ Hvis]. rewrite tasks_select_using in Hvis.
    destruct (Task.is_deleted t) as [[|]|]; try reflexivity. congruence.
Qed.

(** X17.  The list of the trash page is empty for every subject who is
    not admin, whether the page calls for it or not.  For an admin, when
    the list loads, it holds exactly the soft-deleted tasks, the most
    recently deleted first (those without a deletion date before all). *)
Theorem trash_lists_deleted_tasks (db : database) (uid : uuid) :
  (has_role db uid admin = false ->
   TrashPage.loadDeletedTasks db (Authenticated uid) = Some [])
  /\ (has_role db uid admin = true ->
      forall l, TrashPage.loadDeletedTasks db (Authenticated uid) = Some l ->
        (forall t, In t (map TrashPage.task l)
                   <-> In t (tasks db) /\ Task.is_deleted t = Some true)
        /\ Sorted (fun a b => before_desc (Task.deleted_at a) (Task.deleted_at b) = true)
                  (map TrashPage.task l)).
Proof.
  unfold TrashPage.loadDeletedTasks. rewrite trashed_rows_read. split.
  - intros ->. reflexivity.
  - intros -> l Hl.
    apply (traverse_map _ TrashPage.task) in Hl.
    + rewrite Hl. split; [|apply order_desc_sorted].
      intros t. rewrite In_order_desc, filter_In, holds_flag. tauto.
    + intros t y Hy. cbv beta in Hy.
      destruct (traverse (TrashPage.assignee_username db (Authenticated uid)) _);
        [|discriminate].
      injection Hy as <-. reflexivity.
Qed.

Lemma trash_lists_deleted_tasks_witness :
  TrashPage.loadDeletedTasks Sample.db (Authenticated "e1") = Some []
  /\ (forall t, In t (map TrashPage.task
                        [ {| TrashPage.task := Sample.archive;
                             TrashPage.assignees := ["bob@example.com"] |} ])
                <-> In t (tasks Sample.db) /\ Task.is_deleted t = Some true).
Proof.
  pose proof (trash_lists_deleted_tasks Sample.db "e1") as He.
  pose proof (trash_lists_deleted_tasks Sample.db "a1") as Ha.
  split; [exact (proj1 He eq_refl)|].
  exact (proj1 (proj2 Ha eq_refl _ eq_refl)).
Defined.

(** X18.  The trash page reads the username of every assignee of every
    soft-deleted task, and a disabled profile is readable by its owner
    only: when a soft-deleted task is assigned to a disabled user other
    than the admin who looks, the load throws and the page gets no list
    at all. *)
Theorem trash_fails_on_disabled_assignee (db : database) (uid u : uuid)
    (t : Task.row) (a : TaskAssignee.row) (p : Profile.row) :
  constraints_ok db = true ->
  has_role db uid admin = true ->
  In t (tasks db) -> Task.is_deleted t = Some true ->
  In a (task_assignees db) ->
  TaskAssignee.task_id a = Some (Task.id t) ->
  TaskAssignee.user_id a = Some u ->
  In p (profiles db) -> Profile.id p = u -> Profile.status p = disabled ->
  u <> uid ->
  TrashPage.loadDeletedTasks db (Authenticated uid) = None.
Proof.
  intros Hok Hadm Hin Hdel Ha Hfk Hu Hp Hpid Hdis Hother.
  unfold TrashPage.loadDeletedTasks. rewrite trashed_rows_read, Hadm.
  apply (traverse_stops _ _ t).
  - apply In_order_desc. apply filter_In. split; [exact Hin|].
    apply holds_flag. exact Hdel.
  - rewrite (traverse_stops (TrashPage.assignee_username db (Authenticated uid))
               _ a); [reflexivity| |].
    + unfold assignments_of. apply filter_In. split.
      * rewrite assignees_all_visible. exact Ha.
      * cbn [matches eq_task_id]. rewrite Hfk, holds_sql_eq_Some.
        apply String.eqb_refl.
    + unfold TrashPage.assignee_username, embedded_profile. rewrite Hu.
      destruct (find _ _) as [r|] eqn:E; [|reflexivity].
      apply find_some in E. destruct E as [Hr Hrid].
      unfold visible in Hr. apply filter_In in Hr. destruct Hr as [Hr Hvis].
      apply String.eqb_eq in Hrid.
      assert (r = p).
      { apply (nodupb_unique Profile.id (profiles db)); try assumption.
        - apply constraints_profiles_pk. exact Hok.
        - congruence. }
      subst r.
      rewrite profiles_select_using, Hdis, Hpid in Hvis.
      rewrite (eqb_false_of_neq _ _ Hother) in Hvis. discriminate.
Qed.

Lemma trash_fails_on_disabled_assignee_witness :
  TrashPage.loadDeletedTasks Sample.db_carol_on_archive (Authenticated "a1") = None.
Proof.
  refine (trash_fails_on_disabled_assignee Sample.db_carol_on_archive "a1" "e2"
            Sample.archive
            {| TaskAssignee.id := "x3"; TaskAssignee.task_id := Some "t2";
               TaskAssignee.user_id := Some "e2";
               TaskAssignee.assigned_at := Some 14%Z |}
            Sample.carol eq_refl eq_refl (or_intror (or_introl eq_refl)) eq_refl
            (or_intror (or_intror (or_introl eq_refl))) eq_refl eq_refl
            (or_intror (or_intror (or_introl eq_refl))) eq_refl eq_refl _).
  discriminate.
Defined.

(** ** Constraints that refuse a statement *)

Lemma nodupb_snoc_dup {A : Type} (eqb : A -> A -> bool) (l : list A) (x : A) :
  (forall a b, eqb a b = true -> eqb b a = true) ->
  existsb (eqb x) l = true ->
  nodupb eqb (l ++ [x])%list = false.
Proof.
  intros Hsym. induction l as [|y l IH]; simpl; [discriminate|].
  intros H. apply orb_true_iff in H. destruct H as [H|H].
  - rewrite existsb_app. simpl. rewrite (Hsym x y H), !orb_true_r. reflexivity.
  - rewrite (IH H). apply andb_false_r.
Qed.

Lemma string_eqb_sym_true (a b : string) :
  String.eqb a b = true -> String.eqb b a = true.
Proof. rewrite String.eqb_sym. auto. Qed.

Lemma pair_eqb_sym_true (a b : uuid * uuid) :
  pair_eqb a b = true -> pair_eqb b a = true.
Proof.
  unfold pair_eqb. rewrite !andb_true_iff.
  intros [H1 H2]. split; apply string_eqb_sym_true; assumption.
Qed.

(** X19.  The sign-up trigger inserts the profile in the transaction of
    the account: when the id of the new account is already an account's,
    or when its default username (its email, or ['user_'] and its id) is
    already the username of a profile, the creation is refused with a
    constraint violation and neither account nor profile is added. *)
Theorem account_creation_refused_on_conflict (db : database)
    (now : timestamptz) (NEW : AuthUser.row) :
  existsb (String.eqb (AuthUser.id NEW)) (map AuthUser.id (auth_users db)) = true
  \/ existsb (String.eqb (coalesce (AuthUser.email NEW)
                            ("user_" ++ AuthUser.id NEW)%string))
             (map Profile.username (profiles db)) = true ->
  on_auth_user_created now NEW db = Err constraint_violation
  /\ state_after db (on_auth_user_created now NEW db) = db.
Proof.
  intros Hdup.
  assert (E : on_auth_user_created now NEW db = Err constraint_violation).
  { unfold on_auth_user_created, commit.
    destruct (constraints_ok _) eqn:E; [exfalso|reflexivity].
    revert E. unfold constraints_ok, handle_new_user.
    cbn [set_profiles set_auth_users auth_users profiles tasks task_assignees
         task_comments task_attachments].
    rewrite !andb_true_iff, !map_app. cbn [map Profile.id Profile.username].
    intros [[[[[Hu [[Hp Hn] Hfk]] _] _] _] _].
    destruct Hdup as [Hd|Hd].
    - apply (eq_true_false_abs _ Hu).
      apply (nodupb_snoc_dup String.eqb); [exact string_eqb_sym_true|exact Hd].
    - apply (eq_true_false_abs _ Hn).
      apply (nodupb_snoc_dup String.eqb); [exact string_eqb_sym_true|exact Hd]. }
  rewrite E. split; reflexivity.
Qed.

Lemma account_creation_refused_on_conflict_witness :
  on_auth_user_created 100%Z Sample.dave Sample.db_bob_renamed
  = Err constraint_violation
  /\ state_after Sample.db_bob_renamed
       (on_auth_user_created 100%Z Sample.dave Sample.db_bob_renamed)
     = Sample.db_bob_renamed.
Proof.
  apply (account_creation_refused_on_conflict Sample.db_bob_renamed 100%Z
           Sample.dave).
  right. reflexivity.
Defined.

Lemma assignment_key_present (rows : list TaskAssignee.row)
    (a : TaskAssignee.row) (t u : uuid) :
  In a rows ->
  TaskAssignee.task_id a = Some t -> TaskAssignee.user_id a = Some u ->
  existsb (pair_eqb (t, u)) (assignment_keys rows) = true.
Proof.
  intros Hin Ht Hu. apply existsb_exists. exists (t, u). split.
  - unfold assignment_keys. apply in_flat_map. exists a.
    split; [exact Hin|]. rewrite Ht, Hu. left. reflexivity.
  - unfold pair_eqb. cbn [fst snd]. rewrite !String.eqb_refl. reflexivity.
Qed.

(** X20.  An assignment is unique per task and user: the INSERT by an
    admin of a row that links a task and a user already linked is refused
    with a constraint violation and changes nothing. *)
Theorem duplicate_assignment_refused (db : database) (uid t u : uuid)
    (a a' : TaskAssignee.row) (returning : bool) :
  has_role db uid admin = true ->
  In a (task_assignees db) ->
  TaskAssignee.task_id a = Some t -> TaskAssignee.user_id a = Some u ->
  TaskAssignee.task_id a' = Some t -> TaskAssignee.user_id a' = Some u ->
  insert_task_assignees db (Authenticated uid)
    {| ins_rows := [a']; ins_returning := returning |}
  = Err constraint_violation.
Proof.
  intros Hadm Hin Ht Hu Ht' Hu'.
  unfold insert_task_assignees, insert_rows, readable.
  cbn [ins_rows ins_returning forallb].
  rewrite assignees_insert_check, Hadm.
  replace (if returning
           then allow_using task_assignees_policies SELECT db (Authenticated uid) a'
           else true) with true by (destruct returning; reflexivity).
  cbn [andb bind]. unfold commit.
  destruct (constraints_ok _) eqn:E; [exfalso|reflexivity].
  revert E. unfold constraints_ok.
  cbn [set_task_assignees auth_users profiles tasks task_assignees task_comments
       task_attachments].
  rewrite !andb_true_iff.
  intros [[[_ [_ Hk]] _] _].
  unfold assignment_keys in Hk. rewrite flat_map_app in Hk.
  cbn [flat_map] in Hk. rewrite Ht', Hu', app_nil_r in Hk.
  apply (eq_true_false_abs _ Hk).
  apply (nodupb_snoc_dup pair_eqb); [exact pair_eqb_sym_true|].
  apply (assignment_key_present _ a t u Hin Ht Hu).
Qed.

Lemma duplicate_assignment_refused_witness :
  insert_task_assignees Sample.db (Authenticated "a1")
    {| ins_rows := [ {| TaskAssignee.id := "x9"; TaskAssignee.task_id := Some "t1";
                        TaskAssignee.user_id := Some "e1";
                        TaskAssignee.assigned_at := None |} ];
       ins_returning := false |}
  = Err constraint_violation.
Proof.
  apply (duplicate_assignment_refused Sample.db "a1" "t1" "e1"
           {| TaskAssignee.id := "x1"; TaskAssignee.task_id := Some "t1";
              TaskAssignee.user_id := Some "e1";
              TaskAssignee.assigned_at := Some 12%Z |});
    try reflexivity.
  left. reflexivity.
Defined.

(** ** The counts of the dashboard *)

Lemma ltb_irrefl (d : string) : String.ltb d d = false.
Proof.
  unfold String.ltb. pose proof (String.compare_antisym d d) as H.
  destruct (String.compare d d); try reflexivity. discriminate.
Qed.

Lemma due_before_not_on (today : string) (t : Task.row) :
  Dashboard.due_before today t = true -> Dashboard.due_on today t = false.
Proof.
  unfold Dashboard.due_before, Dashboard.due_on.
  destruct (Task.due_date t) as [d|]; [|discriminate].
  intros H. apply andb_true_iff in H. destruct H as [_ H].
  destruct (String.eqb d today) eqn:E; [|reflexivity].
  apply String.eqb_eq in E. subst d. rewrite ltb_irrefl in H. discriminate.
Qed.

Lemma length_insert_desc {R : Type} (key : R -> option timestamptz) (x : R)
    (l : list R) :
  length (insert_desc key x l) = S (length l).
Proof.
  induction l as [|y l IH]; simpl; [reflexivity|].
  destruct (before_desc (key x) (key y)); simpl; [reflexivity|].
  rewrite IH. reflexivity.
Qed.

Lemma length_order_desc {R : Type} (key : R -> option timestamptz) (l : list R) :
  length (order_desc key l) = length l.
Proof.
  unfold order_desc. induction l as [|x l IH]; simpl; [reflexivity|].
  rewrite length_insert_desc, IH. reflexivity.
Qed.

Lemma taskStats_partition (today : string) (tasks : list Task.row) :
  Dashboard.completed (Dashboard.taskStats today tasks)
  + Dashboard.low_open (Dashboard.taskStats today tasks)
  + Dashboard.medium_open (Dashboard.taskStats today tasks)
  + Dashboard.high_open (Dashboard.taskStats today tasks)
  = length tasks.
Proof.
  unfold Dashboard.taskStats, Dashboard.not_done.
  cbn [Dashboard.completed Dashboard.low_open Dashboard.medium_open
       Dashboard.high_open].
  induction tasks as [|t l IH]; [reflexivity|].
  cbn [filter length].
  destruct (Task.status t), (Task.priority t); cbn; lia.
Qed.

Lemma taskStats_due (today : string) (tasks : list Task.row) :
  Dashboard.overdue (Dashboard.taskStats today tasks)
  + Dashboard.dueToday (Dashboard.taskStats today tasks)
  <= Dashboard.low_open (Dashboard.taskStats today tasks)
     + Dashboard.medium_open (Dashboard.taskStats today tasks)
     + Dashboard.high_open (Dashboard.taskStats today tasks).
Proof.
  unfold Dashboard.taskStats, Dashboard.not_done.
  cbn [Dashboard.overdue Dashboard.dueToday Dashboard.low_open
       Dashboard.medium_open Dashboard.high_open].
  induction tasks as [|t l IH]; [reflexivity|].
  cbn [filter].
  pose proof (due_before_not_on today t) as Hex.
  destruct (Dashboard.due_before today t), (Dashboard.due_on today t);
    try (specialize (Hex eq_refl); discriminate);
    destruct (Task.status t), (Task.priority t);
    cbn [length negb andb TaskStatus_eqb Priority_eqb]; lia.
Qed.

(** X21.  The counts of the dashboard add up: the completed tasks and
    the open tasks of low, medium and high priority are together as many
    as the cards of the board for the same subject, a task counts as
    overdue or as due today but not both, and only open tasks count as
    either. *)
Theorem dashboard_counts_add_up (db : database) (uid : uuid) (today : string) :
  let st := Dashboard.loadStats db (Authenticated uid) today in
  Dashboard.completed st + Dashboard.low_open st + Dashboard.medium_open st
  + Dashboard.high_open st
  = length (TasksPage.loadTasks db (Authenticated uid))
  /\ Dashboard.overdue st + Dashboard.dueToday st
     <= Dashboard.low_open st + Dashboard.medium_open st + Dashboard.high_open st.
Proof.
  intros st. subst st. unfold Dashboard.loadStats. split.
  - rewrite taskStats_partition. unfold TasksPage.loadTasks.
    rewrite length_map, length_order_desc. reflexivity.
  - apply taskStats_due.
Qed.

Lemma board_lists_live_tasks_witness :
  In Sample.report
     (map TasksPage.task (TasksPage.loadTasks Sample.db (Authenticated "a1")))
  /\ TasksPage.comments_count
       {| TasksPage.task := Sample.report;
          TasksPage.assignees := [Some Sample.bob];
          TasksPage.comments_count := 1 |}
     = length (filter (fun c => holds (sql_eq String.eqb (TaskComment.task_id c)
                                         (Some (Task.id Sample.report))))
                      (task_comments Sample.db)).
Proof.
  pose proof (board_lists_live_tasks Sample.db "a1") as H.
  split.
  - apply (proj1 H). split; [left; reflexivity|reflexivity].
  - exact (proj2 (proj2 H)
             {| TasksPage.task := Sample.report;
                TasksPage.assignees := [Some Sample.bob];
                TasksPage.comments_count := 1 |}
             (or_introl eq_refl)).
Defined.
